(** * Tool loading, caching and configuration overlays of open_webui

    A shallow embedding of
      - backend/open_webui/utils/plugin.py     (frontmatter, import rewrite,
                                                module cache, dependencies)
      - backend/open_webui/models/tools.py     (the tool table)
      - backend/open_webui/routers/tools.py    (listing, update, valves)
    together with the properties the specification states about them.

    Python [str] values are modelled as lists of 8-bit characters
    ([list ascii], read as the code points 0..255); [str.strip] and
    [str.lower] follow Python on that range.  Code points above 255 are
    outside the model. *)

From Stdlib Require Import ZArith Ascii String List Bool Lia.
From stdpp Require Import base option list gmap strings sorting.

Open Scope Z_scope.
Close Scope Z_scope.
Open Scope list_scope.

(** ** Text *)

Module Text.

Abbreviation str := (list ascii).

(** A Python string literal. *)
Definition lit (s : string) : str := list_ascii_of_string s.

(** [s.startswith(p)] *)
Fixpoint startswith (p s : str) : bool :=
  match p, s with
  | [], _ => true
  | _ :: _, [] => false
  | a :: p', b :: s' => if ascii_dec a b then startswith p' s' else false
  end.

(** [p in s] for strings: [p] is a contiguous part of [s]. *)
Fixpoint contains (p s : str) : bool :=
  startswith p s ||
  match s with
  | [] => false
  | _ :: s' => contains p s'
  end.

(** [p] occurs in [s] at some position. *)
Definition occurs (p s : str) : Prop := ∃ a b, s = a ++ p ++ b.

(** [s.replace(old, new)] for a non-empty [old]: scan from the left, replace
    each match and continue after it.  [skip] counts the characters of the
    match that are still to be dropped. *)
Fixpoint replace_go (old new : str) (skip : nat) (s : str) : str :=
  match s with
  | [] => []
  | c :: t =>
      match skip with
      | S k => replace_go old new k t
      | O =>
          if startswith old s
          then new ++ replace_go old new (length old - 1) t
          else c :: replace_go old new 0 t
      end
  end.

(** [s.replace(old, new)]; with an empty [old] Python puts [new] before every
    character and at the end. *)
Definition replace (old new s : str) : str :=
  match old with
  | [] => new ++ flat_map (λ c, c :: new) s
  | _ :: _ => replace_go old new 0 s
  end.

(** The non-empty suffixes of [s], longest first. *)
Fixpoint tails (s : str) : list str :=
  match s with
  | [] => []
  | _ :: t => s :: tails t
  end.

(** One of the two texts starts with the other. *)
Definition comparable (a b : str) : bool := startswith a b || startswith b a.

(** [q] cannot sit across an inserted copy of [new]: no non-empty end of [q]
    is comparable with [new], and [q] is comparable with no proper non-empty
    end of [new]. *)
Definition apart (new q : str) : Prop :=
  (∀ b, b ≠ [] → b `suffix_of` q → ¬ (b `prefix_of` new ∨ new `prefix_of` b)) ∧
  (∀ n, n ≠ [] → n `suffix_of` new → n ≠ new →
        ¬ (q `prefix_of` n ∨ n `prefix_of` q)).

Definition apartb (new q : str) : bool :=
  forallb (λ b, negb (comparable b new)) (tails q) &&
  forallb (λ n, negb (comparable q n)) (tail (tails new)).

(** [s.split(sep)] for a one-character separator; the result is never
    empty: [''.split(',') == ['']]. *)
Fixpoint split (sep : ascii) (s : str) : list str :=
  match s with
  | [] => [[]]
  | c :: t =>
      if ascii_dec c sep then [] :: split sep t
      else match split sep t with
           | [] => [[c]]
           | w :: ws => (c :: w) :: ws
           end
  end.

(** [s.split(sep, 1)]: the text before the first [sep] and, when there is
    one, the text after it. *)
Fixpoint split1 (sep : ascii) (s : str) : str * option str :=
  match s with
  | [] => ([], None)
  | c :: t =>
      if ascii_dec c sep then ([], Some t)
      else let '(a, b) := split1 sep t in (c :: a, b)
  end.

(** The text before and after the first occurrence of [p]. *)
Fixpoint cut (p s : str) : option (str * str) :=
  if startswith p s then Some ([], drop (length p) s)
  else match s with
       | [] => None
       | c :: t =>
           match cut p t with
           | Some (a, b) => Some (c :: a, b)
           | None => None
           end
       end.

(** [c.isspace()] on the code points 0..255: tab, line feed, vertical tab,
    form feed, carriage return, the separators 28..31, space, NEL (133) and
    the no-break space (160). *)
Definition isspace (c : ascii) : bool :=
  let n := nat_of_ascii c in
  ((9 <=? n) && (n <=? 13)) || ((28 <=? n) && (n <=? 32))
  || (n =? 133) || (n =? 160).

Arguments isspace : simpl never.

Fixpoint lstrip (s : str) : str :=
  match s with
  | [] => []
  | c :: t => if isspace c then lstrip t else s
  end.

Definition rstrip (s : str) : str := rev (lstrip (rev s)).

(** [s.strip()] *)
Definition strip (s : str) : str := lstrip (rstrip s).

(** [c.lower()] on the code points 0..255: A-Z and the accented capitals
    192..222 (but the multiplication sign 215) move up by 32. *)
Definition lower_char (c : ascii) : ascii :=
  let n := nat_of_ascii c in
  if ((65 <=? n) && (n <=? 90))
     || ((192 <=? n) && (n <=? 222) && negb (n =? 215))
  then ascii_of_nat (n + 32) else c.

(** [s.lower()] *)
Definition lower (s : str) : str := map lower_char s.

(** [sep.join(l)] *)
Fixpoint join (sep : str) (l : list str) : str :=
  match l with
  | [] => []
  | x :: xs =>
      match xs with
      | [] => x
      | _ :: _ => x ++ sep ++ join sep xs
      end
  end.

(** [s.replace(old, new, 1)]: only the first match is replaced. *)
Definition replace_first (old new s : str) : str :=
  match cut old s with
  | Some (a, b) => a ++ new ++ b
  | None => s
  end.

Definition newline : ascii := "010"%char.
Definition colon : ascii := ":"%char.
Definition comma : ascii := ","%char.
Definition dquote : ascii := "034"%char.

(** The delimiter of a docstring: three double quotes. *)
Definition triple_quote : str := [dquote; dquote; dquote].

End Text.

Import Text.

(** ** plugin.py: replace_imports *)

Definition replacements : list (str * str) :=
  [ (lit "from utils",  lit "from open_webui.utils");
    (lit "from apps",   lit "from open_webui.apps");
    (lit "from main",   lit "from open_webui.main");
    (lit "from config", lit "from open_webui.config") ].

(** [for old, new in replacements.items(): content = content.replace(old, new)] *)
Definition replace_imports (content : str) : str :=
  fold_left (λ content '(old, new), replace old new content) replacements content.

(** ** plugin.py: extract_frontmatter *)

Abbreviation frontmatter := (gmap str str).

(** [re.search] for a delimiter, a lazy group of any characters (DOTALL) and
    a delimiter again, and [match.group(1)].
    The search starts at the first delimiter; the lazy group ends at the
    first delimiter after it.  When the first delimiter is never closed no
    later start can match either, since a closing delimiter for a later
    start would close the first one too. *)
Definition search_docstring (content : str) : option str :=
  '(_, rest) ← cut triple_quote content;
  '(block, _) ← cut triple_quote rest;
  Some block.

(** One turn of the loop over the lines of the block; [None] is a raised
    exception ([key, value = ...] with a single part). *)
Definition frontmatter_line (fm : frontmatter) (line : str) : option frontmatter :=
  if contains [colon] line then
    match split1 colon line with
    | (key, Some value) => Some (<[lower (strip key) := strip value]> fm)
    | (_, None) => None
    end
  else Some fm.

Fixpoint frontmatter_lines (fm : frontmatter) (lines : list str) : option frontmatter :=
  match lines with
  | [] => Some fm
  | line :: rest =>
      match frontmatter_line fm line with
      | Some fm' => frontmatter_lines fm' rest
      | None => None
      end
  end.

(** The body of the [try] block; [None] stands for an exception raised in
    it, [Some] for the value the function goes on to return. *)
Definition frontmatter_try (content : str) : option frontmatter :=
  match search_docstring content with
  | None => Some ∅
  | Some frontmatter_str =>
      frontmatter_lines ∅ (split newline (strip frontmatter_str))
  end.

Definition extract_frontmatter (content : str) : frontmatter :=
  if negb (contains triple_quote (fst (split1 newline content))) then ∅
  else match frontmatter_try content with
       | Some fm => fm
       | None => ∅   (* except Exception: return {} *)
       end.

(** ** Values stored in JSON columns *)

#[warnings="-register-all"]
Inductive json :=
  | JNull
  | JBool (b : bool)
  | JNum (n : Z)
  | JStr (s : str)
  | JArr (l : list json)
  | JObj (m : gmap str json).

Abbreviation dict := (gmap str json).

(** Python truth value of a JSON value ([if x:]). *)
Definition truthy (j : json) : bool :=
  match j with
  | JNull => false
  | JBool b => b
  | JNum n => negb (n =? 0)%Z
  | JStr s => match s with [] => false | _ => true end
  | JArr l => match l with [] => false | _ => true end
  | JObj m => negb (bool_decide (m = ∅))
  end.

Definition is_dict (j : json) : bool :=
  match j with JObj _ => true | _ => false end.

(** ** Errors *)

(** [ERROR_MESSAGES] of open_webui.constants, as far as the routers here use
    it, and the exceptions that cross function boundaries. *)
Inductive error :=
  | HTTPException (status_code : nat) (detail : error_detail)
  | Exception (msg : str)
with error_detail :=
  | NOT_FOUND
  | UNAUTHORIZED
  | DEFAULT (cause : error)
  | Detail (msg : str).

Inductive result (A : Type) :=
  | Ok (a : A)
  | Raise (e : error).
Arguments Ok {A} a.
Arguments Raise {A} e.

(** ** models/users.py, as far as models/tools.py shows it *)

Record UserResponse := mkUser {
  user_ident : str;            (* id *)
  user_name : str;             (* name *)
  role : str;
  email : str;
  profile_image_url : str
}.

(** ** models/tools.py *)

Module Tool.
(** A row of the table [tool]. *)
Record row := mk {
  id : str;
  user_id : option str;
  name : str;
  content : str;
  specs : json;
  meta : dict;
  valves : option dict;
  access_control : option dict;
  updated_at : Z;
  created_at : Z
}.
End Tool.

Record ToolMeta := mkToolMeta {
  description : option str;
  manifest : option dict
}.

Record ToolModel := mkToolModel {
  tm_id : str;
  tm_user_id : option str;
  tm_name : str;
  tm_content : str;
  tm_specs : list json;
  tm_meta : ToolMeta;
  tm_access_control : option dict;
  tm_updated_at : Z;
  tm_created_at : Z
}.

(** [ToolUserModel(ToolModel)]: the model with the joined user. *)
Record ToolUserModel := mkToolUserModel {
  tum_model : ToolModel;
  tum_user : option UserResponse
}.

(** The dictionary [Tools.update_tool_by_id] is given, for the columns the
    callers in this repository pass: a column that is [None] is not in the
    dictionary.  The method itself writes any column it is given; what is
    stated about it below is about updates of these columns. *)
Record ToolUpdate := mkToolUpdate {
  up_name : option str;
  up_content : option str;
  up_specs : option json;
  up_meta : option dict;
  up_access_control : option (option dict)
}.

Definition no_update : ToolUpdate := mkToolUpdate None None None None None.

(** The record store: the tables and a trace of the calls of
    [Tools.update_tool_by_id] (newest last). *)
Record Store := mkStore {
  tools : list Tool.row;
  users : list UserResponse;
  update_calls : list (str * ToolUpdate)
}.

(** Pydantic validation of the [meta] column into [ToolMeta]:
    [description: Optional[str] = None], [manifest: Optional[dict] = {}];
    other keys are ignored, a value of another type is a validation error. *)
Definition validate_meta (m : dict) : option ToolMeta :=
  d ← match m !! lit "description" with
      | None | Some JNull => Some None
      | Some (JStr s) => Some (Some s)
      | Some _ => None
      end;
  mf ← match m !! lit "manifest" with
       | None => Some (Some ∅)
       | Some JNull => Some None
       | Some (JObj o) => Some (Some o)
       | Some _ => None
       end;
  Some (mkToolMeta d mf).

(** [ToolModel.model_validate] on a row whose [specs] is the list [sp]:
    [specs: list[dict]] asks every element to be a dictionary. *)
Definition model_validate (t : Tool.row) (sp : list json) : option ToolModel :=
  if forallb is_dict sp then
    m ← validate_meta (Tool.meta t);
    Some (mkToolModel (Tool.id t) (Tool.user_id t) (Tool.name t)
            (Tool.content t) sp m (Tool.access_control t)
            (Tool.updated_at t) (Tool.created_at t))
  else None.

(** [[specs_value] if specs_value else []] for a [specs] that is no list. *)
Definition wrap_specs (sp : json) : list json :=
  match sp with
  | JArr l => l
  | _ => if truthy sp then [sp] else []
  end.

Definition has_id (i : str) (t : Tool.row) : bool := bool_decide (Tool.id t = i).
Definition owned_by (u : option str) (t : Tool.row) : bool :=
  bool_decide (Tool.user_id t = u).

(** [joinedload(Tool.user)]: the user the foreign key points to. *)
Definition joined_user (st : Store) (t : Tool.row) : option UserResponse :=
  match Tool.user_id t with
  | None => None
  | Some u => find (λ x, bool_decide (user_ident x = u)) (users st)
  end.

(** [Tools.get_tool_by_id]: [None] when no row has the id and when the
    validation fails (the exception is logged and swallowed). *)
Definition get_tool_by_id (st : Store) (i : str) : option ToolModel :=
  t ← find (has_id i) (tools st);
  model_validate t (wrap_specs (Tool.specs t)).

Definition apply_update (upd : ToolUpdate) (now : Z) (t : Tool.row) : Tool.row :=
  Tool.mk (Tool.id t) (Tool.user_id t)
    (default (Tool.name t) (up_name upd))
    (default (Tool.content t) (up_content upd))
    (default (Tool.specs t) (up_specs upd))
    (default (Tool.meta t) (up_meta upd))
    (Tool.valves t)
    (default (Tool.access_control t) (up_access_control upd))
    now (Tool.created_at t).

(** [Tools.update_tool_by_id]: every row with the id takes the given columns
    and a new [updated_at]; the answer is [get_tool_by_id] afterwards. *)
Definition update_tool_by_id (st : Store) (i : str) (upd : ToolUpdate) (now : Z)
  : Store * option ToolModel :=
  let st' := mkStore
    (map (λ t, if has_id i t then apply_update upd now t else t) (tools st))
    (users st) (update_calls st ++ [(i, upd)]) in
  (st', get_tool_by_id st' i).

(** [ORDER BY updated_at DESC], as a stable insertion sort: rows with equal
    [updated_at] keep the order of the table. *)
Fixpoint insert_desc (t : Tool.row) (l : list Tool.row) : list Tool.row :=
  match l with
  | [] => [t]
  | x :: l' =>
      if (Tool.updated_at x <=? Tool.updated_at t)%Z then t :: l
      else x :: insert_desc t l'
  end.

Definition order_by_updated_at_desc (l : list Tool.row) : list Tool.row :=
  foldr insert_desc [] l.

(** Validation of every element of a list; the first failure raises. *)
Fixpoint validate_all {A B} (f : A → option B) (l : list A) : result (list B) :=
  match l with
  | [] => Ok []
  | x :: l' =>
      match f x with
      | None => Raise (Exception (lit "ValidationError"))
      | Some y =>
          match validate_all f l' with
          | Ok ys => Ok (y :: ys)
          | Raise e => Raise e
          end
      end
  end.

Definition system_user_placeholder : UserResponse :=
  mkUser (lit "system") (lit "WeidSyntara") (lit "system")
         (lit "system@local.host") [].

(** [Tools.get_tools] *)
Definition get_tools (st : Store) : result (list ToolUserModel) :=
  validate_all
    (λ t,
       tool_model ← model_validate t (wrap_specs (Tool.specs t));
       Some (match tm_user_id tool_model with
             | None =>
                 mkToolUserModel
                   (mkToolModel (tm_id tool_model) None (tm_name tool_model)
                      (match tm_content tool_model with
                       | [] => lit "A WeidSyntara system tool."
                       | c => c
                       end)
                      (tm_specs tool_model) (tm_meta tool_model)
                      (tm_access_control tool_model)
                      (tm_updated_at tool_model) (tm_created_at tool_model))
                   (Some system_user_placeholder)
             | Some _ => mkToolUserModel tool_model (joined_user st t)
             end))
    (order_by_updated_at_desc (tools st)).

(** [Tools.get_system_tools].  The loop calls
    [self._prepare_tool_for_response], a method [ToolsTable] does not
    define: without a system tool in the table the loop body is not reached
    and the answer is the empty list; otherwise its first turn raises an
    AttributeError. *)
Definition get_system_tools (st : Store) : result (list ToolUserModel) :=
  match List.filter (owned_by None) (order_by_updated_at_desc (tools st)) with
  | [] => Ok []
  | _ :: _ => Raise (Exception (lit "AttributeError"))
  end.

(** [ToolUserModel.model_validate(tool)] of [get_tools_by_user_id]: here a
    [specs] that is no list is a validation error. *)
Definition validate_tool_user (st : Store) (t : Tool.row) : option ToolUserModel :=
  match Tool.specs t with
  | JArr l =>
      tool_model ← model_validate t l;
      Some (mkToolUserModel tool_model (joined_user st t))
  | _ => None
  end.

(** Modelled from the spec: the table of functions (the "companion extension
    type", open_webui.models.functions) is not in src/; plugin.py reads the
    [content] of a function, lists the active ones and updates [content] and
    [is_active]. *)
Record Function := mkFunction {
  fn_id : str;
  fn_content : str;
  fn_is_active : bool
}.

(** ** The world the loader and the routers act on *)

(** [request.app.state]: [TOOLS] is always there, the two function caches are
    attributes that may be missing ([hasattr]). *)
Record AppState (Mod : Type) := mkAppState {
  TOOLS : gmap str Mod;
  FUNCTIONS : option (gmap str Mod);
  FUNCTION_CONTENTS : option (gmap str str)
}.
Arguments mkAppState {Mod}.
Arguments TOOLS {Mod}.
Arguments FUNCTIONS {Mod}.
Arguments FUNCTION_CONTENTS {Mod}.

(** The store, the process state and two traces: the package installer's
    command lines and the sources handed to [exec] (newest last).  [clock]
    is [int(time.time())]; time stands still during one request. *)
Record World (Mod : Type) := mkWorld {
  store : Store;
  functions : list Function;
  app : AppState Mod;
  pip_calls : list (list str);
  executed : list str;
  clock : Z
}.
Arguments mkWorld {Mod}.
Arguments store {Mod}.
Arguments functions {Mod}.
Arguments app {Mod}.
Arguments pip_calls {Mod}.
Arguments executed {Mod}.
Arguments clock {Mod}.

(** What the code takes from outside this repository.  [Mod] is the type of
    capability objects (instances of a tool's [Tools] class or of a
    function's [Pipe], [Filter] or [Action]). *)
Record Env (Mod : Type) := mkEnv {
  (** [exec(content, module.__dict__)] and [module.Tools()]; [None] when an
      exception is raised or the module has no [Tools]. *)
  exec_tool : str → option Mod;
  (** The same for functions, with the kind of the class that was found. *)
  exec_function : str → option (Mod * str);
  (** [hasattr(module, "Valves")] *)
  has_valves : Mod → bool;
  (** The dump of the [Valves] object built from the given keyword
      arguments; [None] is a validation error. *)
  valves_validate : Mod → dict → option dict;
  (** [Valves.model_json_schema()] *)
  valves_schema : Mod → dict;
  (** [get_tool_specs] of open_webui.utils.tools *)
  get_tool_specs : Mod → list json;
  (** [has_access(user_id, permission, access_control)] of
      open_webui.utils.access_control *)
  has_access : str → str → option dict → bool;
  (** [subprocess.check_call] of the installer returned normally. *)
  pip_succeeds : list str → bool;
  sys_executable : str;
  PIP_OPTIONS : list str;
  PIP_PACKAGE_INDEX_OPTIONS : list str;
  (** [os.getenv("TOOLS_DIR")] *)
  TOOLS_DIR : option str;
  (** The text of a file; [None] when it cannot be read. *)
  read_file : str → option str;
  (** [{**tool.meta}] for the [ToolMeta] object of a [ToolModel]: the
      unpacking asks for a mapping.  A pydantic model has no [keys], so
      CPython raises a TypeError here ([None]); the results below do not
      depend on what it yields. *)
  unpack_meta : ToolMeta → option dict
}.
Arguments exec_tool {Mod}.
Arguments exec_function {Mod}.
Arguments has_valves {Mod}.
Arguments valves_validate {Mod}.
Arguments valves_schema {Mod}.
Arguments get_tool_specs {Mod}.
Arguments has_access {Mod}.
Arguments pip_succeeds {Mod}.
Arguments sys_executable {Mod}.
Arguments PIP_OPTIONS {Mod}.
Arguments PIP_PACKAGE_INDEX_OPTIONS {Mod}.
Arguments TOOLS_DIR {Mod}.
Arguments read_file {Mod}.
Arguments unpack_meta {Mod}.

(** A computation that reads and changes the world and may raise. *)
Definition prog (Mod A : Type) : Type := World Mod → result A * World Mod.

#[global] Instance prog_ret {Mod} : MRet (prog Mod) := λ A a w, (Ok a, w).
#[global] Instance prog_bind {Mod} : MBind (prog Mod) := λ A B f m w,
  match m w with
  | (Ok a, w') => f a w'
  | (Raise e, w') => (Raise e, w')
  end.

Definition raise {Mod A} (e : error) : prog Mod A := λ w, (Raise e, w).
Definition world {Mod} : prog Mod (World Mod) := λ w, (Ok w, w).
Definition set_world {Mod} (f : World Mod → World Mod) : prog Mod unit :=
  λ w, (Ok (), f w).
Definition of_result {Mod A} (r : result A) : prog Mod A := λ w, (r, w).
Definition of_option {Mod A} (o : option A) (e : error) : prog Mod A :=
  λ w, (match o with Some a => Ok a | None => Raise e end, w).

(** [try: m except Exception as e: h e] *)
Definition try_except {Mod A} (m : prog Mod A) (h : error → prog Mod A)
  : prog Mod A :=
  λ w, match m w with
       | (Ok a, w') => (Ok a, w')
       | (Raise e, w') => h e w'
       end.

Definition set_store {Mod} (f : Store → Store) (w : World Mod) : World Mod :=
  mkWorld (f (store w)) (functions w) (app w) (pip_calls w) (executed w) (clock w).
Definition set_functions {Mod} (f : list Function → list Function)
  (w : World Mod) : World Mod :=
  mkWorld (store w) (f (functions w)) (app w) (pip_calls w) (executed w) (clock w).
Definition set_app {Mod} (f : AppState Mod → AppState Mod) (w : World Mod)
  : World Mod :=
  mkWorld (store w) (functions w) (f (app w)) (pip_calls w) (executed w) (clock w).
Definition log_pip {Mod} (argv : list str) (w : World Mod) : World Mod :=
  mkWorld (store w) (functions w) (app w) (pip_calls w ++ [argv]) (executed w) (clock w).
Definition log_exec {Mod} (src : str) (w : World Mod) : World Mod :=
  mkWorld (store w) (functions w) (app w) (pip_calls w) (executed w ++ [src]) (clock w).

(** [Tools.update_tool_by_id], acting on the world. *)
Definition Tools_update {Mod} (i : str) (upd : ToolUpdate)
  : prog Mod (option ToolModel) :=
  λ w, let '(st, r) := update_tool_by_id (store w) i upd (clock w) in
       (Ok r, set_store (λ _, st) w).

(** [Functions.get_function_by_id] *)
Definition get_function_by_id (fs : list Function) (i : str) : option Function :=
  find (λ f, bool_decide (fn_id f = i)) fs.

(** [Functions.update_function_by_id(id, {"content": c})] *)
Definition update_function_content (i c : str) (fs : list Function) : list Function :=
  map (λ f, if bool_decide (fn_id f = i)
            then mkFunction (fn_id f) c (fn_is_active f) else f) fs.

(** [Functions.update_function_by_id(id, {"is_active": b})] *)
Definition update_function_active (i : str) (b : bool) (fs : list Function)
  : list Function :=
  map (λ f, if bool_decide (fn_id f = i)
            then mkFunction (fn_id f) (fn_content f) b else f) fs.

(** ** plugin.py: installing requirements *)

Definition nonempty (s : str) : bool := match s with [] => false | _ => true end.

(** [[req.strip() for req in requirements.split(",") if req.strip()]] *)
Definition req_list_of (requirements : str) : list str :=
  List.filter nonempty (map strip (split comma requirements)).

Definition pip_argv {Mod} (env : Env Mod) (req_list : list str) : list str :=
  [sys_executable env; lit "-m"; lit "pip"; lit "install"]
  ++ PIP_OPTIONS env ++ req_list ++ PIP_PACKAGE_INDEX_OPTIONS env.

Definition install_frontmatter_requirements {Mod} (env : Env Mod)
  (requirements : str) : prog Mod unit :=
  if nonempty requirements then
    let req_list := req_list_of requirements in
    match req_list with
    | [] => mret ()
    | _ :: _ =>
        set_world (log_pip (pip_argv env req_list));;
        if pip_succeeds env (pip_argv env req_list) then mret ()
        else raise (Exception (lit "CalledProcessError"))
    end
  else mret ().

(** [frontmatter.get("requirements", "")] *)
Definition requirements_of (fm : frontmatter) : str :=
  default [] (fm !! lit "requirements").

(** ** plugin.py: loading modules *)

(** [os.path.join(a, b)] on POSIX. *)
Definition path_join (a b : str) : str :=
  if startswith (lit "/") b then b
  else match a with
       | [] => b
       | _ => if bool_decide (last a = Some "/"%char) then a ++ b
              else a ++ lit "/" ++ b
       end.

(** The file a system tool is loaded from. *)
Definition tool_file_path {Mod} (env : Env Mod) (tool_id : str) : str :=
  let tool_name := replace_first (lit "custom_") [] tool_id in
  let tools_dir := default (lit "/app/weidsyntara/tools") (TOOLS_DIR env) in
  path_join tools_dir (tool_name ++ lit ".py").

(** [load_tool_module_by_id].  The registration in [sys.modules] and the
    temporary file are not part of the model; a failed load leaves the world
    as the steps before the failure made it. *)
Definition load_tool_module_by_id {Mod} (env : Env Mod) (tool_id : str)
  (content : option str) : prog Mod (Mod * frontmatter) :=
  if startswith (lit "custom_") tool_id then
    file_content ← of_option (read_file env (tool_file_path env tool_id))
                     (Exception (lit "FileNotFoundError"));
    set_world (log_exec file_content);;
    m ← of_option (exec_tool env file_content)
          (Exception (lit "error loading the module"));
    mret (m, extract_frontmatter file_content)
  else
    content ← match content with
              | None =>
                  w ← world;
                  tool ← of_option (get_tool_by_id (store w) tool_id)
                           (Exception (lit "Toolkit not found"));
                  let content := replace_imports (tm_content tool) in
                  Tools_update tool_id
                    (mkToolUpdate None (Some content) None None None);;
                  mret content
              | Some content =>
                  install_frontmatter_requirements env
                    (requirements_of (extract_frontmatter content));;
                  mret content
              end;
    set_world (log_exec content);;
    m ← of_option (exec_tool env content)
          (Exception (lit "error loading the module"));
    mret (m, extract_frontmatter content).

Definition load_function_module_by_id {Mod} (env : Env Mod) (function_id : str)
  (content : option str) : prog Mod (Mod * str * frontmatter) :=
  content ← match content with
            | None =>
                w ← world;
                function ← of_option (get_function_by_id (functions w) function_id)
                             (Exception (lit "Function not found"));
                let content := replace_imports (fn_content function) in
                set_world (set_functions (update_function_content function_id content));;
                mret content
            | Some content =>
                install_frontmatter_requirements env
                  (requirements_of (extract_frontmatter content));;
                mret content
            end;
  set_world (log_exec content);;
  match exec_function env content with
  | Some (m, kind) => mret (m, kind, extract_frontmatter content)
  | None =>
      set_world (set_functions (update_function_active function_id false));;
      raise (Exception (lit "error loading the module"))
  end.

(** ** plugin.py: get_function_module_from_cache *)

Definition cached_function {Mod} (a : AppState Mod) (i : str) : option Mod :=
  FUNCTIONS a ≫= (.!! i).

Definition store_function {Mod} (i : str) (m : Mod) (a : AppState Mod)
  : AppState Mod :=
  mkAppState (TOOLS a) (Some (<[i := m]> (default ∅ (FUNCTIONS a))))
    (Some (default ∅ (FUNCTION_CONTENTS a))).

Definition store_function_content {Mod} (i : str) (c : str) (a : AppState Mod)
  : AppState Mod :=
  mkAppState (TOOLS a) (FUNCTIONS a)
    (Some (<[i := c]> (default ∅ (FUNCTION_CONTENTS a)))).

Definition get_function_module_from_cache {Mod} (env : Env Mod)
  (function_id : str) (load_from_db : bool)
  : prog Mod (Mod * option str * option frontmatter) :=
  let finish (loaded : Mod * str * frontmatter) (content : option str) :=
    let '(function_module, function_type, fm) := loaded in
    set_world (set_app (store_function function_id function_module));;
    match content with
    | Some content =>
        set_world (set_app (store_function_content function_id content));;
        mret (function_module, Some function_type, Some fm)
    | None =>
        (* [content] was never bound on this path *)
        raise (Exception (lit "UnboundLocalError"))
    end in
  if load_from_db then
    w ← world;
    function ← of_option (get_function_by_id (functions w) function_id)
                 (Exception (lit "Function not found"));
    let content := fn_content function in
    let new_content := replace_imports content in
    (if bool_decide (new_content ≠ content)
     then set_world (set_functions (update_function_content function_id new_content))
     else mret ());;
    w ← world;
    match FUNCTION_CONTENTS (app w) ≫= (.!! function_id),
          cached_function (app w) function_id with
    | Some snapshot, Some m =>
        if bool_decide (snapshot = new_content) then mret (m, None, None)
        else
          loaded ← load_function_module_by_id env function_id (Some new_content);
          finish loaded (Some new_content)
    | _, _ =>
        loaded ← load_function_module_by_id env function_id (Some new_content);
        finish loaded (Some new_content)
    end
  else
    w ← world;
    match cached_function (app w) function_id with
    | Some m => mret (m, None, None)
    | None =>
        loaded ← load_function_module_by_id env function_id None;
        finish loaded None
    end.

(** ** plugin.py: install_tool_and_function_dependencies *)

(** [if dependencies := frontmatter.get("requirements"):
       for dep in dependencies.split(','): all_dependencies.add(dep.strip())] *)
Definition add_dependencies (fm : frontmatter) (all_dependencies : gset str)
  : gset str :=
  match fm !! lit "requirements" with
  | Some (c :: d) => all_dependencies ∪ list_to_set (map strip (split comma (c :: d)))
  | _ => all_dependencies
  end.

(** [Functions.get_functions(active_only=True)] *)
Definition active_functions (fs : list Function) : list Function :=
  List.filter fn_is_active fs.

(** The frontmatter the batch takes from one tool of [Tools.get_tools()]. *)
Definition tool_frontmatter {Mod} (env : Env Mod) (tool : ToolUserModel)
  : frontmatter :=
  let m := tum_model tool in
  if bool_decide (tm_user_id m = None) && startswith (lit "custom_") (tm_id m) then
    match read_file env (tool_file_path env (tm_id m)) with
    | Some file_content => extract_frontmatter file_content
    | None => ∅
    end
  else
    match tum_user tool with
    | Some u =>
        if bool_decide (role u = lit "admin")
        then extract_frontmatter (replace_imports (tm_content m))
        else ∅
    | None => ∅
    end.

(** The set [all_dependencies] after the two loops. *)
Definition collect_dependencies {Mod} (env : Env Mod)
  (function_list : list Function) (tool_list : list ToolUserModel) : gset str :=
  let after_functions :=
    fold_left (λ deps function,
                 add_dependencies
                   (extract_frontmatter (replace_imports (fn_content function))) deps)
              function_list ∅ in
  fold_left (λ deps tool, add_dependencies (tool_frontmatter env tool) deps)
            tool_list after_functions.

Definition install_tool_and_function_dependencies {Mod} (env : Env Mod)
  : prog Mod unit :=
  w ← world;
  let function_list := active_functions (functions w) in
  tool_list ← of_result (get_tools (store w));
  try_except
    (let all_dependencies := collect_dependencies env function_list tool_list in
     if bool_decide (all_dependencies ≠ ∅)
     then install_frontmatter_requirements env
            (join (lit ", ") (elements all_dependencies))
     else mret ())
    (λ _, mret ()).

(** ** models/tools.py: get_tools_by_user_id *)

Definition accessible {Mod} (env : Env Mod) (user_id permission : str)
  (t : Tool.row) : bool :=
  bool_decide (Tool.user_id t = Some user_id)
  || has_access env user_id permission (Tool.access_control t).

Definition get_tools_by_user_id {Mod} (env : Env Mod) (st : Store)
  (user_id permission : str) : result (list ToolUserModel) :=
  let accessible_tools :=
    List.filter (accessible env user_id permission)
      (order_by_updated_at_desc (tools st)) in
  match validate_all (validate_tool_user st) accessible_tools with
  | Raise e => Raise e
  | Ok l =>
      match get_system_tools st with
      | Raise e => Raise e
      | Ok sys => Ok (l ++ sys)
      end
  end.

(** ** routers/tools.py *)

(** [GET /list] *)
Definition get_tool_list {Mod} (env : Env Mod) (st : Store) (user : UserResponse)
  : result (list ToolUserModel) :=
  if bool_decide (role user = lit "admin") then get_tools st
  else get_tools_by_user_id env st (user_ident user) (lit "write").

(** The body of a [ToolForm] after [model_dump(exclude={"id"},
    exclude_unset=True)].  [ToolForm] declares [name], [content] and [meta]
    as required, so a form parsed from a request has them; [None] keeps the
    cases the router itself tells apart with [in updated_data]. *)
Record ToolForm := mkToolForm {
  form_id : str;
  form_name : option str;
  form_content : option str;
  form_meta : option dict;
  form_access_control : option (option dict)
}.

Definition http_400 {Mod A} (e : error) : prog Mod A :=
  raise (HTTPException 400 (DEFAULT e)).

Definition json_of_frontmatter (fm : frontmatter) : json := JObj (JStr <$> fm).

Definition set_TOOLS {Mod} (i : str) (m : Mod) (a : AppState Mod) : AppState Mod :=
  mkAppState (<[i := m]> (TOOLS a)) (FUNCTIONS a) (FUNCTION_CONTENTS a).

(** [POST /id/{id}/update] *)
Definition update_tools_by_id {Mod} (env : Env Mod) (id : str)
  (form_data : ToolForm) (user : UserResponse) : prog Mod ToolModel :=
  w ← world;
  tool ← of_option (get_tool_by_id (store w) id) (HTTPException 404 NOT_FOUND);
  if bool_decide (tm_user_id tool ≠ None)
     && bool_decide (tm_user_id tool ≠ Some (user_ident user))
     && negb (has_access env (user_ident user) (lit "write") (tm_access_control tool))
     && bool_decide (role user ≠ lit "admin")
  then raise (HTTPException 401 UNAUTHORIZED)
  else
    try_except
      (match tm_user_id tool with
       | None =>
           (* a system tool: only [name] and [meta] are taken over *)
           meta ← match form_meta form_data with
                  | None => mret None
                  | Some m =>
                      old ← of_option (unpack_meta env (tm_meta tool))
                              (Exception (lit "TypeError"));
                      mret (Some (m ∪ old))
                  end;
           match form_name form_data, meta with
           | None, None => mret tool
           | _, _ =>
               updated_tool ← Tools_update id
                 (mkToolUpdate (form_name form_data) None None meta None);
               of_option updated_tool
                 (HTTPException 400 (Detail (lit "Error updating tool")))
           end
       | Some _ =>
           content ← of_option (form_content form_data)
                       (Exception (lit "TypeError"));
           '(tool_module, fm) ← load_tool_module_by_id env id
                                   (Some (replace_imports content));
           meta ← of_option (form_meta form_data) (Exception (lit "KeyError"));
           let meta := <[lit "manifest" := json_of_frontmatter fm]> meta in
           set_world (set_app (set_TOOLS id tool_module));;
           updated_tool ← Tools_update id
             (mkToolUpdate (form_name form_data) (form_content form_data)
                (Some (JArr (get_tool_specs env tool_module))) (Some meta)
                (form_access_control form_data));
           of_option updated_tool
             (HTTPException 400 (Detail (lit "Error updating tool")))
       end)
      http_400.

(** The id of the personal copy a user has of a tool. *)
Definition personal_copy_id (id user_id : str) : str :=
  id ++ lit "_user_" ++ user_id.

(** [GET /id/{id}/valves] *)
Definition get_tools_valves_by_id (st : Store) (id : str) (user : UserResponse)
  : result (option dict) :=
  match find (λ t, has_id (personal_copy_id id (user_ident user)) t
                   && owned_by (Some (user_ident user)) t) (tools st) with
  | Some personal_copy => Ok (Tool.valves personal_copy)
  | None =>
      match find (has_id id) (tools st) with
      | None => Raise (HTTPException 404 NOT_FOUND)
      | Some tool_blueprint =>
          if bool_decide (Tool.user_id tool_blueprint ≠ None)
             && bool_decide (Tool.user_id tool_blueprint ≠ Some (user_ident user))
             && bool_decide (role user ≠ lit "admin")
          then Raise (HTTPException 401 UNAUTHORIZED)
          else Ok (Tool.valves tool_blueprint)
      end
  end.

(** [if id in request.app.state.TOOLS: ... else: load and remember] *)
Definition tools_module_of {Mod} (env : Env Mod) (id : str) : prog Mod Mod :=
  w ← world;
  match TOOLS (app w) !! id with
  | Some tools_module => mret tools_module
  | None =>
      '(tools_module, _) ← load_tool_module_by_id env id None;
      set_world (set_app (set_TOOLS id tools_module));;
      mret tools_module
  end.

(** [GET /id/{id}/valves/spec] *)
Definition get_tools_valves_spec_by_id {Mod} (env : Env Mod) (id : str)
  (user : UserResponse) : prog Mod (option dict) :=
  w ← world;
  tool ← of_option (get_tool_by_id (store w) id) (HTTPException 404 NOT_FOUND);
  if bool_decide (role user ≠ lit "admin")
     && bool_decide (tm_user_id tool ≠ None)
     && bool_decide (tm_user_id tool ≠ Some (user_ident user))
  then raise (HTTPException 401 UNAUTHORIZED)
  else
    tools_module ← tools_module_of env id;
    if has_valves env tools_module
    then mret (Some (valves_schema env tools_module))
    else mret None.

(** What the session of [update_tools_valves_by_id] will write at commit. *)
Inductive valves_target :=
  | NewCopy (personal_copy : Tool.row)     (* [db.add(personal_copy)] *)
  | Existing (id : str).                   (* a row loaded by the session *)

(** [{k: v for k, v in form_data.items() if v is not None}] *)
Definition drop_none (form_data : dict) : dict :=
  omap (λ v, match v with JNull => None | _ => Some v end) form_data.

Definition set_valves (v : dict) (now : Z) (t : Tool.row) : Tool.row :=
  Tool.mk (Tool.id t) (Tool.user_id t) (Tool.name t) (Tool.content t)
    (Tool.specs t) (Tool.meta t) (Some v) (Tool.access_control t)
    now (Tool.created_at t).

(** [db.commit()] of that session. *)
Definition commit_valves (target : valves_target) (v : dict) (now : Z)
  (st : Store) : Store :=
  mkStore
    (match target with
     | NewCopy personal_copy => tools st ++ [set_valves v now personal_copy]
     | Existing i =>
         map (λ t, if has_id i t then set_valves v now t else t) (tools st)
     end)
    (users st) (update_calls st).

(** [POST /id/{id}/valves/update].  The session [db] writes nothing before
    [db.commit()]; an exception rolls it back, so only what the loader did in
    its own sessions stays. *)
Definition update_tools_valves_by_id {Mod} (env : Env Mod) (id : str)
  (form_data : dict) (user : UserResponse) : prog Mod dict :=
  try_except
    (w ← world;
     let st := store w in
     '(tool_to_update, blueprint_id_for_module_load) ←
       match find (λ t, has_id id t && owned_by None t) (tools st) with
       | None =>
           match find (λ t, has_id id t && owned_by (Some (user_ident user)) t)
                   (tools st) with
           | None => raise (HTTPException 404 NOT_FOUND)
           | Some user_tool => mret (Existing (Tool.id user_tool), Tool.id user_tool)
           end
       | Some tool_blueprint =>
           let personal_copy_id := personal_copy_id id (user_ident user) in
           match find (has_id personal_copy_id) (tools st) with
           | None =>
               mret (NewCopy
                       (Tool.mk personal_copy_id (Some (user_ident user))
                          (Tool.name tool_blueprint) (Tool.content tool_blueprint)
                          (Tool.specs tool_blueprint)
                          (Tool.meta tool_blueprint
                             ∪ {[ lit "parent_tool_id" := JStr id ]})
                          (Some form_data) None (clock w) (clock w)),
                     Tool.id tool_blueprint)
           | Some personal_copy =>
               mret (Existing (Tool.id personal_copy), Tool.id tool_blueprint)
           end
       end;
     tools_module ← tools_module_of env blueprint_id_for_module_load;
     if has_valves env tools_module then
       validated_valves ← of_option
         (valves_validate env tools_module (drop_none form_data))
         (Exception (lit "ValidationError"));
       w ← world;
       set_world (set_store (commit_valves tool_to_update validated_valves (clock w)));;
       mret validated_valves
     else
       raise (HTTPException 400
                (Detail (lit "Tool does not support customizable valves."))))
    http_400.

(** ** Concrete instances for the examples *)

(** Modelled from the spec: [has_access] of open_webui.utils.access_control
    is not in src/.  The spec describes the descriptor as "either null =
    public-read/owner-write, or a descriptor listing principal/group ids
    granted read/write": without a descriptor only [read] is granted;
    otherwise the user has to be listed under the permission's [user_ids]
    (group membership is left out). *)
Definition has_access_model (user_id permission : str) (access_control : option dict)
  : bool :=
  match access_control with
  | None => bool_decide (permission = lit "read")
  | Some d =>
      match d !! permission with
      | Some (JObj p) =>
          match p !! lit "user_ids" with
          | Some (JArr l) =>
              existsb (λ j, match j with
                            | JStr u => bool_decide (u = user_id)
                            | _ => false
                            end) l
          | _ => false
          end
      | _ => false
      end
  end.

(** A descriptor that lists [users] under [permission]. *)
Definition grant (permission : str) (users : list str) : dict :=
  {[ permission := JObj {[ lit "user_ids" := JArr (JStr <$> users) ]} ]}.

(** An environment in which a module is identified with the source it was
    built from, every module has a [Valves] class that accepts any
    dictionary, and no file can be read. *)
Definition demo_env : Env str :=
  mkEnv str
    Some (λ c, Some (c, lit "pipe"))
    (λ _, true) (λ _ d, Some d) (λ _, ∅) (λ _, [])
    has_access_model (λ _, true)
    (lit "python") [] [] None (λ _, None) (λ _, None).

Definition empty_app : AppState str := mkAppState ∅ None None.

Definition demo_world (rows : list Tool.row) (us : list UserResponse)
  (fs : list Function) (a : AppState str) : World str :=
  mkWorld (mkStore rows us []) fs a [] [] 100.

Definition demo_user (i r : string) : UserResponse :=
  mkUser (lit i) (lit i) (lit r) [] [].

Definition alice : UserResponse := demo_user "alice" "user".
Definition bob : UserResponse := demo_user "bob" "user".
Definition admin : UserResponse := demo_user "root" "admin".

Definition demo_tool (i : string) (owner : option string) (src : str)
  (v : option dict) (ac : option dict) (updated : Z) : Tool.row :=
  Tool.mk (lit i) (lit <$> owner) (lit i) src (JArr [])
    {[ lit "description" := JStr (lit "demo"); lit "manifest" := JObj ∅ ]}
    v ac updated 1.

Definition celsius : dict := {[ lit "unit" := JStr (lit "celsius") ]}.

(** ** Notions used in the statements *)

(** The legacy prefixes the rewrite looks for. *)
Definition olds : list str := map fst replacements.

(** The entry a line contributes: the lower-cased, trimmed text before its
    first colon and the trimmed text after it. *)
Definition entry (line : str) : option (str * str) :=
  match split1 colon line with
  | (key, Some value) => Some (lower (strip key), strip value)
  | (_, None) => None
  end.

(** [frontmatter[key] = value] for the entry of a line, if it has one. *)
Definition put (fm : frontmatter) (line : str) : frontmatter :=
  match entry line with Some (k, v) => <[k := v]> fm | None => fm end.

(** A source that starts with a docstring of two entries. *)
Definition demo_source : str :=
  triple_quote ++ lit "description: demo" ++ [newline] ++ lit "requirements: foo,bar"
  ++ triple_quote ++ [newline] ++ lit "class Tools: pass".

(** [s] consists of blanks only. *)
Definition allspace (s : str) : bool := forallb isspace s.

(** The columns an update of a system tool leaves alone. *)
Definition same_core (t t' : Tool.row) : Prop :=
  Tool.id t' = Tool.id t ∧ Tool.user_id t' = Tool.user_id t
  ∧ Tool.content t' = Tool.content t ∧ Tool.specs t' = Tool.specs t
  ∧ Tool.valves t' = Tool.valves t
  ∧ Tool.access_control t' = Tool.access_control t
  ∧ Tool.created_at t' = Tool.created_at t.

(** What [update_tools_by_id] does with the columns it lets through. *)
Definition system_update {Mod} (w : World Mod) (id : str)
  (nm : option str) (mt : option dict) : result ToolModel * World Mod :=
  let '(st', r) :=
    update_tool_by_id (store w) id (mkToolUpdate nm None None mt None) (clock w) in
  (match r with
   | Some t => Ok t
   | None =>
       Raise (HTTPException 400
                (DEFAULT (HTTPException 400 (Detail (lit "Error updating tool")))))
   end, set_store (λ _, st') w).

(** The columns the module loader leaves alone when it writes the rewritten
    source back. *)
Definition same_but_source (t t' : Tool.row) : Prop :=
  Tool.id t' = Tool.id t ∧ Tool.user_id t' = Tool.user_id t
  ∧ Tool.name t' = Tool.name t ∧ Tool.specs t' = Tool.specs t
  ∧ Tool.meta t' = Tool.meta t ∧ Tool.valves t' = Tool.valves t
  ∧ Tool.access_control t' = Tool.access_control t
  ∧ Tool.created_at t' = Tool.created_at t.

(** Between [l] and [l'] only the source and [updated_at] of rows with id
    [i] may differ. *)
Definition touches_only (i : str) (l l' : list Tool.row) : Prop :=
  Forall2 (λ t t', same_but_source t t' ∧ (Tool.id t ≠ i → t' = t)) l l'.

(** [update_tools_valves_by_id] once the row to write and the module to load
    are chosen. *)
Definition valves_finish {Mod} (env : Env Mod) (form_data : dict)
  (target : valves_target) (load_id : str) (w : World Mod)
  : result dict * World Mod :=
  match tools_module_of env load_id w with
  | (Raise e, w1) => (Raise (HTTPException 400 (DEFAULT e)), w1)
  | (Ok m, w1) =>
      if has_valves env m then
        match valves_validate env m (drop_none form_data) with
        | None =>
            (Raise (HTTPException 400 (DEFAULT (Exception (lit "ValidationError")))),
             w1)
        | Some v => (Ok v, set_store (commit_valves target v (clock w1)) w1)
        end
      else
        (Raise (HTTPException 400 (DEFAULT (HTTPException 400
           (Detail (lit "Tool does not support customizable valves."))))), w1)
  end.

(** The personal copy that is added for a blueprint. *)
Definition new_copy (id : str) (form_data : dict) (user : UserResponse)
  (tool_blueprint : Tool.row) (now : Z) : Tool.row :=
  Tool.mk (personal_copy_id id (user_ident user)) (Some (user_ident user))
    (Tool.name tool_blueprint) (Tool.content tool_blueprint)
    (Tool.specs tool_blueprint)
    (Tool.meta tool_blueprint ∪ {[ lit "parent_tool_id" := JStr id ]})
    (Some form_data) None now now.

(** [d["manifest"]["parent_tool_id"]] *)
Definition manifest_parent (meta : dict) : option json :=
  match meta !! lit "manifest" with
  | Some (JObj manifest) => manifest !! lit "parent_tool_id"
  | _ => None
  end.

(** [b] was not updated after [a]. *)
Definition desc (a b : Tool.row) : Prop := (Tool.updated_at b ≤ Tool.updated_at a)%Z.
Definition desc_model (a b : ToolUserModel) : Prop :=
  (tm_updated_at (tum_model b) ≤ tm_updated_at (tum_model a))%Z.

(** A listed model shows the row it was made from. *)
Definition shows (t : Tool.row) (m : ToolUserModel) : Prop :=
  tm_id (tum_model m) = Tool.id t
  ∧ tm_user_id (tum_model m) = Tool.user_id t
  ∧ tm_name (tum_model m) = Tool.name t
  ∧ tm_content (tum_model m) = Tool.content t
  ∧ tm_access_control (tum_model m) = Tool.access_control t
  ∧ tm_updated_at (tum_model m) = Tool.updated_at t
  ∧ tm_created_at (tum_model m) = Tool.created_at t.

(** What the examples look at in a listing. *)
Definition id_and_time (m : ToolUserModel) : str * Z :=
  (tm_id (tum_model m), tm_updated_at (tum_model m)).

(** The frontmatters the batch reads: those of the active functions and
    those it takes from the tools. *)
Definition batch_frontmatters {Mod} (env : Env Mod)
  (function_list : list Function) (tool_list : list ToolUserModel)
  : list frontmatter :=
  map (λ f, extract_frontmatter (replace_imports (fn_content f))) function_list
  ++ map (tool_frontmatter env) tool_list.

(** [x] is declared by [fm]: one of the comma-separated parts of its
    non-empty [requirements], trimmed. *)
Definition declares (fm : frontmatter) (x : str) : Prop :=
  ∃ c d p, fm !! lit "requirements" = Some (c :: d)
           ∧ p ∈ split comma (c :: d) ∧ x = strip p.

(** ** Worlds of the examples *)

(** A stored tool whose source holds no legacy import. *)
Definition canonical_world : World str :=
  demo_world [demo_tool "t" (Some "alice") (lit "x = 1") None None 5]
    [alice] [] empty_app.

(** The tool cache holds a module built from an older source. *)
Definition stale_world : World str :=
  demo_world [demo_tool "t" (Some "alice") (lit "x = 2") None None 5]
    [alice] [] (mkAppState {[ lit "t" := lit "x = 1" ]} None None).

(** A function whose module and source snapshot are cached. *)
Definition cached_world : World str :=
  demo_world [] [] [mkFunction (lit "f") (lit "x = 1") true]
    (mkAppState ∅ (Some {[ lit "f" := lit "x = 1" ]})
       (Some {[ lit "f" := lit "x = 1" ]})).

(** The blueprint [weather]: owner absent, configuration [{}]. *)
Definition weather_world : World str :=
  demo_world [demo_tool "weather" None (lit "x = 1") (Some ∅) None 5]
    [alice; bob] [] empty_app.

(** What [Tools.get_tool_by_id] answers for it. *)
Definition weather_model : ToolModel :=
  mkToolModel (lit "weather") None (lit "weather") (lit "x = 1") []
    (mkToolMeta (Some (lit "demo")) (Some ∅)) None 5 1.

(** Bob owns a tool under the id derived from (weather, alice). *)
Definition collision_world : World str :=
  demo_world
    [demo_tool "weather" None (lit "x = 1") (Some ∅) None 5;
     demo_tool "weather_user_alice" (Some "bob") (lit "y = 2") (Some ∅) None 4]
    [alice; bob] [] empty_app.

(** The blueprint's source still has a legacy import. *)
Definition legacy_world : World str :=
  demo_world [demo_tool "weather" None (lit "from utils import x") (Some ∅) None 5]
    [alice; bob] [] empty_app.

(** Alice's tool [notes] with the access-control descriptor [ac]; its module
    is cached. *)
Definition notes_world (ac : option dict) : World str :=
  demo_world [demo_tool "notes" (Some "alice") (lit "x = 1") (Some ∅) ac 5]
    [alice; bob; admin] []
    (mkAppState {[ lit "notes" := lit "x = 1" ]} None None).

(** Alice's tool, a system blueprint, and a tool of Bob that grants Alice
    read. *)
Definition listing_world : World str :=
  demo_world
    [demo_tool "mine" (Some "alice") (lit "x = 1") None
       (Some (grant (lit "write") [])) 1;
     demo_tool "weather" None (lit "x = 2") None None 2;
     demo_tool "shared" (Some "bob") (lit "x = 3") None
       (Some (grant (lit "read") [lit "alice"])) 3]
    [alice; bob] [] empty_app.

(** A tool with requirements whose owner is an ordinary user, ... *)
Definition bob_tool_world : World str :=
  demo_world [demo_tool "t" (Some "bob") demo_source None None 5]
    [bob] [] empty_app.

(** ... and the same tool owned by an administrator. *)
Definition admin_tool_world : World str :=
  demo_world [demo_tool "t" (Some "root") demo_source None None 5]
    [admin] [] empty_app.

(** ** More text operations *)

(** [s.lstrip(c)] and [s.rstrip(c)] for a single character [c]. *)
Fixpoint lstrip_char (c : ascii) (s : str) : str :=
  match s with
  | [] => []
  | x :: t => if ascii_dec x c then lstrip_char c t else s
  end.

Definition rstrip_char (c : ascii) (s : str) : str := rev (lstrip_char c (rev s)).

(** [s.endswith(p)] *)
Definition endswith (p s : str) : bool := startswith (rev p) (rev s).

(** What is left of [s] behind the prefix [p]. *)
Fixpoint after_prefix (p s : str) : option str :=
  match p, s with
  | [], _ => Some s
  | _ :: _, [] => None
  | a :: p', b :: s' => if ascii_dec a b then after_prefix p' s' else None
  end.

Definition slash : ascii := "/"%char.

(** The pattern [([^/]+)/]: a non-empty run without a slash, then a slash.
    The run is greedy and cannot pass a slash, so it ends at the first one. *)
Definition segment (s : str) : option (str * str) :=
  match split1 slash s with
  | (a, Some rest) => if nonempty a then Some (a, rest) else None
  | (_, None) => None
  end.

(** [str.isidentifier] on the code points 0..255: a letter or underscore
    first (XID_Start holds, besides A-Z and a-z, the code points 170, 181,
    186, 192..214, 216..246 and 248..255), then letters, digits, underscores
    and the middle dot 183. *)
Definition xid_start (c : ascii) : bool :=
  let n := nat_of_ascii c in
  ((65 <=? n) && (n <=? 90)) || ((97 <=? n) && (n <=? 122)) || (n =? 95)
  || (n =? 170) || (n =? 181) || (n =? 186)
  || ((192 <=? n) && (n <=? 214)) || ((216 <=? n) && (n <=? 246))
  || ((248 <=? n) && (n <=? 255)).

Definition xid_continue (c : ascii) : bool :=
  let n := nat_of_ascii c in
  xid_start c || ((48 <=? n) && (n <=? 57)) || (n =? 183).

Definition isidentifier (s : str) : bool :=
  match s with
  | [] => false
  | c :: t => xid_start c && forallb xid_continue t
  end.

(** ** routers/tools.py: loading a tool from a link *)

(** [re.match] at the start of [url]: the host [https://github.com/], the
    groups org and repo (each a non-empty run without a slash), the word
    [kind] ([tree] or [blob]), the group branch (such a run again), all
    followed by a slash, and the group path: any characters up to the first
    line feed, which the dot does not match. *)
Definition github_match (kind url : str) : option (str * str * str * str) :=
  rest ← after_prefix (lit "https://github.com/") url;
  '(org, rest) ← segment rest;
  '(repo, rest) ← segment rest;
  rest ← after_prefix (kind ++ [slash]) rest;
  '(branch, rest) ← segment rest;
  Some (org, repo, branch, fst (split1 newline rest)).

Definition raw_host : str := lit "https://raw.githubusercontent.com/".

Definition github_url_to_raw_url (url : str) : str :=
  match github_match (lit "tree") url with
  | Some (org, repo, branch, path) =>
      raw_host ++ org ++ [slash] ++ repo ++ lit "/refs/heads/" ++ branch
      ++ [slash] ++ rstrip_char slash path ++ lit "/main.py"
  | None =>
      match github_match (lit "blob") url with
      | Some (org, repo, branch, path) =>
          raw_host ++ org ++ [slash] ++ repo ++ lit "/refs/heads/" ++ branch
          ++ [slash] ++ path
      | None => url
      end
  end.

(** The name [load_tool_from_url] gives the tool: the file name without
    [.py], unless the file is a [main.py], [index.py] or [__init__.py] (or no
    [.py] at all); then the part before it, or ["function"]. *)
Definition tool_name_of_url (url : str) : str :=
  let url_parts := split slash (rstrip_char slash url) in
  let file_name := default [] (last url_parts) in
  if endswith (lit ".py") file_name
     && negb (startswith (lit "main.py") file_name
              || startswith (lit "index.py") file_name
              || startswith (lit "__init__.py") file_name)
  then take (length file_name - 3) file_name
  else if 1 <? length url_parts
       then nth (length url_parts - 2) url_parts []
       else lit "function".

(** [POST /load/url].  [fetch] stands for the GET request: the body of the
    answer, or [None] when the request fails or the status is an error.  The
    400 raised for an empty body is caught by the handler around it and
    becomes a 500 as well; the text of the caught exception, which the
    detail of the 500 ends with, is left out. *)
Definition load_tool_from_url (fetch : str → option str) (url : str)
  : result (str * str) :=
  if nonempty url then
    let url := github_url_to_raw_url url in
    let tool_name := tool_name_of_url url in
    match fetch url with
    | Some (c :: data) => Ok (tool_name, c :: data)
    | Some [] | None =>
        Raise (HTTPException 500 (Detail (lit "Error importing tool")))
    end
  else Raise (HTTPException 400 (Detail (lit "Please enter a valid URL"))).

(** ** models/tools.py: insert_new_tool and delete_tool_by_id *)

(** A [ToolForm] as pydantic hands it to a route: [id], [name], [content] and
    [meta] are there. *)
Record ValidToolForm := mkValidToolForm {
  vf_id : str;
  vf_name : str;
  vf_content : str;
  vf_meta : ToolMeta;
  vf_access_control : option dict
}.

Definition json_of_option {A} (f : A → json) (o : option A) : json :=
  match o with Some a => f a | None => JNull end.

(** [ToolMeta.model_dump()] *)
Definition dump_meta (m : ToolMeta) : dict :=
  {[ lit "description" := json_of_option JStr (description m);
     lit "manifest" := json_of_option JObj (manifest m) ]}.

(** [Tools.insert_new_tool]: a row under an id that is taken cannot be
    added (the exception is logged, the answer is [None]); otherwise the row
    is added and validated. *)
Definition insert_new_tool (st : Store) (user_id : option str)
  (form_data : ValidToolForm) (specs : list json) (now : Z)
  : Store * option ToolModel :=
  match find (has_id (vf_id form_data)) (tools st) with
  | Some _ => (st, None)
  | None =>
      let result :=
        Tool.mk (vf_id form_data) user_id (vf_name form_data)
          (vf_content form_data) (JArr specs) (dump_meta (vf_meta form_data))
          None (vf_access_control form_data) now now in
      (mkStore (tools st ++ [result]) (users st) (update_calls st),
       model_validate result specs)
  end.

(** [Tools.delete_tool_by_id]: every row with the id is deleted; the answer
    is [False] only when the database raises, which the table here never
    does. *)
Definition delete_tool_by_id (st : Store) (i : str) : Store * bool :=
  (mkStore (List.filter (λ t, negb (has_id i t)) (tools st)) (users st)
     (update_calls st), true).

(** ** routers/tools.py: creating, reading and deleting a tool *)

Definition del_TOOLS {Mod} (i : str) (a : AppState Mod) : AppState Mod :=
  mkAppState (delete i (TOOLS a)) (FUNCTIONS a) (FUNCTION_CONTENTS a).

(** [POST /create].  [has_permission] stands for
    [has_permission(user.id, "workspace.tools", USER_PERMISSIONS)] and the
    detail [ID_TAKEN] for [ERROR_MESSAGES.ID_TAKEN]; the directory made under
    [CACHE_DIR] is not part of the model. *)
Definition create_new_tools {Mod} (env : Env Mod) (has_permission : str → bool)
  (form_data : ValidToolForm) (user : UserResponse) : prog Mod ToolModel :=
  if bool_decide (role user ≠ lit "admin") && negb (has_permission (user_ident user))
  then raise (HTTPException 401 UNAUTHORIZED)
  else if negb (isidentifier (vf_id form_data))
  then raise (HTTPException 400 (Detail (lit
         "Only alphanumeric characters and underscores are allowed in the id")))
  else
    let id := lower (vf_id form_data) in
    w ← world;
    match get_tool_by_id (store w) id with
    | Some _ => raise (HTTPException 400 (Detail (lit "ID_TAKEN")))
    | None =>
        try_except
          (let content := replace_imports (vf_content form_data) in
           '(tool_module, fm) ← load_tool_module_by_id env id (Some content);
           let form_data :=
             mkValidToolForm id (vf_name form_data) content
               (mkToolMeta (description (vf_meta form_data)) (Some (JStr <$> fm)))
               (vf_access_control form_data) in
           set_world (set_app (set_TOOLS id tool_module));;
           let specs := get_tool_specs env tool_module in
           w ← world;
           let '(st, tool) :=
             insert_new_tool (store w) (Some (user_ident user)) form_data specs
               (clock w) in
           set_world (set_store (λ _, st));;
           of_option tool
             (HTTPException 400 (Detail (lit "Error creating tool"))))
          http_400
    end.

(** [GET /id/{id}] *)
Definition get_tools_by_id {Mod} (env : Env Mod) (st : Store) (id : str)
  (user : UserResponse) : result ToolModel :=
  match get_tool_by_id st id with
  | None => Raise (HTTPException 404 NOT_FOUND)
  | Some tool =>
      if bool_decide (role user = lit "admin")
         || bool_decide (tm_user_id tool = Some (user_ident user))
         || bool_decide (tm_user_id tool = None)
         || has_access env (user_ident user) (lit "read") (tm_access_control tool)
      then Ok tool
      else Raise (HTTPException 401 UNAUTHORIZED)
  end.

(** [DELETE /id/{id}/delete] *)
Definition delete_tools_by_id {Mod} (env : Env Mod) (id : str)
  (user : UserResponse) : prog Mod bool :=
  w ← world;
  tool ← of_option (get_tool_by_id (store w) id) (HTTPException 404 NOT_FOUND);
  if bool_decide (tm_user_id tool ≠ Some (user_ident user))
     && negb (has_access env (user_ident user) (lit "write") (tm_access_control tool))
     && bool_decide (role user ≠ lit "admin")
  then raise (HTTPException 401 UNAUTHORIZED)
  else
    let '(st, deleted) := delete_tool_by_id (store w) id in
    set_world (set_store (λ _, st));;
    if deleted then
      set_world (set_app (del_TOOLS id));;
      mret true
    else mret false.

(** ** Notions used in the further properties *)

(** What [Tools.get_tools] shows of a row: its columns, the specs as a list,
    the owner as the joined user; a system tool is shown with the
    placeholder user and, when it has no source, with a placeholder text. *)
Definition listed (st : Store) (t : Tool.row) (m : ToolUserModel) : Prop :=
  tm_id (tum_model m) = Tool.id t
  ∧ tm_user_id (tum_model m) = Tool.user_id t
  ∧ tm_name (tum_model m) = Tool.name t
  ∧ tm_specs (tum_model m) = wrap_specs (Tool.specs t)
  ∧ tm_access_control (tum_model m) = Tool.access_control t
  ∧ tm_updated_at (tum_model m) = Tool.updated_at t
  ∧ tm_created_at (tum_model m) = Tool.created_at t
  ∧ match Tool.user_id t with
    | None =>
        tum_user m = Some system_user_placeholder
        ∧ tm_content (tum_model m)
          = match Tool.content t with
            | [] => lit "A WeidSyntara system tool."
            | c => c
            end
    | Some _ =>
        tum_user m = joined_user st t
        ∧ tm_content (tum_model m) = Tool.content t
    end.

(** A row [Tools.get_tool_by_id] and [Tools.get_tools] can validate. *)
Definition valid_row (t : Tool.row) : Prop :=
  is_Some (model_validate t (wrap_specs (Tool.specs t))).

(** * Properties *)

Example replace_imports_ex1 :
  replace_imports (lit "from utils.misc import x; from configs import y")
  = lit "from open_webui.utils.misc import x; from open_webui.configs import y".
Proof. reflexivity. Qed.

(** ** Facts about text *)

Module TextFacts.

Lemma startswith_prefix (p s : str) : startswith p s = true ↔ p `prefix_of` s.
Proof.
  revert s. induction p as [|a p IH]; intros s; simpl.
  - split; [intros _; apply prefix_nil | done].
  - destruct s as [|b s].
    + split; [done | intros H; by apply prefix_nil_not in H].
    + destruct (ascii_dec a b) as [->|Hne].
      * rewrite IH. split; [apply prefix_cons | apply prefix_cons_inv_2].
      * split; [done | intros H; by apply prefix_cons_inv_1 in H].
Qed.

Lemma startswith_false (p s : str) : startswith p s = false ↔ ¬ p `prefix_of` s.
Proof. rewrite <- startswith_prefix. by destruct (startswith p s). Qed.

Lemma occurs_cons (p : str) c s :
  occurs p (c :: s) ↔ p `prefix_of` (c :: s) ∨ occurs p s.
Proof.
  split.
  - intros ([|a0 a] & b & E); simpl in E.
    + left. by exists b.
    + right. exists a, b. congruence.
  - intros [[b ->] | (a & b & ->)].
    + by exists [], b.
    + by exists (c :: a), b.
Qed.

Lemma occurs_nil (p : str) : occurs p [] ↔ p = [].
Proof.
  split.
  - intros (a & b & E). symmetry in E.
    apply app_eq_nil in E as [_ E]. by apply app_eq_nil in E as [E _].
  - intros ->. by exists [], [].
Qed.

Lemma contains_occurs (p s : str) : contains p s = true ↔ occurs p s.
Proof.
  induction s as [|c s IH]; simpl.
  - rewrite orb_false_r, startswith_prefix, occurs_nil.
    split; [apply prefix_nil_inv | intros ->; done].
  - by rewrite orb_true_iff, startswith_prefix, IH, occurs_cons.
Qed.

Lemma occurs_app_r (p a s : str) : occurs p s → occurs p (a ++ s).
Proof. intros (x & y & ->). exists (a ++ x), y. by rewrite <- app_assoc. Qed.

Lemma elem_of_tails (b s : str) : b ≠ [] → b `suffix_of` s → b ∈ tails s.
Proof.
  intros Hb. destruct b as [|d b]; [done|]. clear Hb.
  induction s as [|c s IH]; intros Hs.
  - by apply suffix_nil_inv in Hs.
  - simpl. apply suffix_cons_inv in Hs as [E|Hs]; [rewrite E; left | right; auto].
Qed.

Lemma comparable_spec (a b : str) :
  comparable a b = false → ¬ (a `prefix_of` b ∨ b `prefix_of` a).
Proof.
  unfold comparable. rewrite orb_false_iff, !startswith_false. tauto.
Qed.

Lemma apartb_apart (new q : str) : apartb new q = true → apart new q.
Proof.
  unfold apartb. rewrite andb_true_iff, !forallb_forall.
  intros [HC HD]. split.
  - intros b Hb Hs. apply comparable_spec, negb_true_iff, HC.
    by apply list_elem_of_In, elem_of_tails.
  - intros n Hn Hs Hne. apply comparable_spec, negb_true_iff, HD.
    apply list_elem_of_In. destruct new as [|c new']; simpl.
    + by apply suffix_nil_inv in Hs.
    + destruct n as [|d n]; [done|].
      apply suffix_cons_inv in Hs as [E|Hs]; [done|]. by apply elem_of_tails.
Qed.

Section replace.
Variables (o : ascii) (old' new : str).
Let old : str := o :: old'.
Let R : str → str := replace_go old new 0.

Lemma replace_go_skip (x r : str) :
  replace_go old new (length x) (x ++ r) = R r.
Proof.
  induction x as [|c x IH]; simpl; [|done].
  subst R. by destruct r.
Qed.

Lemma R_nil : R [] = [].
Proof. done. Qed.

Lemma R_match (r : str) : R (old ++ r) = new ++ R r.
Proof.
  unfold R at 1. simpl. destruct (ascii_dec o o) as [_|]; [|done].
  assert (startswith old' (old' ++ r) = true) as ->.
  { apply startswith_prefix. by exists r. }
  f_equal. rewrite Nat.sub_0_r. apply replace_go_skip.
Qed.

Lemma R_skip c (t : str) : ¬ old `prefix_of` (c :: t) → R (c :: t) = c :: R t.
Proof.
  intros H. apply startswith_false in H. unfold R at 1.
  cbn [replace_go]. by rewrite H.
Qed.

(** A text without a match is left as it is. *)
Lemma R_id (s : str) : ¬ occurs old s → R s = s.
Proof.
  induction s as [|c s IH]; intros H; [done|].
  rewrite occurs_cons in H. rewrite R_skip by tauto. f_equal. apply IH. tauto.
Qed.

Lemma prefix_R (q s : str) :
  (∀ b, b ≠ [] → b `suffix_of` q → ¬ (b `prefix_of` new ∨ new `prefix_of` b)) →
  q `prefix_of` R s → q `prefix_of` s.
Proof.
  revert q. induction s as [|c s IH]; intros q Hq Hp; [done|].
  destruct q as [|d q]; [apply prefix_nil|].
  destruct (decide (old `prefix_of` (c :: s))) as [[r E]|Hn].
  - rewrite E, R_match in Hp. exfalso. apply (Hq (d :: q)); [done..|].
    eapply prefix_weak_total; [done|]. by exists (R r).
  - rewrite R_skip in Hp by done.
    pose proof (prefix_cons_inv_1 _ _ _ _ Hp) as ->.
    apply prefix_cons, IH; [|by eapply prefix_cons_inv_2].
    intros b Hb Hs. apply Hq; [done|]. by apply suffix_cons_r.
Qed.

Lemma occurs_new_app (q n r : str) :
  q ≠ [] →
  (∀ n', n' ≠ [] → n' `suffix_of` n → ¬ (q `prefix_of` n' ∨ n' `prefix_of` q)) →
  occurs q (n ++ r) → occurs q r.
Proof.
  intros Hq. induction n as [|c n IH]; intros Hn; [done|].
  simpl. rewrite occurs_cons. intros [Hp|Ho].
  - exfalso. apply (Hn (c :: n)); [done..|].
    eapply prefix_weak_total; [done|]. by exists r.
  - apply IH; [|done]. intros n' ? Hs. apply Hn; [done|]. by apply suffix_cons_r.
Qed.

(** Every occurrence of [q] in the result was already in the input, at a
    place where [old] did not match. *)
Lemma occurs_R (q s : str) :
  q ≠ [] → apart new q → occurs q (R s) →
  ∃ a s', s = a ++ s' ∧ q `prefix_of` s' ∧ ¬ old `prefix_of` s'.
Proof.
  intros Hq [HC HD]. remember (length s) as n eqn:Hn.
  revert s Hn. induction (lt_wf n) as [n _ IH]; intros s -> Ho.
  destruct s as [|c s]; [by apply occurs_nil in Ho|].
  destruct (decide (old `prefix_of` (c :: s))) as [[r E]|Hno].
  - rewrite E, R_match in Ho.
    assert (occurs q (R r)) as Hr.
    { destruct new as [|n0 new0] eqn:En; [done|].
      simpl in Ho. apply occurs_cons in Ho as [Hp|Ho].
      - exfalso. apply (HC q); [done..|].
        eapply prefix_weak_total; [done|]. by exists (R r).
      - eapply occurs_new_app; [done| |done].
        intros n' ? Hs. apply HD; [done|by apply suffix_cons_r|].
        intros ->. apply suffix_length in Hs. simpl in Hs. lia. }
    destruct (IH (length r)) with (s := r) as (a & s' & -> & ? & ?); [|done..|].
    { rewrite E, length_app. simpl. lia. }
    exists (old ++ a), s'. by rewrite E, <- app_assoc.
  - rewrite R_skip in Ho by done. apply occurs_cons in Ho as [Hp|Ho].
    + exists [], (c :: s). split_and!; [done| |done].
      apply prefix_R; [done|]. by rewrite R_skip.
    + destruct (IH (length s)) with (s := s) as (a & s' & -> & ? & ?); [simpl; lia|done..|].
      by exists (c :: a), s'.
Qed.

(** The result contains no match of [old] itself. *)
Lemma R_no_old (s : str) : apart new old → ¬ occurs old (R s).
Proof.
  intros Ha Ho. by destruct (occurs_R old s) as (? & ? & _ & ? & ?).
Qed.

(** A pattern absent from the input stays absent. *)
Lemma R_keeps_absent (q s : str) :
  q ≠ [] → apart new q → ¬ occurs q s → ¬ occurs q (R s).
Proof.
  intros Hq Ha Hn Ho.
  destruct (occurs_R q s) as (a & s' & -> & [b ->] & _); [done..|].
  apply Hn. by exists a, b.
Qed.
End replace.

End TextFacts.

(** ** The import rewrite reaches a fixed point *)

Module RewriteFacts.
Import TextFacts.

(** None of the legacy prefixes is left in a rewritten text. *)
Lemma replace_imports_clean (s : str) :
  Forall (λ q, ¬ occurs q (replace_imports s)) olds.
Proof.
  unfold replace_imports, replacements, olds. cbn [fold_left map fst].
  unfold replace, lit. cbn [list_ascii_of_string].
  repeat apply Forall_cons_2; [..|apply Forall_nil_2];
    repeat first
      [ apply R_no_old; apply apartb_apart; vm_compute; reflexivity
      | apply R_keeps_absent;
        [ discriminate | apply apartb_apart; vm_compute; reflexivity | ] ].
Qed.

Lemma replace_imports_fixed (s : str) :
  Forall (λ q, ¬ occurs q s) olds → replace_imports s = s.
Proof.
  unfold olds, replacements. cbn [map fst]. rewrite !Forall_cons.
  intros (H1 & H2 & H3 & H4 & _).
  unfold replace_imports, replacements. cbn [fold_left].
  unfold replace, lit in *. cbn [list_ascii_of_string] in *.
  rewrite (R_id _ _ _ s H1), (R_id _ _ _ s H2), (R_id _ _ _ s H3).
  apply (R_id _ _ _ s H4).
Qed.

End RewriteFacts.

Example extract_demo :
  extract_frontmatter demo_source
  = {[ lit "description" := lit "demo"; lit "requirements" := lit "foo,bar" ]}.
Proof. vm_compute. reflexivity. Qed.

Module FrontmatterFacts.
Import TextFacts.

Lemma split1_app (c : ascii) (a b : str) :
  c ∉ a → split1 c (a ++ c :: b) = (a, Some b).
Proof.
  induction a as [|x a IH]; intros Hn; simpl.
  - by destruct (ascii_dec c c).
  - apply not_elem_of_cons in Hn as [Hx Ha].
    destruct (ascii_dec x c) as [->|_]; [done|]. by rewrite IH.
Qed.

Lemma split1_Some (c : ascii) (s a b : str) :
  split1 c s = (a, Some b) ↔ s = a ++ c :: b ∧ c ∉ a.
Proof.
  split; [|intros [-> ?]; by apply split1_app].
  revert a. induction s as [|x s IH]; intros a; simpl; [done|].
  destruct (ascii_dec x c) as [->|Hne].
  - intros [= <- <-]. split; [done|]. apply not_elem_of_nil.
  - destruct (split1 c s) as [a' b'] eqn:E. intros [= <- ->].
    destruct (IH a' eq_refl) as [-> Hn]. split; [done|].
    apply not_elem_of_cons. split; [congruence|done].
Qed.

Lemma split1_None (c : ascii) (s a : str) :
  split1 c s = (a, None) ↔ a = s ∧ c ∉ s.
Proof.
  revert a. induction s as [|x s IH]; intros a; simpl.
  - split; [intros [= <-]; split; [done|apply not_elem_of_nil] | by intros [-> _]].
  - destruct (ascii_dec x c) as [->|Hne].
    + split; [done|]. intros [_ Hn]. exfalso. apply Hn. left.
    + destruct (split1 c s) as [a' b'] eqn:E. split.
      * intros [= <- ->]. destruct (proj1 (IH a') eq_refl) as [-> Hn].
        split; [done|]. apply not_elem_of_cons. split; [congruence|done].
      * intros [-> Hn]. apply not_elem_of_cons in Hn as [_ Hn].
        destruct b' as [b'|].
        -- apply split1_Some in E as [-> _]. exfalso. apply Hn.
           apply elem_of_app. right. left.
        -- by destruct (proj1 (IH a') eq_refl) as [-> _].
Qed.

Lemma contains_char (c : ascii) (s : str) : contains [c] s = true ↔ c ∈ s.
Proof.
  induction s as [|x s IH]; simpl.
  - split; [done|]. intros H. by apply elem_of_nil in H.
  - rewrite orb_true_iff, IH, elem_of_cons.
    destruct (ascii_dec c x) as [->|Hne]; [tauto|].
    split; [intros [?|?]; [done|by right] | intros [?|?]; [done|by right]].
Qed.

Lemma entry_Some (line k v : str) :
  entry line = Some (k, v) ↔
  ∃ before after, line = before ++ colon :: after ∧ (colon ∉ before)
                  ∧ k = lower (strip before) ∧ v = strip after.
Proof.
  unfold entry. destruct (split1 colon line) as [a [b|]] eqn:E.
  - apply split1_Some in E as [-> Hn]. split.
    + intros [= <- <-]. by exists a, b.
    + intros (a' & b' & E' & Hn' & -> & ->).
      assert (split1 colon (a ++ colon :: b) = (a', Some b')) as E2.
      { rewrite E'. by apply split1_app. }
      rewrite split1_app in E2 by done. by injection E2 as <- <-.
  - apply split1_None in E as [-> Hn]. split; [done|].
    intros (a' & b' & -> & _). exfalso. apply Hn, elem_of_app. right. left.
Qed.

Lemma entry_None (line : str) : entry line = None ↔ colon ∉ line.
Proof.
  unfold entry. destruct (split1 colon line) as [a [b|]] eqn:E.
  - apply split1_Some in E as [-> _]. split; [done|].
    intros Hn. exfalso. apply Hn, elem_of_app. right. left.
  - apply split1_None in E as [_ Hn]. done.
Qed.

Lemma frontmatter_line_entry (fm : frontmatter) (line : str) :
  frontmatter_line fm line
  = Some (match entry line with Some (k, v) => <[k := v]> fm | None => fm end).
Proof.
  unfold frontmatter_line. destruct (contains [colon] line) eqn:Ec.
  - apply contains_char in Ec. destruct (entry line) as [[k v]|] eqn:Ee.
    + unfold entry in Ee. destruct (split1 colon line) as [a [b|]]; [|done].
      by injection Ee as <- <-.
    + by apply entry_None in Ee.
  - assert (colon ∉ line) as Hn.
    { intros H. apply contains_char in H. congruence. }
    apply entry_None in Hn. by rewrite Hn.
Qed.

Lemma frontmatter_lines_fold (lines : list str) (fm : frontmatter) :
  frontmatter_lines fm lines = Some (fold_left put lines fm).
Proof.
  revert fm. induction lines as [|l lines IH]; intros fm; simpl; [done|].
  by rewrite frontmatter_line_entry, IH.
Qed.

Lemma snoc_eq_middle {A} (lines l1 l2 : list A) (l line : A) :
  lines ++ [l] = l1 ++ line :: l2 →
  (l2 = [] ∧ lines = l1 ∧ l = line)
  ∨ (∃ l2', l2 = l2' ++ [l] ∧ lines = l1 ++ line :: l2').
Proof.
  intros E. destruct l2 as [|x l2 _] using rev_ind.
  - apply app_inj_tail in E as [E1 E2]. by left.
  - right. exists l2. rewrite app_comm_cons, app_assoc in E.
    apply app_inj_tail in E as [E1 E2]. by subst.
Qed.

(** After the loop a key holds the value of the last line that sets it. *)
Lemma fold_put_lookup (lines : list str) (fm : frontmatter) (k v : str) :
  fold_left put lines fm !! k = Some v ↔
  (∃ l1 line l2, lines = l1 ++ line :: l2 ∧ entry line = Some (k, v)
                 ∧ Forall (λ l, ∀ v', entry l ≠ Some (k, v')) l2)
  ∨ (Forall (λ l, ∀ v', entry l ≠ Some (k, v')) lines ∧ fm !! k = Some v).
Proof.
  revert fm. induction lines as [|l lines IH] using rev_ind; intros fm.
  - simpl. split; [intros H; right; by split|].
    intros [(l1 & line & l2 & E & _)|[_ H]]; [by destruct l1|done].
  - rewrite fold_left_app. simpl. unfold put at 1.
    assert (∀ l1 line l2,
      (∀ v', entry l ≠ Some (k, v')) →
      (lines ++ [l] = l1 ++ line :: l2 ∧ entry line = Some (k, v)
        ∧ Forall (λ l, ∀ v', entry l ≠ Some (k, v')) l2) ↔
      (∃ l2', l2 = l2' ++ [l] ∧ lines = l1 ++ line :: l2'
        ∧ entry line = Some (k, v)
        ∧ Forall (λ l, ∀ v', entry l ≠ Some (k, v')) l2')) as Hshift.
    { intros l1 line l2 Hl. split.
      - intros (E & He & Hf).
        apply snoc_eq_middle in E as [(-> & -> & ->)|(l2' & -> & ->)].
        + by destruct (Hl v).
        + exists l2'. rewrite Forall_app in Hf. by destruct Hf.
      - intros (l2' & -> & -> & He & Hf). split_and!; [|done|].
        + by rewrite <- app_assoc.
        + rewrite Forall_app, Forall_singleton. done. }
    assert ((∀ v', entry l ≠ Some (k, v')) →
      fold_left put lines fm !! k = Some v ↔
      (∃ l1 line l2, lines ++ [l] = l1 ++ line :: l2 ∧ entry line = Some (k, v)
                 ∧ Forall (λ l, ∀ v', entry l ≠ Some (k, v')) l2)
      ∨ (Forall (λ l, ∀ v', entry l ≠ Some (k, v')) (lines ++ [l])
         ∧ fm !! k = Some v)) as Hother.
    { intros Hl. rewrite IH. split.
      - intros [(l1 & line & l2 & -> & He & Hf)|[Hf Hm]].
        + left. exists l1, line, (l2 ++ [l]). apply Hshift; [done|].
          by exists l2.
        + right. by rewrite Forall_app, Forall_singleton.
      - intros [(l1 & line & l2 & H)|[Hf Hm]].
        + apply Hshift in H as (l2' & -> & -> & He & Hf); [|done].
          left. by exists l1, line, l2'.
        + right. rewrite Forall_app in Hf. by destruct Hf. }
    destruct (entry l) as [[k' v']|] eqn:El; [|by apply Hother].
    destruct (decide (k' = k)) as [->|Hne].
    + rewrite lookup_insert_eq. split.
      * intros [= ->]. left. exists lines, l, []. by split_and!.
      * intros [(l1 & line & l2 & E & He & Hf)|[Hf _]].
        -- apply snoc_eq_middle in E as [(-> & -> & ->)|(l2' & -> & ->)].
           ++ congruence.
           ++ rewrite Forall_app, Forall_singleton in Hf.
              destruct Hf as [_ Hf]. by destruct (Hf v').
        -- rewrite Forall_app, Forall_singleton in Hf.
           destruct Hf as [_ Hf]. by destruct (Hf v').
    + rewrite lookup_insert_ne by done. apply Hother. intros v''. congruence.
Qed.

(** No exception is raised inside the [try] block. *)
Lemma frontmatter_try_total (content : str) : is_Some (frontmatter_try content).
Proof.
  unfold frontmatter_try. destruct (search_docstring content); [|done].
  by rewrite frontmatter_lines_fold.
Qed.

End FrontmatterFacts.

Module FrontmatterSpec.
Import TextFacts FrontmatterFacts.

Lemma cut_None (p s : str) : cut p s = None ↔ ¬ occurs p s.
Proof.
  induction s as [|c s IH]; simpl.
  - destruct (startswith p []) eqn:E.
    + apply startswith_prefix in E. split; [done|]. intros H. exfalso. apply H.
      apply occurs_nil. by apply prefix_nil_inv.
    + apply startswith_false in E. split; [|done]. intros _ Ho.
      apply occurs_nil in Ho as ->. by apply E.
  - destruct (startswith p (c :: s)) eqn:E.
    + apply startswith_prefix in E. split; [done|]. intros H. exfalso.
      apply H, occurs_cons. by left.
    + apply startswith_false in E. rewrite occurs_cons.
      destruct (cut p s) as [[a b]|]; [|tauto].
      split; [done|]. intros H.
      assert (Some (a, b) = None) by (apply IH; tauto). done.
Qed.

(** [cut] splits at the first occurrence: no occurrence starts earlier. *)
Lemma cut_Some (p s a b : str) :
  cut p s = Some (a, b) →
  s = a ++ p ++ b ∧
  ∀ a1 a2, a = a1 ++ a2 → a2 ≠ [] → ¬ p `prefix_of` (a2 ++ p ++ b).
Proof.
  revert a. induction s as [|c s IH]; intros a; simpl.
  - destruct (startswith p []) eqn:E; [|done].
    apply startswith_prefix, prefix_nil_inv in E as ->. intros [= <- <-].
    split; [done|]. intros a1 a2 Ha. symmetry in Ha.
    by apply app_eq_nil in Ha as [_ ->].
  - destruct (startswith p (c :: s)) eqn:E.
    + apply startswith_prefix in E as [r E]. intros [= <- <-]. split.
      * rewrite E. simpl. f_equal. by rewrite drop_app_length.
      * intros a1 a2 Ha. symmetry in Ha. by apply app_eq_nil in Ha as [_ ->].
    + apply startswith_false in E. destruct (cut p s) as [[a' b']|]; [|done].
      intros [= <- <-]. destruct (IH a' eq_refl) as [-> Hfirst].
      split; [done|]. intros a1 a2 Ha Hne.
      destruct a1 as [|x a1]; simpl in Ha.
      * by subst a2.
      * injection Ha as -> ->. by eapply Hfirst.
Qed.

(** The block found by the search lies between the first delimiter of the
    text and the first delimiter after it. *)
Lemma search_docstring_Some (content block : str) :
  search_docstring content = Some block →
  ∃ a c, content = a ++ triple_quote ++ block ++ triple_quote ++ c
         ∧ (∀ a1 a2, a = a1 ++ a2 → a2 ≠ [] →
              ¬ triple_quote `prefix_of` (a2 ++ triple_quote ++ block ++ triple_quote ++ c))
         ∧ (∀ b1 b2, block = b1 ++ b2 → b2 ≠ [] →
              ¬ triple_quote `prefix_of` (b2 ++ triple_quote ++ c)).
Proof.
  unfold search_docstring. intros H.
  destruct (cut triple_quote content) as [[a rest]|] eqn:E1; [|done].
  simpl in H. destruct (cut triple_quote rest) as [[blk c]|] eqn:E2; [|done].
  injection H as ->.
  apply cut_Some in E1 as [-> H1]. apply cut_Some in E2 as [-> H2].
  by exists a, c.
Qed.

Lemma search_docstring_None (content : str) :
  search_docstring content = None ↔
  ∀ a rest, content = a ++ triple_quote ++ rest → ¬ occurs triple_quote rest.
Proof.
  unfold search_docstring. split.
  - intros H a rest -> Ho.
    destruct (cut triple_quote (a ++ triple_quote ++ rest)) as [[a' rest']|] eqn:E1.
    + simpl in H.
      destruct (cut triple_quote rest') as [[blk c]|] eqn:E2; [done|].
      apply cut_None in E2. apply E2. apply cut_Some in E1 as [E1 Hfirst].
      (* the first delimiter starts no later than the one after [a] *)
      assert (length a' ≤ length a) as Hle.
      { destruct (decide (length a' ≤ length a)) as [|Hgt]; [done|]. exfalso.
        assert (∃ d, a' = a ++ d ∧ d ≠ []) as (d & -> & Hd).
        { exists (drop (length a) a'). split.
          - assert (take (length a) (a ++ triple_quote ++ rest) = a) as Ht
              by (by rewrite take_app_length).
            rewrite E1 in Ht. rewrite take_app_le in Ht by lia.
            rewrite <- Ht at 1. by rewrite take_drop.
          - intros Hn. apply (f_equal length) in Hn.
            rewrite length_drop in Hn. simpl in Hn. lia. }
        apply (Hfirst a d eq_refl Hd).
        rewrite <- app_assoc in E1. apply app_inv_head in E1.
        rewrite <- E1. by exists rest. }
      assert (rest = drop (length a - length a') rest') as ->.
      { assert (drop (length a + 3) (a ++ triple_quote ++ rest) = rest) as <-.
        { rewrite drop_app_ge by lia.
          replace (length a + 3 - length a) with 3 by lia. done. }
        rewrite E1 at 1. rewrite drop_app_ge by lia.
        replace (length a + 3 - length a') with (3 + (length a - length a')) by lia.
        rewrite <- drop_drop. done. }
      rewrite <- (take_drop (length a - length a') rest').
      by apply occurs_app_r.
    + apply cut_None in E1. exfalso. apply E1. by exists a, rest.
  - intros H. destruct (cut triple_quote content) as [[a rest]|] eqn:E1; [|done].
    simpl. apply cut_Some in E1 as [-> _].
    destruct (cut triple_quote rest) as [[blk c]|] eqn:E2; [|done].
    apply cut_Some in E2 as [-> _]. exfalso. apply (H a _ eq_refl).
    by exists blk, c.
Qed.

End FrontmatterSpec.

(** ** C8: frontmatter extraction *)

(** C8.  For every input text the extraction returns a map and no exception
    leaves the [try] block.  The map is empty when the first line holds no
    triple-quote delimiter and when the search finds no delimited block.
    Otherwise a key [k] is bound to [v] exactly when some line of the
    trimmed block reads [before:after] with no colon in [before],
    [k] the lower-cased trimmed [before] and [v] the trimmed [after], and no
    later line sets the same key; lines without a colon bind nothing. *)
Theorem C8_extract_frontmatter (content : str) :
  is_Some (frontmatter_try content)
  ∧ (¬ occurs triple_quote (fst (split1 newline content)) →
       extract_frontmatter content = ∅)
  ∧ (search_docstring content = None → extract_frontmatter content = ∅)
  ∧ (occurs triple_quote (fst (split1 newline content)) →
     ∀ block, search_docstring content = Some block →
     ∀ k v, extract_frontmatter content !! k = Some v ↔
       ∃ l1 before after l2,
         split newline (strip block) = l1 ++ (before ++ colon :: after) :: l2
         ∧ (colon ∉ before)
         ∧ k = lower (strip before) ∧ v = strip after
         ∧ Forall (λ l, ∀ b a, l = b ++ colon :: a → colon ∉ b →
                               lower (strip b) ≠ k) l2).
Proof.
  split_and!.
  - apply FrontmatterFacts.frontmatter_try_total.
  - intros Hn. unfold extract_frontmatter.
    destruct (contains _ _) eqn:E; [|done].
    by apply TextFacts.contains_occurs in E.
  - intros Hn. unfold extract_frontmatter, frontmatter_try. rewrite Hn.
    by destruct (negb _).
  - intros Ho block Hb k v. apply TextFacts.contains_occurs in Ho.
    unfold extract_frontmatter, frontmatter_try. rewrite Ho, Hb. simpl.
    rewrite FrontmatterFacts.frontmatter_lines_fold.
    rewrite FrontmatterFacts.fold_put_lookup. rewrite lookup_empty.
    assert (∀ l : str,
      (∀ v', entry l ≠ Some (k, v')) ↔
      (∀ b a, l = b ++ colon :: a → colon ∉ b → lower (strip b) ≠ k)) as Hno.
    { intros l. split.
      - intros H b a -> Hc Hk. apply (H (strip a)).
        apply FrontmatterFacts.entry_Some. by exists b, a.
      - intros H v' He. apply FrontmatterFacts.entry_Some in He
          as (b & a & -> & Hc & -> & _). by apply (H b a). }
    split.
    + intros [(l1 & line & l2 & E & He & Hf)|[_ ?]]; [|done].
      apply FrontmatterFacts.entry_Some in He as (b & a & -> & Hc & -> & ->).
      exists l1, b, a, l2. split_and!; [done..|].
      eapply Forall_impl; [done|]. intros l. apply Hno.
    + intros (l1 & b & a & l2 & E & Hc & -> & -> & Hf). left.
      exists l1, (b ++ colon :: a), l2. split_and!; [done| |].
      * apply FrontmatterFacts.entry_Some. by exists b, a.
      * eapply Forall_impl; [done|]. intros l. apply Hno.
Qed.

Lemma C8_extract_frontmatter_witness :
  extract_frontmatter demo_source !! lit "requirements" = Some (lit "foo,bar").
Proof.
  destruct (C8_extract_frontmatter demo_source) as (_ & _ & _ & H).
  apply (H ltac:(apply TextFacts.contains_occurs; vm_compute; reflexivity)
           (lit "description: demo" ++ [newline] ++ lit "requirements: foo,bar")
           ltac:(vm_compute; reflexivity)).
  exists [lit "description: demo"], (lit "requirements"), (lit " foo,bar"), [].
  split_and!; [vm_compute; reflexivity | | vm_compute; reflexivity
              | vm_compute; reflexivity | constructor].
  intros Hc. vm_compute in Hc. 
  repeat (apply elem_of_cons in Hc as [Hc|Hc]; [discriminate|]).
  by apply elem_of_nil in Hc.
Defined.

(** ** C7: the import rewrite *)

Lemma replace_imports_idempotent (s : str) :
  replace_imports (replace_imports s) = replace_imports s.
Proof.
  apply RewriteFacts.replace_imports_fixed, RewriteFacts.replace_imports_clean.
Qed.

(** C7, as stated, fails: the tool's stored source is already in canonical
    form, and still each load without a source override calls
    [Tools.update_tool_by_id]; two loads write twice. *)
Lemma C7_counterexample :
  let w1 := snd (load_tool_module_by_id demo_env (lit "t") None canonical_world) in
  let w2 := snd (load_tool_module_by_id demo_env (lit "t") None w1) in
  replace_imports (lit "x = 1") = lit "x = 1"
  ∧ length (update_calls (store canonical_world)) = 0
  ∧ length (update_calls (store w1)) = 1
  ∧ length (update_calls (store w2)) = 2.
Proof. vm_compute. done. Qed.

(** C7 (amended).  The rewrite is idempotent on every text.  A load without
    a source override of a tool that is not file-based calls
    [Tools.update_tool_by_id] with the rewritten source once, whether the
    source changed or not; afterwards the stored source is a fixed point of
    the rewrite, and it is the text that was executed. *)
Theorem C7_rewrite_idempotent_written_back :
  (∀ s, replace_imports (replace_imports s) = replace_imports s)
  ∧ (∀ Mod (env : Env Mod) (w : World Mod) (tool_id : str) (tool : ToolModel),
       startswith (lit "custom_") tool_id = false →
       get_tool_by_id (store w) tool_id = Some tool →
       let w' := snd (load_tool_module_by_id env tool_id None w) in
       let rewritten := replace_imports (tm_content tool) in
       update_calls (store w')
         = update_calls (store w)
           ++ [(tool_id, mkToolUpdate None (Some rewritten) None None None)]
       ∧ Forall (λ t, Tool.id t = tool_id →
                      Tool.content t = rewritten
                      ∧ replace_imports (Tool.content t) = Tool.content t)
                (tools (store w'))
       ∧ executed w' = executed w ++ [rewritten]).
Proof.
  split; [apply replace_imports_idempotent|].
  intros Mod env w tool_id tool Hc Ht. unfold load_tool_module_by_id.
  rewrite Hc. unfold mbind, prog_bind, world, of_option, Tools_update,
    set_world, mret, prog_ret. simpl. rewrite Ht. simpl.
  destruct (exec_tool env (replace_imports (tm_content tool))); simpl;
    (split_and!; [done| |done]);
    apply Forall_map, Forall_forall; intros t _;
    unfold has_id; case_bool_decide as Hid; simpl; try done;
    intros _; (split; [done|]); apply replace_imports_idempotent.
Qed.

Lemma C7_rewrite_idempotent_written_back_witness :
  let w' := snd (load_tool_module_by_id demo_env (lit "t") None canonical_world) in
  update_calls (store w')
    = [(lit "t", mkToolUpdate None (Some (lit "x = 1")) None None None)].
Proof.
  destruct C7_rewrite_idempotent_written_back as [_ H].
  destruct (H str demo_env canonical_world (lit "t")
              (mkToolModel (lit "t") (Some (lit "alice")) (lit "t") (lit "x = 1") []
                 (mkToolMeta (Some (lit "demo")) (Some ∅)) None 5 1)
              ltac:(vm_compute; reflexivity) ltac:(vm_compute; reflexivity))
    as (Hu & _ & _).
  exact Hu.
Defined.

(** ** Running the loader *)

Module LoaderFacts.

Lemma req_list_of_nil : req_list_of [] = [].
Proof. reflexivity. Qed.

(** The installer is run once when some requirement is left after trimming,
    and not at all otherwise. *)
Lemma install_run {Mod} (env : Env Mod) (requirements : str) (w : World Mod) :
  install_frontmatter_requirements env requirements w =
  match req_list_of requirements with
  | [] => (Ok (), w)
  | _ :: _ =>
      (if pip_succeeds env (pip_argv env (req_list_of requirements))
       then Ok () else Raise (Exception (lit "CalledProcessError")),
       log_pip (pip_argv env (req_list_of requirements)) w)
  end.
Proof.
  unfold install_frontmatter_requirements.
  destruct requirements as [|c r]; [done|]. simpl nonempty. cbv iota.
  destruct (req_list_of (c :: r)) as [|x l]; [done|].
  unfold mbind, prog_bind, set_world, mret, prog_ret, raise.
  by destruct (pip_succeeds env _).
Qed.

(** A load of a function from a given source: the installer first, then the
    execution of the source. *)
Lemma load_function_run {Mod} (env : Env Mod) (i c : str) (w : World Mod) :
  load_function_module_by_id env i (Some c) w =
  match install_frontmatter_requirements env
          (requirements_of (extract_frontmatter c)) w with
  | (Raise e, w1) => (Raise e, w1)
  | (Ok _, w1) =>
      match exec_function env c with
      | Some (m, kind) => (Ok (m, kind, extract_frontmatter c), log_exec c w1)
      | None =>
          (Raise (Exception (lit "error loading the module")),
           set_functions (update_function_active i false) (log_exec c w1))
      end
  end.
Proof.
  unfold load_function_module_by_id, mbind, prog_bind, mret, prog_ret,
    set_world, raise.
  destruct (install_frontmatter_requirements env _ w) as [[[]|e] w1]; [|done].
  by destruct (exec_function env c) as [[m kind]|].
Qed.

End LoaderFacts.

(** ** C1: the module caches *)

(** C1, as stated, fails for tools: the cache holds the module built from
    the source [x = 1], the record's source is now [x = 2], and the
    cache-or-load of the router returns the cached module; nothing is
    executed and the world is unchanged. *)
Lemma C1_counterexample :
  (Tool.content <$> find (has_id (lit "t")) (tools (store stale_world)))
    = Some (lit "x = 2")
  ∧ exec_tool demo_env (lit "x = 2") ≠ Some (lit "x = 1")
  ∧ tools_module_of demo_env (lit "t") stale_world = (Ok (lit "x = 1"), stale_world)
  ∧ fst (get_tools_valves_spec_by_id demo_env (lit "t") alice stale_world) = Ok (Some ∅)
  ∧ executed (snd (get_tools_valves_spec_by_id demo_env (lit "t") alice stale_world)) = [].
Proof. vm_compute. split_and!; done. Qed.

Section function_cache.
Context {Mod : Type} (env : Env Mod) (w : World Mod).
Context (function_id : str) (function : Function).
Hypothesis Hfound : get_function_by_id (functions w) function_id = Some function.

(** The source the cache is compared with: the record's source with its
    imports rewritten. *)
Let current : str := replace_imports (fn_content function).
Let reqs : list str := req_list_of (requirements_of (extract_frontmatter current)).
Let run := get_function_module_from_cache env function_id true w.

(** The world after the rewritten source was written back. *)
Let w1 : World Mod :=
  if bool_decide (current ≠ fn_content function)
  then set_functions (update_function_content function_id current) w
  else w.

(** Load from the rewritten source and remember module and source. *)
Let reload : prog Mod (Mod * option str * option frontmatter) :=
  load_function_module_by_id env function_id (Some current) ≫= λ loaded,
    let '(function_module, function_type, fm) := loaded in
    set_world (set_app (store_function function_id function_module));;
    set_world (set_app (store_function_content function_id current));;
    mret (function_module, Some function_type, Some fm).

Lemma function_cache_unfold :
  run =
  match FUNCTION_CONTENTS (app w) ≫= (.!! function_id),
        cached_function (app w) function_id with
  | Some snapshot, Some m =>
      if bool_decide (snapshot = current) then (Ok (m, None, None), w1)
      else reload w1
  | _, _ => reload w1
  end.
Proof.
  subst run. unfold get_function_module_from_cache.
  unfold mbind at 1, prog_bind at 1, world at 1. cbv beta iota.
  unfold mbind at 1, prog_bind at 1, of_option at 1. rewrite Hfound. cbv beta iota.
  fold current.
  assert (∀ A (k : prog Mod A),
    ((if bool_decide (current ≠ fn_content function)
      then set_world (set_functions (update_function_content function_id current))
      else mret ()) ≫= λ _, k) w = k w1) as Hstep.
  { intros A k. subst w1. unfold mbind, prog_bind, set_world, mret, prog_ret.
    by destruct (bool_decide _). }
  rewrite Hstep. clear Hstep.
  unfold mbind at 1, prog_bind at 1, world at 1. cbv beta iota.
  assert (app w1 = app w) as -> by (subst w1; by destruct (bool_decide _)).
  destruct (FUNCTION_CONTENTS (app w) ≫= (.!! function_id)) as [snapshot|];
    [|done].
  destruct (cached_function (app w) function_id) as [m|]; [|done].
  by case_bool_decide.
Qed.

Lemma w1_same :
  app w1 = app w ∧ executed w1 = executed w ∧ pip_calls w1 = pip_calls w.
Proof. subst w1. by destruct (bool_decide _). Qed.

Lemma function_cache_hit (m : Mod) :
  FUNCTION_CONTENTS (app w) ≫= (.!! function_id) = Some current →
  cached_function (app w) function_id = Some m →
  fst run = Ok (m, None, None)
  ∧ executed (snd run) = executed w
  ∧ pip_calls (snd run) = pip_calls w
  ∧ app (snd run) = app w.
Proof.
  intros Hs Hm. rewrite function_cache_unfold, Hs, Hm.
  rewrite bool_decide_eq_true_2 by done. simpl.
  destruct w1_same as (? & ? & ?). done.
Qed.

Let after_install (w2 : World Mod) :=
  match exec_function env current with
  | Some (m, kind) =>
      (Ok (m, Some kind, Some (extract_frontmatter current)),
       set_app (store_function_content function_id current)
         (set_app (store_function function_id m) (log_exec current w2)))
  | None =>
      (Raise (Exception (lit "error loading the module")),
       set_functions (update_function_active function_id false)
         (log_exec current w2))
  end.

Lemma reload_eq :
  reload w1 =
  match reqs with
  | [] => after_install w1
  | _ :: _ =>
      if pip_succeeds env (pip_argv env reqs)
      then after_install (log_pip (pip_argv env reqs) w1)
      else (Raise (Exception (lit "CalledProcessError")),
            log_pip (pip_argv env reqs) w1)
  end.
Proof.
  subst reload after_install. cbv beta. unfold mbind at 1, prog_bind at 1.
  rewrite LoaderFacts.load_function_run, LoaderFacts.install_run.
  fold reqs. destruct reqs as [|r0 rl].
  - by destruct (exec_function env current) as [[m kind]|].
  - destruct (pip_succeeds env (pip_argv env (r0 :: rl))); [|done].
    by destruct (exec_function env current) as [[m kind]|].
Qed.

Lemma reload_run :
  match reqs with
  | _ :: _ => pip_calls (snd (reload w1)) = pip_calls w ++ [pip_argv env reqs]
  | [] => pip_calls (snd (reload w1)) = pip_calls w
  end
  ∧ if bool_decide (reqs = []) || pip_succeeds env (pip_argv env reqs) then
      executed (snd (reload w1)) = executed w ++ [current]
      ∧ match exec_function env current with
        | Some (m, kind) =>
            fst (reload w1) = Ok (m, Some kind, Some (extract_frontmatter current))
            ∧ cached_function (app (snd (reload w1))) function_id = Some m
            ∧ FUNCTION_CONTENTS (app (snd (reload w1))) ≫= (.!! function_id)
              = Some current
        | None =>
            fst (reload w1) = Raise (Exception (lit "error loading the module"))
            ∧ app (snd (reload w1)) = app w
        end
    else
      fst (reload w1) = Raise (Exception (lit "CalledProcessError"))
      ∧ executed (snd (reload w1)) = executed w
      ∧ app (snd (reload w1)) = app w.
Proof.
  destruct w1_same as (Ha & He & Hp).
  rewrite reload_eq. subst after_install. cbv beta.
  destruct reqs as [|r0 rl] eqn:Er.
  - simpl. destruct (exec_function env current) as [[m kind]|]; simpl.
    + unfold cached_function. simpl. rewrite !lookup_insert_eq, He, Hp. done.
    + rewrite He, Hp, Ha. done.
  - rewrite bool_decide_eq_false_2 by done. simpl orb.
    destruct (pip_succeeds env (pip_argv env (r0 :: rl))); simpl.
    + destruct (exec_function env current) as [[m kind]|]; simpl.
      * unfold cached_function. simpl. rewrite !lookup_insert_eq, He, Hp. done.
      * rewrite He, Hp, Ha. done.
    + by rewrite He, Hp, Ha.
Qed.

Lemma function_cache_miss :
  ¬ (FUNCTION_CONTENTS (app w) ≫= (.!! function_id) = Some current
     ∧ is_Some (cached_function (app w) function_id)) →
  run = reload w1.
Proof.
  intros Hmiss. rewrite function_cache_unfold.
  destruct (FUNCTION_CONTENTS (app w) ≫= (.!! function_id)) as [snapshot|] eqn:Es;
    [|done].
  destruct (cached_function (app w) function_id) as [m|] eqn:Em; [|done].
  case_bool_decide as Hsnap; [|done].
  exfalso. apply Hmiss. subst snapshot. by split.
Qed.
End function_cache.

Lemma tools_module_of_hit {Mod} (env : Env Mod) (w : World Mod) (id : str) (m : Mod) :
  TOOLS (app w) !! id = Some m → tools_module_of env id w = (Ok m, w).
Proof.
  intros H. unfold tools_module_of, mbind, prog_bind, world. by rewrite H.
Qed.

Lemma tools_module_of_miss {Mod} (env : Env Mod) (w : World Mod) (id : str) :
  TOOLS (app w) !! id = None →
  tools_module_of env id w =
  match load_tool_module_by_id env id None w with
  | (Ok (m, _), w') => (Ok m, set_app (set_TOOLS id m) w')
  | (Raise e, w') => (Raise e, w')
  end.
Proof.
  intros H. unfold tools_module_of. unfold mbind at 1, prog_bind at 1, world.
  rewrite H. unfold mbind, prog_bind, set_world, mret, prog_ret.
  by destruct (load_tool_module_by_id env id None w) as [[[m fm]|e] w'].
Qed.

(** C1 (amended).  For a function the cache-or-load compares the record's
    source, with its imports rewritten, against the cached snapshot: on equal
    snapshots it returns the cached object and executes nothing; otherwise it
    installs the declared requirements and, unless that fails, executes the
    source, and on success stores the new object and snapshot.  For a tool the
    router's cache-or-load keeps no snapshot: it returns the cached object
    whenever the id is cached, whatever the record's source is, and loads
    only when the id is not cached. *)
Theorem C1_cache_or_load {Mod} (env : Env Mod) (w : World Mod) (id : str) :
  (∀ function, get_function_by_id (functions w) id = Some function →
     let current := replace_imports (fn_content function) in
     let run := get_function_module_from_cache env id true w in
     let reqs := req_list_of (requirements_of (extract_frontmatter current)) in
     (∀ m, FUNCTION_CONTENTS (app w) ≫= (.!! id) = Some current →
           cached_function (app w) id = Some m →
           fst run = Ok (m, None, None)
           ∧ executed (snd run) = executed w
           ∧ app (snd run) = app w)
     ∧ (¬ (FUNCTION_CONTENTS (app w) ≫= (.!! id) = Some current
           ∧ is_Some (cached_function (app w) id)) →
        if bool_decide (reqs = []) || pip_succeeds env (pip_argv env reqs) then
          executed (snd run) = executed w ++ [current]
          ∧ match exec_function env current with
            | Some (m, kind) =>
                fst run = Ok (m, Some kind, Some (extract_frontmatter current))
                ∧ cached_function (app (snd run)) id = Some m
                ∧ FUNCTION_CONTENTS (app (snd run)) ≫= (.!! id) = Some current
            | None =>
                fst run = Raise (Exception (lit "error loading the module"))
                ∧ app (snd run) = app w
            end
        else
          fst run = Raise (Exception (lit "CalledProcessError"))
          ∧ executed (snd run) = executed w
          ∧ app (snd run) = app w))
  ∧ (∀ m, TOOLS (app w) !! id = Some m → tools_module_of env id w = (Ok m, w))
  ∧ (TOOLS (app w) !! id = None →
     ∀ m w', tools_module_of env id w = (Ok m, w') →
       TOOLS (app w') !! id = Some m
       ∧ ∃ fm w0, load_tool_module_by_id env id None w = (Ok (m, fm), w0)).
Proof.
  split_and!.
  - intros function Hf current run reqs. split.
    + intros m Hs Hm.
      destruct (function_cache_hit env w id function Hf m Hs Hm) as (? & ? & _ & ?).
      done.
    + intros Hmiss. subst run.
      rewrite (function_cache_miss env w id function Hf Hmiss).
      apply (reload_run env w id function).
  - intros m. apply tools_module_of_hit.
  - intros Hnone m w' Hrun. rewrite tools_module_of_miss in Hrun by done.
    destruct (load_tool_module_by_id env id None w) as [[[m0 fm]|e] w0]; [|done].
    injection Hrun as <- <-. split.
    + simpl. apply lookup_insert_eq.
    + by exists fm, w0.
Qed.

Lemma C1_cache_or_load_witness :
  fst (get_function_module_from_cache demo_env (lit "f") true cached_world)
  = Ok (lit "x = 1", None, None).
Proof.
  destruct (C1_cache_or_load demo_env cached_world (lit "f")) as [H _].
  destruct (H (mkFunction (lit "f") (lit "x = 1") true) eq_refl) as [Hhit _].
  apply (Hhit (lit "x = 1")); vm_compute; reflexivity.
Defined.

(** ** Facts about the tool table *)

Module StoreFacts.

Lemma find_map {A} (P : A → bool) (g : A → A) (l : list A) :
  (∀ x, P (g x) = P x) → find P (map g l) = g <$> find P l.
Proof.
  intros Hg. induction l as [|x l IH]; simpl; [done|].
  rewrite Hg. by destruct (P x).
Qed.

Lemma Forall2_map_r {A B C} (P : A → C → Prop) (g : B → C) (l : list A)
    (k : list B) :
  Forall2 (λ x y, P x (g y)) l k → Forall2 P l (map g k).
Proof. induction 1; simpl; by constructor. Qed.

Lemma find_app_None {A} (P : A → bool) (l k : list A) :
  find P l = None → find P (l ++ k) = find P k.
Proof.
  induction l as [|x l IH]; simpl; [done|]. by destruct (P x).
Qed.

Lemma find_app_Some {A} (P : A → bool) (l k : list A) (x : A) :
  find P l = Some x → find P (l ++ k) = Some x.
Proof.
  induction l as [|y l IH]; simpl; [done|]. by destruct (P y).
Qed.

Lemma find_Some_true {A} (P : A → bool) (l : list A) (x : A) :
  find P l = Some x → P x = true ∧ x ∈ l.
Proof.
  intros H. apply find_some in H as [H1 H2]. split; [done|].
  by apply list_elem_of_In.
Qed.

Lemma find_None_all {A} (P : A → bool) (l : list A) :
  find P l = None ↔ Forall (λ x, P x = false) l.
Proof.
  induction l as [|x l IH]; simpl.
  - split; [constructor|done].
  - destruct (P x) eqn:E.
    + split; [done|]. intros H. apply Forall_cons in H as [H _]. congruence.
    + rewrite IH. split; [by constructor|]. intros H. by apply Forall_cons in H as [_ H].
Qed.

(** A stronger test finds the same row when the first row that passes the
    weaker test passes the stronger one too. *)
Lemma find_and {A} (P Q : A → bool) (l : list A) (x : A) :
  find P l = Some x → Q x = true → find (λ y, P y && Q y) l = Some x.
Proof.
  induction l as [|y l IH]; simpl; [done|].
  destruct (P y) eqn:E; simpl.
  - intros [= ->] ->. done.
  - auto.
Qed.

Lemma find_and_None {A} (P Q : A → bool) (l : list A) :
  find P l = None → find (λ y, P y && Q y) l = None.
Proof.
  rewrite !find_None_all. intros H. eapply Forall_impl; [done|].
  by intros x ->.
Qed.

Lemma model_validate_fields (t : Tool.row) (sp : list json) (tm : ToolModel) :
  model_validate t sp = Some tm →
  tm_id tm = Tool.id t ∧ tm_user_id tm = Tool.user_id t
  ∧ tm_name tm = Tool.name t ∧ tm_content tm = Tool.content t
  ∧ tm_specs tm = sp ∧ tm_access_control tm = Tool.access_control t
  ∧ tm_updated_at tm = Tool.updated_at t ∧ tm_created_at tm = Tool.created_at t.
Proof.
  unfold model_validate. destruct (forallb is_dict sp); [|done].
  destruct (validate_meta (Tool.meta t)) as [m|]; [|done].
  simpl. intros [= <-]. done.
Qed.

Lemma get_tool_by_id_row (st : Store) (i : str) (tm : ToolModel) :
  get_tool_by_id st i = Some tm →
  ∃ t, find (has_id i) (tools st) = Some t
       ∧ model_validate t (wrap_specs (Tool.specs t)) = Some tm.
Proof.
  unfold get_tool_by_id. destruct (find (has_id i) (tools st)) as [t|]; [|done].
  simpl. intros H. by exists t.
Qed.

Lemma has_id_apply_update (i : str) upd now (t : Tool.row) :
  has_id i (if has_id i t then apply_update upd now t else t) = has_id i t.
Proof. by destruct (has_id i t) eqn:E. Qed.

End StoreFacts.

(** ** C10: updates of a system tool *)

Lemma same_core_refl (l : list Tool.row) : Forall2 same_core l l.
Proof. induction l; constructor; [done|auto]. Qed.

Lemma same_core_update (i : str) upd now (l : list Tool.row) :
  up_content upd = None → up_specs upd = None → up_access_control upd = None →
  Forall2 (λ t t', same_core t t' ∧ (Tool.id t ≠ i → t' = t)) l
    (map (λ t, if has_id i t then apply_update upd now t else t) l).
Proof.
  intros Hc Hs Ha. induction l as [|t l IH]; simpl; constructor; [|done].
  unfold has_id. case_bool_decide as Hid.
  - split; [|done]. unfold same_core, apply_update. simpl.
    by rewrite Hc, Hs, Ha.
  - done.
Qed.

Lemma update_system_tool_run {Mod} (env : Env Mod) (w : World Mod) (id : str)
    (form_data : ToolForm) (user : UserResponse) (tool : ToolModel) :
  get_tool_by_id (store w) id = Some tool →
  tm_user_id tool = None →
  update_tools_by_id env id form_data user w =
  match form_meta form_data with
  | Some m =>
      match unpack_meta env (tm_meta tool) with
      | None => (Raise (HTTPException 400 (DEFAULT (Exception (lit "TypeError")))), w)
      | Some old => system_update w id (form_name form_data) (Some (m ∪ old))
      end
  | None =>
      match form_name form_data with
      | None => (Ok tool, w)
      | Some nm => system_update w id (Some nm) None
      end
  end.
Proof.
  intros Hget Hsys. unfold update_tools_by_id.
  unfold mbind at 1, prog_bind at 1, world at 1. cbv beta iota.
  unfold mbind at 1, prog_bind at 1, of_option at 1. rewrite Hget. cbv beta iota.
  rewrite Hsys. rewrite (bool_decide_eq_false_2 (None ≠ None)) by auto.
  cbn [andb]. unfold try_except, system_update.
  unfold mbind, prog_bind, of_option, mret, prog_ret, Tools_update, http_400, raise.
  destruct (form_meta form_data) as [m|].
  - destruct (unpack_meta env (tm_meta tool)) as [old|]; [|done].
    destruct (form_name form_data);
      by destruct (update_tool_by_id _ _ _ _) as [st' [t|]].
  - destruct (form_name form_data); [|done].
    by destruct (update_tool_by_id _ _ _ _) as [st' [t|]].
Qed.

Lemma system_update_frame {Mod} (w : World Mod) (id : str) (tool : ToolModel)
    (nm : option str) (mt : option dict) :
  get_tool_by_id (store w) id = Some tool →
  let r := system_update w id nm mt in
  Forall2 (λ t t', same_core t t' ∧ (Tool.id t ≠ id → t' = t))
    (tools (store w)) (tools (store (snd r)))
  ∧ app (snd r) = app w ∧ executed (snd r) = executed w
  ∧ pip_calls (snd r) = pip_calls w
  ∧ (∀ tool', fst r = Ok tool' →
       tm_id tool' = tm_id tool ∧ tm_user_id tool' = tm_user_id tool
       ∧ tm_content tool' = tm_content tool
       ∧ tm_specs tool' = tm_specs tool
       ∧ tm_access_control tool' = tm_access_control tool
       ∧ tm_created_at tool' = tm_created_at tool).
Proof.
  intros Hget. unfold system_update, update_tool_by_id. cbv zeta.
  set (st' := mkStore _ _ _).
  assert (Forall2 (λ t t', same_core t t' ∧ (Tool.id t ≠ id → t' = t))
            (tools (store w)) (tools st')) as Hrows.
  { subst st'. cbn [tools]. by apply same_core_update. }
  destruct (get_tool_by_id st' id) as [tool'|] eqn:Hget'; cbn [fst snd];
    (split_and!; [done..|]); [|done].
  intros ? [= <-].
  apply StoreFacts.get_tool_by_id_row in Hget as (t & Hf & Hv).
  apply StoreFacts.get_tool_by_id_row in Hget' as (t' & Hf' & Hv').
  subst st'. cbn [tools] in Hf'.
  rewrite StoreFacts.find_map in Hf'
    by (intros x; apply StoreFacts.has_id_apply_update).
  rewrite Hf in Hf'. simpl in Hf'. injection Hf' as <-.
  apply StoreFacts.find_Some_true in Hf as [Hid _]. rewrite Hid in Hv'.
  apply StoreFacts.model_validate_fields in Hv
    as (? & ? & ? & ? & ? & ? & ? & ?).
  apply StoreFacts.model_validate_fields in Hv'
    as (? & ? & ? & ? & ? & ? & ? & ?).
  simpl in *. split_and!; congruence.
Qed.

(** C10.  An update request against a system tool (owner absent), by any
    principal, leaves the id, owner, content, specs, valves, access_control
    and created_at of every row as they were and touches no row but the
    tool's; it loads no module and installs nothing; the tool it answers with
    has the content, specs and access_control of the tool before; and a
    request with neither name nor meta returns the tool and changes
    nothing. *)
Theorem C10_system_tool_update {Mod} (env : Env Mod) (w : World Mod) (id : str)
    (form_data : ToolForm) (user : UserResponse) (tool : ToolModel) :
  get_tool_by_id (store w) id = Some tool →
  tm_user_id tool = None →
  let run := update_tools_by_id env id form_data user w in
  Forall2 (λ t t', same_core t t' ∧ (Tool.id t ≠ id → t' = t))
    (tools (store w)) (tools (store (snd run)))
  ∧ app (snd run) = app w
  ∧ executed (snd run) = executed w
  ∧ pip_calls (snd run) = pip_calls w
  ∧ (∀ tool', fst run = Ok tool' →
       tm_id tool' = tm_id tool ∧ tm_user_id tool' = None
       ∧ tm_content tool' = tm_content tool
       ∧ tm_specs tool' = tm_specs tool
       ∧ tm_access_control tool' = tm_access_control tool
       ∧ tm_created_at tool' = tm_created_at tool)
  ∧ (form_name form_data = None → form_meta form_data = None →
       run = (Ok tool, w)).
Proof.
  intros Hget Hsys run. subst run.
  rewrite (update_system_tool_run env w id form_data user tool Hget Hsys).
  assert (Forall2 (λ t t', same_core t t' ∧ (Tool.id t ≠ id → t' = t))
            (tools (store w)) (tools (store w))) as Hrefl.
  { apply Forall2_same_length_lookup_2; [done|].
    intros i x y Hx Hy. assert (x = y) as -> by congruence. done. }
  destruct (form_meta form_data) as [m|].
  - destruct (unpack_meta env (tm_meta tool)) as [old|].
    + destruct (system_update_frame w id tool (form_name form_data)
                  (Some (m ∪ old)) Hget) as (? & ? & ? & ? & Hok).
      split_and!; [done..| |by intros _ ?].
      intros tool' Ht. rewrite <- Hsys. by apply Hok.
    + cbn [fst snd]. split_and!; [done..|by intros ?|by intros _ ?].
  - destruct (form_name form_data) as [nm|].
    + destruct (system_update_frame w id tool (Some nm) None Hget)
        as (? & ? & ? & ? & Hok).
      split_and!; [done..| |by intros ?].
      intros tool' Ht. rewrite <- Hsys. by apply Hok.
    + cbn [fst snd]. split_and!; [done..| |done].
      by intros ? [= <-].
Qed.

Lemma C10_system_tool_update_witness :
  match fst (update_tools_by_id demo_env (lit "weather")
               (mkToolForm (lit "weather") (Some (lit "Weather")) None None None)
               alice weather_world) with
  | Ok tool' => tm_content tool' = lit "x = 1" ∧ tm_name tool' = lit "Weather"
  | Raise _ => False
  end.
Proof.
  destruct (C10_system_tool_update demo_env weather_world (lit "weather")
              (mkToolForm (lit "weather") (Some (lit "Weather")) None None None)
              alice weather_model
              ltac:(vm_compute; reflexivity) ltac:(reflexivity))
    as (_ & _ & _ & _ & H & _).
  destruct (fst (update_tools_by_id _ _ _ _ _)) as [tool'|e] eqn:Hrun.
  - destruct (H tool' eq_refl) as (_ & _ & -> & _). split; [done|].
    vm_compute in Hrun. by injection Hrun as <-.
  - vm_compute in Hrun. discriminate.
Defined.

(** ** The module loader and the store *)

Module LoaderStore.

Lemma touches_only_refl (i : str) (l : list Tool.row) : touches_only i l l.
Proof. induction l; constructor; [|done]. by split. Qed.

Lemma touches_only_content (i c : str) (now : Z) (l : list Tool.row) :
  touches_only i l
    (map (λ t, if has_id i t
               then apply_update (mkToolUpdate None (Some c) None None None) now t
               else t) l).
Proof.
  induction l as [|t l IH]; simpl; constructor; [|done].
  unfold has_id. case_bool_decide; [|by split]. by split.
Qed.

Lemma install_store {Mod} (env : Env Mod) (r : str) (w : World Mod) :
  store (snd (install_frontmatter_requirements env r w)) = store w
  ∧ app (snd (install_frontmatter_requirements env r w)) = app w
  ∧ clock (snd (install_frontmatter_requirements env r w)) = clock w.
Proof.
  rewrite LoaderFacts.install_run. by destruct (req_list_of r).
Qed.

Lemma load_tool_given {Mod} (env : Env Mod) (i c : str) (w : World Mod) :
  startswith (lit "custom_") i = false →
  load_tool_module_by_id env i (Some c) w =
  match install_frontmatter_requirements env
          (requirements_of (extract_frontmatter c)) w with
  | (Raise e, w1) => (Raise e, w1)
  | (Ok _, w1) =>
      (match exec_tool env c with
       | Some m => Ok (m, extract_frontmatter c)
       | None => Raise (Exception (lit "error loading the module"))
       end, log_exec c w1)
  end.
Proof.
  intros Hc. unfold load_tool_module_by_id. rewrite Hc.
  unfold mbind, prog_bind, of_option, set_world, mret, prog_ret.
  destruct (install_frontmatter_requirements env _ w) as [[[]|e] w1]; [|done].
  by destruct (exec_tool env c).
Qed.

Lemma load_tool_stored {Mod} (env : Env Mod) (i : str) (w : World Mod) :
  startswith (lit "custom_") i = false →
  load_tool_module_by_id env i None w =
  match get_tool_by_id (store w) i with
  | None => (Raise (Exception (lit "Toolkit not found")), w)
  | Some tool =>
      let c := replace_imports (tm_content tool) in
      (match exec_tool env c with
       | Some m => Ok (m, extract_frontmatter c)
       | None => Raise (Exception (lit "error loading the module"))
       end,
       log_exec c
         (set_store (λ _, fst (update_tool_by_id (store w) i
                                 (mkToolUpdate None (Some c) None None None)
                                 (clock w))) w))
  end.
Proof.
  intros Hc. unfold load_tool_module_by_id. rewrite Hc.
  unfold mbind, prog_bind, world, of_option, Tools_update, set_world,
    mret, prog_ret. simpl.
  destruct (get_tool_by_id (store w) i) as [tool|]; [|done]. simpl.
  by destruct (exec_tool env _).
Qed.

Lemma load_tool_file {Mod} (env : Env Mod) (i : str) (c : option str)
    (w : World Mod) :
  startswith (lit "custom_") i = true →
  load_tool_module_by_id env i c w =
  match read_file env (tool_file_path env i) with
  | None => (Raise (Exception (lit "FileNotFoundError")), w)
  | Some file_content =>
      (match exec_tool env file_content with
       | Some m => Ok (m, extract_frontmatter file_content)
       | None => Raise (Exception (lit "error loading the module"))
       end, log_exec file_content w)
  end.
Proof.
  intros Hc. unfold load_tool_module_by_id. rewrite Hc.
  unfold mbind, prog_bind, of_option, set_world, mret, prog_ret.
  destruct (read_file env _) as [fc|]; [|done].
  by destruct (exec_tool env fc).
Qed.

(** The loader changes no row but the one it loads, and of that row only the
    source and [updated_at]; it changes neither the users nor the caches. *)
Lemma load_tool_frame {Mod} (env : Env Mod) (i : str) (c : option str)
    (w : World Mod) :
  let w' := snd (load_tool_module_by_id env i c w) in
  touches_only i (tools (store w)) (tools (store w'))
  ∧ users (store w') = users (store w)
  ∧ app w' = app w ∧ clock w' = clock w.
Proof.
  destruct (startswith (lit "custom_") i) eqn:Hc.
  - rewrite load_tool_file by done.
    destruct (read_file env _) as [fc|]; simpl;
      (split_and!; [apply touches_only_refl|done..]).
  - destruct c as [c|].
    + rewrite load_tool_given by done.
      destruct (install_store env (requirements_of (extract_frontmatter c)) w)
        as (Hs & Ha & Hk).
      destruct (install_frontmatter_requirements env _ w) as [[[]|e] w1];
        simpl in *; rewrite Hs, Ha, Hk;
        (split_and!; [apply touches_only_refl|done..]).
    + rewrite load_tool_stored by done.
      destruct (get_tool_by_id (store w) i) as [tool|]; simpl.
      * split_and!; [apply touches_only_content|done..].
      * split_and!; [apply touches_only_refl|done..].
Qed.

Lemma tools_module_of_frame {Mod} (env : Env Mod) (i : str) (w : World Mod) :
  let w' := snd (tools_module_of env i w) in
  touches_only i (tools (store w)) (tools (store w'))
  ∧ users (store w') = users (store w) ∧ clock w' = clock w.
Proof.
  destruct (TOOLS (app w) !! i) as [m|] eqn:E.
  - rewrite (tools_module_of_hit env w i m E). simpl.
    split_and!; [apply touches_only_refl|done..].
  - rewrite (tools_module_of_miss env w i E).
    destruct (load_tool_frame env i None w) as (H1 & H2 & _ & H3).
    destruct (load_tool_module_by_id env i None w) as [[[m fm]|e] w1];
      simpl in *; done.
Qed.

(** A test that looks at the id and the owner only gives the same answer
    after the loader has run. *)
Lemma find_touches (P : Tool.row → bool) (i : str) (l l' : list Tool.row) :
  (∀ t t', same_but_source t t' → P t' = P t) →
  touches_only i l l' →
  match find P l with
  | None => find P l' = None
  | Some t => ∃ t', find P l' = Some t' ∧ same_but_source t t'
                    ∧ (Tool.id t ≠ i → t' = t)
  end.
Proof.
  intros HP H. induction H as [|t t' l l' [Hs Hne] _ IH]; simpl; [done|].
  rewrite (HP t t' Hs). destruct (P t); [|done]. by exists t'.
Qed.

Lemma has_id_same (i : str) (t t' : Tool.row) :
  Tool.id t' = Tool.id t → has_id i t' = has_id i t.
Proof. unfold has_id. by intros ->. Qed.

Lemma owned_by_same (u : option str) (t t' : Tool.row) :
  Tool.user_id t' = Tool.user_id t → owned_by u t' = owned_by u t.
Proof. unfold owned_by. by intros ->. Qed.

End LoaderStore.

(** ** Writing valves *)

Module ValvesFacts.
Import StoreFacts LoaderStore.

Lemma valves_update_run {Mod} (env : Env Mod) (id : str) (form_data : dict)
    (user : UserResponse) (w : World Mod) :
  update_tools_valves_by_id env id form_data user w =
  match find (λ t, has_id id t && owned_by None t) (tools (store w)) with
  | None =>
      match find (λ t, has_id id t && owned_by (Some (user_ident user)) t)
              (tools (store w)) with
      | None => (Raise (HTTPException 400 (DEFAULT (HTTPException 404 NOT_FOUND))), w)
      | Some user_tool =>
          valves_finish env form_data (Existing (Tool.id user_tool))
            (Tool.id user_tool) w
      end
  | Some tool_blueprint =>
      match find (has_id (personal_copy_id id (user_ident user)))
              (tools (store w)) with
      | None =>
          valves_finish env form_data
            (NewCopy (new_copy id form_data user tool_blueprint (clock w)))
            (Tool.id tool_blueprint) w
      | Some personal_copy =>
          valves_finish env form_data (Existing (Tool.id personal_copy))
            (Tool.id tool_blueprint) w
      end
  end.
Proof.
  unfold update_tools_valves_by_id, try_except.
  unfold mbind at 1, prog_bind at 1, world at 1. cbv beta iota.
  assert (∀ target load_id,
    match
      (mret (target, load_id) ≫= λ '(tool_to_update, blueprint_id_for_module_load),
         tools_module_of env blueprint_id_for_module_load ≫= λ tools_module,
           if has_valves env tools_module
           then
             of_option (valves_validate env tools_module (drop_none form_data))
               (Exception (lit "ValidationError")) ≫= λ validated_valves,
               world ≫= λ w0,
                 set_world (set_store
                   (commit_valves tool_to_update validated_valves (clock w0)));;
                 mret validated_valves
           else
             raise (HTTPException 400
               (Detail (lit "Tool does not support customizable valves.")))) w
    with
    | (Ok a, w') => (Ok a, w')
    | (Raise e, w') => @http_400 Mod dict e w'
    end = valves_finish env form_data target load_id w) as Hfin.
  { intros target load_id. unfold valves_finish.
    unfold mbind at 1, prog_bind at 1, mret at 1, prog_ret at 1. cbv beta iota.
    unfold mbind at 1, prog_bind at 1.
    destruct (tools_module_of env load_id w) as [[m|e] w1]; [|done].
    destruct (has_valves env m); [|done].
    unfold mbind, prog_bind, of_option, world, set_world, mret, prog_ret.
    by destruct (valves_validate env m (drop_none form_data)). }
  destruct (find (λ t, has_id id t && owned_by None t) (tools (store w)))
    as [bp|].
  - destruct (find (has_id (personal_copy_id id (user_ident user)))
                (tools (store w))) as [pc|]; apply Hfin.
  - destruct (find (λ t, has_id id t && owned_by (Some (user_ident user)) t)
                (tools (store w))) as [ut|]; [apply Hfin|done].
Qed.

Lemma valves_finish_Ok {Mod} (env : Env Mod) (form_data : dict)
    (target : valves_target) (load_id : str) (w w' : World Mod) (v : dict) :
  valves_finish env form_data target load_id w = (Ok v, w') →
  ∃ m w1, tools_module_of env load_id w = (Ok m, w1)
          ∧ has_valves env m = true
          ∧ valves_validate env m (drop_none form_data) = Some v
          ∧ w' = set_store (commit_valves target v (clock w1)) w1.
Proof.
  unfold valves_finish.
  destruct (tools_module_of env load_id w) as [[m|e] w1]; [|done].
  destruct (has_valves env m) eqn:Hv; [|done].
  destruct (valves_validate env m (drop_none form_data)) as [v'|] eqn:Hval; [|done].
  intros [= <- <-]. by exists m, w1.
Qed.

(** A failed write leaves the configuration of every record as it was. *)
Lemma valves_finish_Raise {Mod} (env : Env Mod) (form_data : dict)
    (target : valves_target) (load_id : str) (w w' : World Mod) (e : error) :
  valves_finish env form_data target load_id w = (Raise e, w') →
  touches_only load_id (tools (store w)) (tools (store w')).
Proof.
  unfold valves_finish.
  destruct (tools_module_of_frame env load_id w) as (Hf & _).
  destruct (tools_module_of env load_id w) as [[m|e'] w1]; simpl in Hf.
  - destruct (has_valves env m).
    + destruct (valves_validate env m (drop_none form_data)); [done|].
      by intros [= _ <-].
    + by intros [= _ <-].
  - by intros [= _ <-].
Qed.

Lemma personal_copy_id_neq (id u : str) : personal_copy_id id u ≠ id.
Proof.
  unfold personal_copy_id. intros H. apply (f_equal length) in H.
  rewrite length_app in H. simpl in H. lia.
Qed.

Lemma personal_copy_id_inj (id u u' : str) :
  personal_copy_id id u = personal_copy_id id u' → u = u'.
Proof.
  unfold personal_copy_id. intros H. apply app_inv_head in H.
  by apply app_inv_head in H.
Qed.

End ValvesFacts.

(** ** C2: a personal override for a system blueprint *)

(** C2, as stated, fails twice.  (a) Bob owns a tool whose id is the id
    derived from (weather, alice).  Alice's write succeeds and goes into
    Bob's record; her read afterwards still returns the blueprint's
    configuration, not what she wrote.  (b) With the blueprint's module not
    yet cached, the write also rewrites the blueprint's source: the override
    is not the only record that is updated. *)
Lemma C2_counterexample :
  (let run := update_tools_valves_by_id demo_env (lit "weather") celsius alice
                collision_world in
   fst run = Ok celsius
   ∧ get_tools_valves_by_id (store (snd run)) (lit "weather") alice = Ok (Some ∅)
   ∧ (Tool.valves <$> find (has_id (lit "weather_user_alice"))
                        (tools (store (snd run)))) = Some (Some celsius)
   ∧ (Tool.user_id <$> find (has_id (lit "weather_user_alice"))
                         (tools (store (snd run)))) = Some (Some (lit "bob")))
  ∧ (let run := update_tools_valves_by_id demo_env (lit "weather") celsius alice
                  legacy_world in
     fst run = Ok celsius
     ∧ (Tool.content <$> find (has_id (lit "weather")) (tools (store legacy_world)))
       = Some (lit "from utils import x")
     ∧ (Tool.content <$> find (has_id (lit "weather")) (tools (store (snd run))))
       = Some (lit "from open_webui.utils import x")).
Proof. vm_compute. split_and!; reflexivity. Qed.

(** C2 (amended).  Let B be a system blueprint and U a user such that a
    record under the id derived from (B.id, U), if there is one, is owned by
    U.  After a successful configuration write of cfg for (B.id, U):
    the answer v is cfg after validation; reading for (B.id, U) returns v;
    B's configuration is unchanged; a user U2 other than U without an
    override of their own still reads B's configuration; and no record but
    the one under the derived id has its configuration or owner changed or
    is created (the loader may rewrite source and updated_at of B). *)
Theorem C2_personal_override {Mod} (env : Env Mod) (w w' : World Mod)
    (id : str) (cfg v : dict) (user : UserResponse) (B : Tool.row) :
  find (has_id id) (tools (store w)) = Some B →
  Tool.user_id B = None →
  (∀ pc, find (has_id (personal_copy_id id (user_ident user))) (tools (store w))
         = Some pc → Tool.user_id pc = Some (user_ident user)) →
  update_tools_valves_by_id env id cfg user w = (Ok v, w') →
  (∃ m, valves_validate env m (drop_none cfg) = Some v)
  ∧ get_tools_valves_by_id (store w') id user = Ok (Some v)
  ∧ (∃ B', find (has_id id) (tools (store w')) = Some B'
           ∧ Tool.valves B' = Tool.valves B ∧ Tool.user_id B' = None)
  ∧ (∀ user2, user_ident user2 ≠ user_ident user →
       find (λ t, has_id (personal_copy_id id (user_ident user2)) t
                  && owned_by (Some (user_ident user2)) t) (tools (store w)) = None →
       get_tools_valves_by_id (store w') id user2 = Ok (Tool.valves B))
  ∧ (∃ kept added, tools (store w') = kept ++ added
       ∧ Forall2 (λ t t', Tool.id t' = Tool.id t ∧ Tool.user_id t' = Tool.user_id t
                          ∧ (Tool.id t ≠ personal_copy_id id (user_ident user) →
                             Tool.valves t' = Tool.valves t
                             ∧ (Tool.id t ≠ id → t' = t)))
           (tools (store w)) kept
       ∧ Forall (λ t, Tool.id t = personal_copy_id id (user_ident user)) added).
Proof.
  intros HB Hsys Hown Hrun.
  set (u := user_ident user) in *. set (pcid := personal_copy_id id u) in *.
  assert (Tool.id B = id) as HBid.
  { apply StoreFacts.find_Some_true in HB as [HB _].
    by apply bool_decide_eq_true in HB. }
  assert (pcid ≠ id) as Hne by apply ValvesFacts.personal_copy_id_neq.
  rewrite ValvesFacts.valves_update_run in Hrun.
  rewrite (StoreFacts.find_and (has_id id) (owned_by None) _ B HB) in Hrun
    by (unfold owned_by; by rewrite Hsys, bool_decide_eq_true_2).
  fold u pcid in Hrun. rewrite HBid in Hrun.
  (* what the reads look for is not changed by the loader *)
  assert (∀ i o t t', same_but_source t t' →
            (has_id i t' && owned_by o t') = (has_id i t && owned_by o t)) as Hio.
  { intros i o t t' (Hi & Ho & _). unfold has_id, owned_by. by rewrite Hi, Ho. }
  assert (∀ i t t', same_but_source t t' → has_id i t' = has_id i t) as Hi.
  { intros i t t' (Hi & _). unfold has_id. by rewrite Hi. }
  assert (∀ i o x t, (has_id i (if has_id pcid t then set_valves x (clock w) t else t)
            && owned_by o (if has_id pcid t then set_valves x (clock w) t else t))
            = (has_id i t && owned_by o t)) as Hsv.
  { intros i o x t. by destruct (has_id pcid t). }
  destruct (find (has_id pcid) (tools (store w))) as [pc|] eqn:Hpc.
  - (* the override exists and is updated *)
    assert (Tool.id pc = pcid) as Hpcid.
    { apply StoreFacts.find_Some_true in Hpc as [Hpc _].
      by apply bool_decide_eq_true in Hpc. }
    rewrite Hpcid in Hrun.
    apply ValvesFacts.valves_finish_Ok in Hrun as (m & w1 & Hmod & _ & Hval & ->).
    destruct (LoaderStore.tools_module_of_frame env id w) as (Ht & _ & Hclock).
    rewrite Hmod in Ht, Hclock. simpl in Ht, Hclock. rewrite Hclock.
    unfold set_store, commit_valves; cbn [store tools].
    split_and!.
    + by exists m.
    + unfold get_tools_valves_by_id. cbn [tools]. fold u pcid.
      rewrite StoreFacts.find_map by (intros t; apply Hsv).
      pose proof (LoaderStore.find_touches
        (λ t, has_id pcid t && owned_by (Some u) t) id _ _ (Hio pcid (Some u)) Ht)
        as Hf.
      rewrite (StoreFacts.find_and (has_id pcid) (owned_by (Some u)) _ pc Hpc) in Hf
        by (unfold owned_by; by rewrite (Hown pc eq_refl), bool_decide_eq_true_2).
      destruct Hf as (pc1 & -> & (Hid1 & _) & _). simpl.
      unfold has_id. rewrite Hid1, Hpcid, bool_decide_eq_true_2 by done. done.
    + pose proof (LoaderStore.find_touches (has_id id) id _ _ (Hi id) Ht) as Hf.
      rewrite HB in Hf. destruct Hf as (B1 & HB1 & (Hid1 & Hu1 & ? & ? & ? & Hv1 & _) & _).
      exists B1. rewrite StoreFacts.find_map
        by (intros t; destruct (has_id pcid t); done).
      rewrite HB1. cbn [fmap option_fmap option_map].
      assert (has_id pcid B1 = false) as ->
        by (unfold has_id; apply bool_decide_eq_false_2; congruence).
      split_and!; [done|done|congruence].
    + intros user2 Hu2 Hnone. unfold get_tools_valves_by_id. cbn [tools].
      rewrite StoreFacts.find_map by (intros t; apply Hsv).
      pose proof (LoaderStore.find_touches _ id _ _
        (Hio (personal_copy_id id (user_ident user2)) (Some (user_ident user2))) Ht)
        as Hf.
      rewrite Hnone in Hf. rewrite Hf. cbv iota.
      pose proof (LoaderStore.find_touches (has_id id) id _ _ (Hi id) Ht) as Hf'.
      rewrite HB in Hf'. destruct Hf' as (B1 & HB1 & (Hid1 & Hu1 & ? & ? & ? & Hv1 & _) & _).
      rewrite StoreFacts.find_map by (intros t; destruct (has_id pcid t); done).
      rewrite HB1. cbn [fmap option_fmap option_map].
      assert (has_id pcid B1 = false) as ->
        by (unfold has_id; apply bool_decide_eq_false_2; congruence).
      rewrite Hu1, Hsys. rewrite (bool_decide_eq_false_2 (None ≠ None)) by auto.
      simpl. by rewrite Hv1.
    + eexists _, []. rewrite app_nil_r. split_and!; [done| |constructor].
      apply StoreFacts.Forall2_map_r. eapply Forall2_impl; [exact Ht|].
      intros t t1 [(Hid1 & Hu1 & ? & ? & ? & Hv1 & _) Hsame]. cbv beta.
      unfold has_id. case_bool_decide as Hc; simpl.
      * split_and!; [done..|]. intros Hn. congruence.
      * split_and!; [done..|]. intros _. split; [done|]. apply Hsame.
  - (* the override is created *)
    apply ValvesFacts.valves_finish_Ok in Hrun as (m & w1 & Hmod & _ & Hval & ->).
    destruct (LoaderStore.tools_module_of_frame env id w) as (Ht & _ & Hclock).
    rewrite Hmod in Ht, Hclock. simpl in Ht, Hclock.
    unfold set_store, commit_valves; cbn [store tools].
    assert (find (has_id pcid) (tools (store w1)) = None) as Hpc1.
    { pose proof (LoaderStore.find_touches (has_id pcid) id _ _ (Hi pcid) Ht) as Hf.
      by rewrite Hpc in Hf. }
    split_and!.
    + by exists m.
    + unfold get_tools_valves_by_id. cbn [tools]. fold u pcid.
      rewrite StoreFacts.find_app_None by (by apply StoreFacts.find_and_None).
      simpl. unfold has_id, owned_by. simpl. fold u pcid.
      rewrite (bool_decide_eq_true_2 (pcid = pcid)) by done.
      by rewrite (bool_decide_eq_true_2 (Some u = Some u)) by done.
    + pose proof (LoaderStore.find_touches (has_id id) id _ _ (Hi id) Ht) as Hf.
      rewrite HB in Hf. destruct Hf as (B1 & HB1 & (Hid1 & Hu1 & ? & ? & ? & Hv1 & _) & _).
      exists B1. rewrite (StoreFacts.find_app_Some _ _ _ B1) by done.
      split_and!; [done|done|congruence].
    + intros user2 Hu2 Hnone. unfold get_tools_valves_by_id. cbn [tools].
      pose proof (LoaderStore.find_touches _ id _ _
        (Hio (personal_copy_id id (user_ident user2)) (Some (user_ident user2))) Ht)
        as Hf.
      rewrite Hnone in Hf. rewrite StoreFacts.find_app_None by done.
      simpl. unfold owned_by at 1. simpl.
      rewrite (bool_decide_eq_false_2 (Some (user_ident user) = Some (user_ident user2)))
        by (intros [= E]; by apply Hu2).
      rewrite andb_false_r.
      pose proof (LoaderStore.find_touches (has_id id) id _ _ (Hi id) Ht) as Hf'.
      rewrite HB in Hf'. destruct Hf' as (B1 & HB1 & (Hid1 & Hu1 & ? & ? & ? & Hv1 & _) & _).
      rewrite (StoreFacts.find_app_Some _ _ _ B1) by done.
      rewrite Hu1, Hsys. rewrite (bool_decide_eq_false_2 (None ≠ None)) by auto.
      simpl. by rewrite Hv1.
    + eexists _, [_]. split_and!; [done| |by constructor].
      eapply Forall2_impl; [exact Ht|].
      intros t t1 [(Hid1 & Hu1 & ? & ? & ? & Hv1 & _) Hsame]. cbv beta.
      split_and!; [done..|]. intros _. split; [done|]. apply Hsame.
Qed.

Lemma C2_personal_override_witness :
  let run := update_tools_valves_by_id demo_env (lit "weather") celsius alice
               weather_world in
  get_tools_valves_by_id (store (snd run)) (lit "weather") alice = Ok (Some celsius)
  ∧ get_tools_valves_by_id (store (snd run)) (lit "weather") bob = Ok (Some ∅).
Proof.
  intros run.
  destruct (C2_personal_override demo_env weather_world (snd run) (lit "weather")
              celsius celsius alice
              (demo_tool "weather" None (lit "x = 1") (Some ∅) None 5)
              ltac:(vm_compute; reflexivity) ltac:(reflexivity)
              ltac:(intros pc Hpc; vm_compute in Hpc; discriminate)
              ltac:(vm_compute; reflexivity))
    as (_ & Hread & _ & Hother & _).
  split; [exact Hread|].
  apply (Hother bob); [vm_compute; discriminate | vm_compute; reflexivity].
Defined.

(** ** C4: the personal copy made by the first write *)

(** C4, as stated, fails: the copy made for alice carries the blueprint's id
    under the key [parent_tool_id] of its metadata itself; its manifest is
    the blueprint's (empty) manifest and holds no [parent_tool_id]. *)
Lemma C4_counterexample :
  let run := update_tools_valves_by_id demo_env (lit "weather") celsius alice
               weather_world in
  fst run = Ok celsius
  ∧ (manifest_parent ∘ Tool.meta <$>
       find (has_id (lit "weather_user_alice")) (tools (store (snd run))))
    = Some None
  ∧ ((λ t, Tool.meta t !! lit "parent_tool_id") <$>
       find (has_id (lit "weather_user_alice")) (tools (store (snd run))))
    = Some (Some (JStr (lit "weather"))).
Proof. vm_compute. split_and!; reflexivity. Qed.

(** C4 (amended).  When no record exists under the id derived from
    (B.id, U), a successful configuration write for a system blueprint B
    creates the record under that id, owned by U, with name, source and
    capability specs copied from B as they were before the write; its
    metadata is B's metadata with the key [parent_tool_id] added at the top
    level (a [parent_tool_id] of B's own metadata wins; the manifest is B's),
    and its configuration is the validated incoming value. *)
Theorem C4_first_write_creates_copy {Mod} (env : Env Mod) (w w' : World Mod)
    (id : str) (cfg v : dict) (user : UserResponse) (B : Tool.row) :
  find (has_id id) (tools (store w)) = Some B →
  Tool.user_id B = None →
  find (has_id (personal_copy_id id (user_ident user))) (tools (store w)) = None →
  update_tools_valves_by_id env id cfg user w = (Ok v, w') →
  ∃ pc, find (has_id (personal_copy_id id (user_ident user))) (tools (store w'))
        = Some pc
    ∧ Tool.user_id pc = Some (user_ident user)
    ∧ Tool.name pc = Tool.name B
    ∧ Tool.content pc = Tool.content B
    ∧ Tool.specs pc = Tool.specs B
    ∧ Tool.meta pc = Tool.meta B ∪ {[ lit "parent_tool_id" := JStr id ]}
    ∧ Tool.meta pc !! lit "manifest" = Tool.meta B !! lit "manifest"
    ∧ (Tool.meta B !! lit "parent_tool_id" = None →
       Tool.meta pc !! lit "parent_tool_id" = Some (JStr id))
    ∧ Tool.valves pc = Some v
    ∧ (∃ m, valves_validate env m (drop_none cfg) = Some v)
    ∧ length (tools (store w')) = S (length (tools (store w))).
Proof.
  intros HB Hsys Hpc Hrun.
  assert (Tool.id B = id) as HBid.
  { apply StoreFacts.find_Some_true in HB as [HB _].
    by apply bool_decide_eq_true in HB. }
  rewrite ValvesFacts.valves_update_run in Hrun.
  rewrite (StoreFacts.find_and (has_id id) (owned_by None) _ B HB) in Hrun
    by (unfold owned_by; by rewrite Hsys, bool_decide_eq_true_2).
  rewrite Hpc, HBid in Hrun.
  apply ValvesFacts.valves_finish_Ok in Hrun as (m & w1 & Hmod & _ & Hval & ->).
  destruct (LoaderStore.tools_module_of_frame env id w) as (Ht & _ & Hclock).
  rewrite Hmod in Ht, Hclock. simpl in Ht, Hclock.
  unfold set_store, commit_valves; cbn [store tools].
  assert (find (has_id (personal_copy_id id (user_ident user)))
            (tools (store w1)) = None) as Hpc1.
  { pose proof (LoaderStore.find_touches
      (has_id (personal_copy_id id (user_ident user))) id _ _
      (λ t t' H, LoaderStore.has_id_same _ t t' (proj1 H)) Ht) as Hf.
    by rewrite Hpc in Hf. }
  eexists. split.
  { rewrite StoreFacts.find_app_None by done. cbn [find].
    unfold has_id at 1. cbn [set_valves new_copy Tool.id].
    rewrite bool_decide_eq_true_2 by done. reflexivity. }
  cbn [set_valves new_copy Tool.user_id Tool.name Tool.content Tool.specs
       Tool.meta Tool.valves].
  split_and!; try done.
  - rewrite lookup_union_l; [done|]. by rewrite lookup_singleton_ne.
  - intros Hnone. rewrite lookup_union_r by done. apply lookup_singleton_eq.
  - by exists m.
  - rewrite length_app. simpl. apply Forall2_length in Ht. lia.
Qed.

Lemma C4_first_write_creates_copy_witness :
  let run := update_tools_valves_by_id demo_env (lit "weather") celsius alice
               weather_world in
  ∃ pc, find (has_id (lit "weather_user_alice")) (tools (store (snd run))) = Some pc
        ∧ Tool.content pc = lit "x = 1" ∧ Tool.valves pc = Some celsius.
Proof.
  intros run.
  destruct (C4_first_write_creates_copy demo_env weather_world (snd run)
              (lit "weather") celsius celsius alice
              (demo_tool "weather" None (lit "x = 1") (Some ∅) None 5)
              ltac:(vm_compute; reflexivity) ltac:(reflexivity)
              ltac:(vm_compute; reflexivity) ltac:(vm_compute; reflexivity))
    as (pc & Hf & _ & _ & Hc & _ & _ & _ & _ & Hv & _).
  exists pc. split_and!; [exact Hf|exact Hc|exact Hv].
Defined.

(** ** C5: writing the valves of a user's tool *)

(** C5, as stated, fails: bob is granted write on alice's tool and root is
    an administrator, and the write of either is refused; the refusal is the
    status 400 wrapping "not found", not a permission error. *)
Lemma C5_counterexample :
  let w := notes_world (Some (grant (lit "write") [lit "bob"])) in
  has_access_model (lit "bob") (lit "write") (Some (grant (lit "write") [lit "bob"]))
    = true
  ∧ role admin = lit "admin"
  ∧ update_tools_valves_by_id demo_env (lit "notes") celsius bob w
    = (Raise (HTTPException 400 (DEFAULT (HTTPException 404 NOT_FOUND))), w)
  ∧ update_tools_valves_by_id demo_env (lit "notes") celsius admin w
    = (Raise (HTTPException 400 (DEFAULT (HTTPException 404 NOT_FOUND))), w)
  ∧ fst (update_tools_valves_by_id demo_env (lit "notes") celsius alice w)
    = Ok celsius.
Proof. vm_compute. split_and!; reflexivity. Qed.

Lemma find_unique (Q : Tool.row → bool) (i : str) (l : list Tool.row)
    (T : Tool.row) :
  NoDup (map Tool.id l) →
  find (has_id i) l = Some T →
  find (λ t, has_id i t && Q t) l = if Q T then Some T else None.
Proof.
  induction l as [|t l IH]; simpl; [done|].
  intros Hnd Hf. apply NoDup_cons in Hnd as [Hnotin Hnd].
  destruct (has_id i t) eqn:Hi; simpl.
  - injection Hf as ->. destruct (Q T); [done|].
    apply StoreFacts.find_None_all. apply Forall_forall. intros x Hx.
    apply bool_decide_eq_true in Hi.
    unfold has_id. rewrite bool_decide_eq_false_2; [done|].
    intros Hxi. apply Hnotin. rewrite Hi, <- Hxi.
    apply list_elem_of_In, in_map, list_elem_of_In, Hx.
  - by apply IH.
Qed.

(** C5 (amended).  For a tool owned by user O (ids being unique in the
    table), a configuration write by O goes on to load the module and
    validate, and when it succeeds it sets the tool's own configuration to
    the validated value and creates no record; it does succeed when the
    module is cached, has a [Valves] class and accepts the value.  A write by
    any other principal, administrators and write grantees included, changes
    nothing and fails with status 400 wrapping the not-found error. *)
Theorem C5_user_tool_write {Mod} (env : Env Mod) (w : World Mod) (id : str)
    (cfg : dict) (user : UserResponse) (T : Tool.row) (O : str) :
  NoDup (map Tool.id (tools (store w))) →
  find (has_id id) (tools (store w)) = Some T →
  Tool.user_id T = Some O →
  let run := update_tools_valves_by_id env id cfg user w in
  (user_ident user ≠ O →
     run = (Raise (HTTPException 400 (DEFAULT (HTTPException 404 NOT_FOUND))), w))
  ∧ (user_ident user = O →
     (∀ v, fst run = Ok v →
        (∃ m, valves_validate env m (drop_none cfg) = Some v)
        ∧ map Tool.id (tools (store (snd run))) = map Tool.id (tools (store w))
        ∧ (∃ T', find (has_id id) (tools (store (snd run))) = Some T'
                 ∧ Tool.valves T' = Some v ∧ Tool.user_id T' = Some O))
     ∧ (∀ m v, TOOLS (app w) !! id = Some m → has_valves env m = true →
               valves_validate env m (drop_none cfg) = Some v →
               fst run = Ok v)).
Proof.
  intros Hnd HT HO run. subst run.
  assert (Tool.id T = id) as HTid.
  { apply StoreFacts.find_Some_true in HT as [HT _].
    by apply bool_decide_eq_true in HT. }
  rewrite ValvesFacts.valves_update_run.
  rewrite (find_unique (owned_by None) id _ T Hnd HT).
  rewrite (find_unique (owned_by (Some (user_ident user))) id _ T Hnd HT).
  unfold owned_by. rewrite HO.
  rewrite (bool_decide_eq_false_2 (Some O = None)) by done.
  split.
  - intros Hne. rewrite bool_decide_eq_false_2; [done|]. congruence.
  - intros ->. rewrite bool_decide_eq_true_2 by done. rewrite HTid. split.
    + intros v Hv.
      destruct (valves_finish env cfg (Existing id) id w) as [r w'] eqn:Hrun.
      simpl in Hv. subst r.
      apply ValvesFacts.valves_finish_Ok in Hrun as (m & w1 & Hmod & _ & Hval & ->).
      destruct (LoaderStore.tools_module_of_frame env id w) as (Ht & _ & Hclock).
      rewrite Hmod in Ht, Hclock. simpl in Ht, Hclock.
      unfold set_store, commit_valves; cbn [snd store tools].
      split_and!.
      * by exists m.
      * rewrite map_map.
        assert (map Tool.id (tools (store w1)) = map Tool.id (tools (store w))) as <-.
        { clear -Ht. induction Ht as [|t t' l l' [(Hi & _) _] _ IH]; simpl;
            [done|]. by rewrite Hi, IH. }
        apply map_ext. intros t. by destruct (has_id id t).
      * pose proof (LoaderStore.find_touches (has_id id) id _ _
          (λ t t' H, LoaderStore.has_id_same _ t t' (proj1 H)) Ht) as Hf.
        rewrite HT in Hf. destruct Hf as (T1 & HT1 & (Hid1 & Hu1 & _) & _).
        rewrite StoreFacts.find_map by (intros t; by destruct (has_id id t) eqn:E).
        rewrite HT1. simpl. eexists. split; [reflexivity|].
        unfold has_id. rewrite bool_decide_eq_true_2 by congruence.
        simpl. split; [done|congruence].
    + intros m v Hm Hv Hval. unfold valves_finish.
      rewrite (tools_module_of_hit env w id m Hm), Hv, Hval. done.
Qed.

Lemma C5_user_tool_write_witness :
  let w := notes_world None in
  update_tools_valves_by_id demo_env (lit "notes") celsius admin w
  = (Raise (HTTPException 400 (DEFAULT (HTTPException 404 NOT_FOUND))), w).
Proof.
  intros w.
  destruct (C5_user_tool_write demo_env w (lit "notes") celsius admin
              (demo_tool "notes" (Some "alice") (lit "x = 1") (Some ∅) None 5)
              (lit "alice")
              ltac:(vm_compute; apply NoDup_singleton)
              ltac:(vm_compute; reflexivity) ltac:(reflexivity))
    as [H _].
  apply H. vm_compute. discriminate.
Defined.

(** ** C6: reading the valves of a user's tool *)

(** C6, as stated, fails: alice's tool grants read to bob, who is neither
    owner nor administrator and has no personal copy; his read of the
    configuration is refused as unauthorized. *)
Lemma C6_counterexample :
  let ac := Some (grant (lit "read") [lit "bob"]) in
  has_access_model (lit "bob") (lit "read") ac = true
  ∧ get_tools_valves_by_id (store (notes_world ac)) (lit "notes") bob
    = Raise (HTTPException 401 UNAUTHORIZED).
Proof. vm_compute. split; reflexivity. Qed.

(** C6 (amended).  For a tool owned by user O, a principal without a
    personal copy reads the tool's own configuration when it is O or an
    administrator; any other principal is refused as unauthorized, whatever
    the tool's access-control descriptor grants. *)
Theorem C6_read_user_tool (st : Store) (id : str) (user : UserResponse)
    (T : Tool.row) (O : str) :
  find (has_id id) (tools st) = Some T →
  Tool.user_id T = Some O →
  find (λ t, has_id (personal_copy_id id (user_ident user)) t
             && owned_by (Some (user_ident user)) t) (tools st) = None →
  (user_ident user ≠ O → role user ≠ lit "admin" →
     get_tools_valves_by_id st id user = Raise (HTTPException 401 UNAUTHORIZED))
  ∧ (user_ident user = O ∨ role user = lit "admin" →
     get_tools_valves_by_id st id user = Ok (Tool.valves T)).
Proof.
  intros HT HO Hpc. unfold get_tools_valves_by_id. rewrite Hpc, HT, HO.
  rewrite (bool_decide_eq_true_2 (Some O ≠ None)) by done. split.
  - intros Hu Hr. rewrite !bool_decide_eq_true_2; [done|done|congruence].
  - intros [Hu|Hr].
    + rewrite Hu. rewrite (bool_decide_eq_false_2 (Some O ≠ Some O)); [done|].
      by intros H.
    + rewrite (bool_decide_eq_false_2 (role user ≠ lit "admin")); [|by intros H].
      by rewrite andb_false_r.
Qed.

Lemma C6_read_user_tool_witness :
  get_tools_valves_by_id
    (store (notes_world (Some (grant (lit "read") [lit "bob"])))) (lit "notes") bob
  = Raise (HTTPException 401 UNAUTHORIZED).
Proof.
  destruct (C6_read_user_tool
              (store (notes_world (Some (grant (lit "read") [lit "bob"]))))
              (lit "notes") bob
              (demo_tool "notes" (Some "alice") (lit "x = 1") (Some ∅)
                 (Some (grant (lit "read") [lit "bob"])) 5)
              (lit "alice")
              ltac:(vm_compute; reflexivity) ltac:(reflexivity)
              ltac:(vm_compute; reflexivity))
    as [H _].
  apply H; vm_compute; discriminate.
Defined.

(** ** C3: the tools a user is shown *)

Module ListingFacts.

Lemma insert_desc_perm (t : Tool.row) (l : list Tool.row) :
  insert_desc t l ≡ₚ t :: l.
Proof.
  induction l as [|x l IH]; simpl; [done|].
  destruct (Tool.updated_at x <=? Tool.updated_at t)%Z; [done|].
  rewrite IH. apply Permutation_swap.
Qed.

Lemma order_by_perm (l : list Tool.row) : order_by_updated_at_desc l ≡ₚ l.
Proof.
  induction l as [|x l IH]; simpl; [done|].
  by rewrite insert_desc_perm, IH.
Qed.

Lemma insert_desc_sorted (t : Tool.row) (l : list Tool.row) :
  StronglySorted desc l → StronglySorted desc (insert_desc t l).
Proof.
  induction 1 as [|x l Hs IH Hx]; simpl.
  - repeat constructor.
  - destruct (Tool.updated_at x <=? Tool.updated_at t)%Z eqn:E.
    + apply Z.leb_le in E. constructor; [by constructor|].
      constructor; [done|]. eapply Forall_impl; [exact Hx|].
      intros y Hy. unfold desc in *. lia.
    + apply Z.leb_gt in E. constructor; [done|].
      rewrite insert_desc_perm. constructor; [|done]. unfold desc. lia.
Qed.

Lemma order_by_sorted (l : list Tool.row) :
  StronglySorted desc (order_by_updated_at_desc l).
Proof.
  induction l as [|x l IH]; simpl; [constructor|]. by apply insert_desc_sorted.
Qed.

Lemma filter_sorted {A} (R : A → A → Prop) (P : A → bool) (l : list A) :
  StronglySorted R l → StronglySorted R (List.filter P l).
Proof.
  induction 1 as [|x l Hs IH Hx]; simpl; [constructor|].
  destruct (P x); [|done]. constructor; [done|].
  apply Forall_forall. intros y Hy.
  apply list_elem_of_In, filter_In in Hy as [Hy _].
  rewrite Forall_forall in Hx. by apply Hx, list_elem_of_In.
Qed.

Lemma validate_all_Ok {A B} (f : A → option B) (l : list A) (r : list B) :
  validate_all f l = Ok r ↔ Forall2 (λ x y, f x = Some y) l r.
Proof.
  revert r. induction l as [|x l IH]; intros r; simpl.
  - split; [by intros [= <-]|]. by inversion 1.
  - destruct (f x) as [y|] eqn:E.
    + destruct (validate_all f l) as [ys|e].
      * split.
        -- intros [= <-]. constructor; [done|]. by apply IH.
        -- inversion 1 as [|? y' ? ys' Hy Hys]; subst.
           apply IH in Hys. congruence.
      * split; [done|]. inversion 1 as [|? y' ? ys' Hy Hys]; subst.
        by apply IH in Hys.
    + split; [done|]. inversion 1; congruence.
Qed.

Lemma validate_all_total {A B} (f : A → option B) (l : list A) :
  Forall (λ x, is_Some (f x)) l → ∃ r, validate_all f l = Ok r.
Proof.
  induction 1 as [|x l [y Hy] _ [r IH]]; simpl; [by eexists|].
  rewrite Hy, IH. by eexists.
Qed.

Lemma validate_tool_user_shows (st : Store) (t : Tool.row) (m : ToolUserModel) :
  validate_tool_user st t = Some m → shows t m.
Proof.
  unfold validate_tool_user. destruct (Tool.specs t); try done.
  destruct (model_validate t l) as [tm|] eqn:E; [|done]. simpl.
  intros [= <-]. apply StoreFacts.model_validate_fields in E.
  unfold shows. simpl. tauto.
Qed.

Lemma shows_sorted (rows : list Tool.row) (ms : list ToolUserModel) :
  Forall2 shows rows ms → StronglySorted desc rows → StronglySorted desc_model ms.
Proof.
  induction 1 as [|t m rows ms Htm Hrest IH]; intros Hs; [constructor|].
  apply StronglySorted_inv in Hs as [Hs Ht]. constructor; [by apply IH|].
  clear IH Hs. induction Hrest as [|t' m' rows ms Htm' _ IH]; [constructor|].
  apply Forall_cons in Ht as [Ht Hts]. constructor; [|by apply IH].
  unfold desc_model, desc in *.
  destruct Htm as (_ & _ & _ & _ & _ & -> & _).
  by destruct Htm' as (_ & _ & _ & _ & _ & -> & _).
Qed.

(** The listing for a user answers only for a table without system tools;
    the answer then shows the rows the user may see, newest first. *)
Lemma listing_Ok {Mod} (env : Env Mod) (st : Store) (user_id permission : str)
    (l : list ToolUserModel) :
  get_tools_by_user_id env st user_id permission = Ok l →
  Forall (λ t, Tool.user_id t ≠ None) (tools st)
  ∧ Forall2 shows
      (List.filter (accessible env user_id permission)
         (order_by_updated_at_desc (tools st))) l
  ∧ StronglySorted desc_model l.
Proof.
  unfold get_tools_by_user_id, get_system_tools.
  destruct (validate_all _ _) as [own|e] eqn:Eo; [|done].
  destruct (List.filter (owned_by None) _) as [|x sys] eqn:Es; [|done].
  intros [= <-]. rewrite app_nil_r.
  apply validate_all_Ok in Eo.
  assert (Forall2 shows
            (List.filter (accessible env user_id permission)
               (order_by_updated_at_desc (tools st))) own) as Ho.
  { eapply Forall2_impl; [exact Eo|]. apply validate_tool_user_shows. }
  split_and!; [|done|].
  - rewrite <- (order_by_perm (tools st)). apply Forall_forall. intros t Ht Hn.
    assert (t ∈ List.filter (owned_by None) (order_by_updated_at_desc (tools st)))
      as Hin.
    { apply list_elem_of_In, filter_In. split; [by apply list_elem_of_In|].
      by apply bool_decide_eq_true. }
    rewrite Es in Hin. by apply elem_of_nil in Hin.
  - eapply shows_sorted; [exact Ho|].
    apply filter_sorted, order_by_sorted.
Qed.

(** With a system tool in the table, the listing for a user whose rows pass
    validation ends in the AttributeError of [get_system_tools]. *)
Lemma listing_system_tool {Mod} (env : Env Mod) (st : Store)
    (user_id permission : str) (t : Tool.row) :
  t ∈ tools st → Tool.user_id t = None →
  Forall (λ t, is_Some (validate_tool_user st t))
    (List.filter (accessible env user_id permission)
       (order_by_updated_at_desc (tools st))) →
  get_tools_by_user_id env st user_id permission
  = Raise (Exception (lit "AttributeError")).
Proof.
  intros Ht Hn Hv. unfold get_tools_by_user_id, get_system_tools.
  destruct (validate_all_total _ _ Hv) as [own ->].
  destruct (List.filter (owned_by None) _) as [|x sys] eqn:Es; [|done].
  assert (t ∈ List.filter (owned_by None) (order_by_updated_at_desc (tools st)))
    as Hin.
  { apply list_elem_of_In, filter_In. split.
    - apply list_elem_of_In. by rewrite order_by_perm.
    - by apply bool_decide_eq_true. }
  rewrite Es in Hin. by apply elem_of_nil in Hin.
Qed.

End ListingFacts.

(** C3.  The listing for a user fails as soon as the table holds a system
    blueprint: [get_system_tools] calls a method that [ToolsTable] does not
    define.  In the table of [listing_world] every row passes validation and
    [Tools.get_tools] lists the three tools, the blueprint among them, newest
    first; the listing for Alice, whichever permission is asked for, and the
    route [GET /list] end in an AttributeError. *)
Theorem C3_system_tool_breaks_listing :
  get_tools_by_user_id demo_env (store listing_world) (lit "alice") (lit "read")
    = Raise (Exception (lit "AttributeError"))
  ∧ get_tools_by_user_id demo_env (store listing_world) (lit "alice") (lit "write")
    = Raise (Exception (lit "AttributeError"))
  ∧ get_tool_list demo_env (store listing_world) alice
    = Raise (Exception (lit "AttributeError"))
  ∧ (∃ l, get_tools (store listing_world) = Ok l
          ∧ map id_and_time l
            = [(lit "shared", 3%Z); (lit "weather", 2%Z); (lit "mine", 1%Z)]).
Proof.
  assert (∀ permission,
            get_tools_by_user_id demo_env (store listing_world) (lit "alice")
              permission = Raise (Exception (lit "AttributeError"))) as H.
  { intros permission.
    apply (ListingFacts.listing_system_tool demo_env (store listing_world) _ _
             (demo_tool "weather" None (lit "x = 2") None None 2)).
    - right. left.
    - reflexivity.
    - apply Forall_forall. intros t Ht.
      apply list_elem_of_In, filter_In in Ht as [Ht _].
      apply list_elem_of_In in Ht. rewrite ListingFacts.order_by_perm in Ht.
      repeat (apply elem_of_cons in Ht as [->|Ht]; [by eexists|]).
      by apply elem_of_nil in Ht. }
  split_and!; [apply H|apply H|apply H|].
  eexists. split; vm_compute; reflexivity.
Qed.

(** ** Trimming, splitting and joining *)

Module StripFacts.

Lemma lstrip_allspace (s : str) : allspace s = true → lstrip s = [].
Proof.
  induction s as [|c s IH]; simpl; [done|].
  rewrite andb_true_iff. intros [-> H]. auto.
Qed.

Lemma lstrip_app (a b : str) :
  lstrip (a ++ b) = if allspace a then lstrip b else lstrip a ++ b.
Proof.
  induction a as [|c a IH]; simpl; [done|].
  destruct (isspace c); simpl; [apply IH|done].
Qed.

Lemma allspace_rev (s : str) : allspace (rev s) = allspace s.
Proof.
  unfold allspace. induction s as [|c s IH]; simpl; [done|].
  rewrite forallb_app, IH. simpl. rewrite andb_true_r. apply andb_comm.
Qed.

Lemma rstrip_allspace (s : str) : allspace s = true → rstrip s = [].
Proof.
  intros H. unfold rstrip. rewrite lstrip_allspace; [done|].
  by rewrite allspace_rev.
Qed.

Lemma rstrip_cons (c : ascii) (s : str) :
  rstrip (c :: s) = if isspace c && allspace s then [] else c :: rstrip s.
Proof.
  unfold rstrip. simpl. rewrite lstrip_app, allspace_rev.
  destruct (allspace s) eqn:E.
  - rewrite andb_true_r. simpl.
    rewrite (lstrip_allspace (rev s)) by (by rewrite allspace_rev).
    by destruct (isspace c).
  - rewrite andb_false_r, rev_app_distr. done.
Qed.

(** A leading blank does not change the trimmed text. *)
Lemma strip_cons_space (c : ascii) (s : str) :
  isspace c = true → strip (c :: s) = strip s.
Proof.
  intros Hc. unfold strip. rewrite rstrip_cons, Hc. simpl.
  destruct (allspace s) eqn:E.
  - by rewrite rstrip_allspace.
  - simpl. by rewrite Hc.
Qed.

Lemma lstrip_idemp (s : str) : lstrip (lstrip s) = lstrip s.
Proof.
  induction s as [|c s IH]; simpl; [done|].
  destruct (isspace c) eqn:E; [done|]. simpl. by rewrite E.
Qed.

Lemma rstrip_idemp (s : str) : rstrip (rstrip s) = rstrip s.
Proof. unfold rstrip. by rewrite rev_involutive, lstrip_idemp. Qed.

Lemma rstrip_lstrip (s : str) : rstrip (lstrip s) = lstrip (rstrip s).
Proof.
  induction s as [|c s IH]; [done|].
  rewrite rstrip_cons. simpl. destruct (isspace c) eqn:E; simpl.
  - destruct (allspace s) eqn:Ea.
    + by rewrite lstrip_allspace.
    + simpl. by rewrite E.
  - by rewrite rstrip_cons, E.
Qed.

Lemma strip_idemp (s : str) : strip (strip s) = strip s.
Proof.
  unfold strip. by rewrite rstrip_lstrip, lstrip_idemp, rstrip_idemp.
Qed.

Lemma elem_of_lstrip (x : ascii) (s : str) : x ∈ lstrip s → x ∈ s.
Proof.
  induction s as [|c s IH]; simpl; [done|].
  destruct (isspace c); [|done]. intros H. right. auto.
Qed.

Lemma elem_of_strip (x : ascii) (s : str) : x ∈ strip s → x ∈ s.
Proof.
  unfold strip, rstrip. intros H. apply elem_of_lstrip in H.
  apply list_elem_of_In, in_rev, list_elem_of_In, elem_of_lstrip in H.
  by apply list_elem_of_In, in_rev, list_elem_of_In in H.
Qed.

Lemma split_cons_other (sep c : ascii) (s : str) :
  c ≠ sep →
  split sep (c :: s) = (c :: hd [] (split sep s)) :: tl (split sep s).
Proof.
  intros Hc. simpl. destruct (ascii_dec c sep); [done|].
  by destruct (split sep s).
Qed.

Lemma split_not_nil (sep : ascii) (s : str) : split sep s ≠ [].
Proof.
  induction s as [|c s IH]; simpl; [done|].
  destruct (ascii_dec c sep); [done|]. by destruct (split sep s).
Qed.

(** No part of a split holds the separator. *)
Lemma split_parts (sep : ascii) (s : str) : Forall (λ p, sep ∉ p) (split sep s).
Proof.
  induction s as [|c s IH]; simpl.
  - constructor; [apply not_elem_of_nil|constructor].
  - destruct (ascii_dec c sep) as [->|Hne].
    + constructor; [apply not_elem_of_nil|done].
    + destruct (split sep s) as [|w ws]; simpl.
      * constructor; [|constructor]. apply not_elem_of_cons. split; [done|].
        apply not_elem_of_nil.
      * apply Forall_cons in IH as [Hw Hws]. constructor; [|done].
        apply not_elem_of_cons. split; [done|done].
Qed.

Lemma split_none (sep : ascii) (s : str) : sep ∉ s → split sep s = [s].
Proof.
  induction s as [|c s IH]; intros Hn; simpl; [done|].
  apply not_elem_of_cons in Hn as [Hc Hs].
  destruct (ascii_dec c sep); [done|]. by rewrite IH.
Qed.

Lemma split_app_sep (sep : ascii) (a r : str) :
  sep ∉ a → split sep (a ++ sep :: r) = a :: split sep r.
Proof.
  induction a as [|c a IH]; intros Hn; simpl.
  - by destruct (ascii_dec sep sep).
  - apply not_elem_of_cons in Hn as [Hc Ha].
    destruct (ascii_dec c sep); [done|]. by rewrite IH.
Qed.

(** Splitting a [", "]-joined list of comma-free texts gives the texts back,
    each but the first behind a blank. *)
Lemma split_join (x : str) (xs : list str) :
  Forall (λ p, comma ∉ p) (x :: xs) →
  split comma (join (lit ", ") (x :: xs)) = x :: map (λ y, " "%char :: y) xs.
Proof.
  revert x. induction xs as [|y ys IH]; intros x Hf.
  - simpl. apply Forall_cons in Hf as [Hx _]. by apply split_none.
  - apply Forall_cons in Hf as [Hx Hf].
    change (join (lit ", ") (x :: y :: ys))
      with (x ++ comma :: (" "%char :: join (lit ", ") (y :: ys))).
    rewrite split_app_sep by done. f_equal.
    rewrite split_cons_other by done. rewrite IH by done. done.
Qed.

(** The requirement list of a joined set of trimmed, comma-free texts is the
    set's non-empty members. *)
Lemma req_list_of_join (l : list str) :
  Forall (λ p, (comma ∉ p) ∧ strip p = p) l →
  req_list_of (join (lit ", ") l) = List.filter nonempty l.
Proof.
  intros Hf. destruct l as [|x xs]; [done|].
  unfold req_list_of. rewrite split_join
    by (eapply Forall_impl; [exact Hf|]; by intros p [? _]).
  apply Forall_cons in Hf as [[_ Hx] Hf]. simpl map. rewrite Hx.
  f_equal. f_equal. clear x Hx.
  induction Hf as [|y ys [_ Hy] _ IH]; simpl; [done|].
  rewrite strip_cons_space by done. by rewrite Hy, IH.
Qed.

End StripFacts.

(** ** C9: the batch installation of requirements *)

(** C9, as stated, fails: the only tool declares the requirements foo and
    bar, and the batch does not run the installer, for the tool's owner is no
    administrator. *)
Lemma C9_counterexample :
  requirements_of (extract_frontmatter demo_source) = lit "foo,bar"
  ∧ install_tool_and_function_dependencies demo_env bob_tool_world
    = (Ok (), bob_tool_world)
  ∧ pip_calls bob_tool_world = [].
Proof. vm_compute. split_and!; reflexivity. Qed.

Module BatchFacts.
Import StripFacts.

Lemma add_dependencies_spec (fm : frontmatter) (S : gset str) (x : str) :
  x ∈ add_dependencies fm S ↔ x ∈ S ∨ declares fm x.
Proof.
  unfold add_dependencies, declares.
  destruct (fm !! lit "requirements") as [[|c d]|] eqn:E.
  - split; [by left|]. intros [?|(c & d & p & ? & _)]; [done|congruence].
  - rewrite elem_of_union, elem_of_list_to_set. split.
    + intros [?|Hx]; [by left|right].
      apply list_elem_of_In, in_map_iff in Hx as (p & <- & Hp).
      exists c, d, p. split_and!; [done| |done]. by apply list_elem_of_In.
    + intros [?|(c' & d' & p & [= <- <-] & Hp & ->)]; [by left|right].
      apply list_elem_of_In, in_map, list_elem_of_In, Hp.
  - split; [by left|]. intros [?|(c & d & p & ? & _)]; [done|congruence].
Qed.

Lemma fold_add_dependencies {A} (g : A → frontmatter) (l : list A)
    (S : gset str) (x : str) :
  x ∈ fold_left (λ deps a, add_dependencies (g a) deps) l S ↔
  x ∈ S ∨ ∃ fm, fm ∈ map g l ∧ declares fm x.
Proof.
  revert S. induction l as [|a l IH]; intros S; simpl.
  - split; [by left|]. intros [?|(fm & H & _)]; [done|]. by apply elem_of_nil in H.
  - rewrite IH, add_dependencies_spec. split.
    + intros [[?|?]|(fm & ? & ?)].
      * by left.
      * right. exists (g a). split; [left|done].
      * right. exists fm. split; [by right|done].
    + intros [?|(fm & Hfm & ?)]; [by left; left|].
      apply elem_of_cons in Hfm as [->|?].
      * left. by right.
      * right. by exists fm.
Qed.

Lemma collect_dependencies_spec {Mod} (env : Env Mod) fl tl (x : str) :
  x ∈ collect_dependencies env fl tl ↔
  ∃ fm, fm ∈ batch_frontmatters env fl tl ∧ declares fm x.
Proof.
  unfold collect_dependencies, batch_frontmatters.
  rewrite (fold_add_dependencies (tool_frontmatter env)).
  rewrite (fold_add_dependencies
             (λ f, extract_frontmatter (replace_imports (fn_content f)))).
  split.
  - intros [[H|(fm & ? & ?)]|(fm & ? & ?)]; [by apply elem_of_empty in H|..];
      exists fm; (split; [|done]); apply elem_of_app; auto.
  - intros (fm & Hfm & ?). apply elem_of_app in Hfm as [?|?].
    + left. right. by exists fm.
    + right. by exists fm.
Qed.

(** A declared requirement is trimmed and holds no comma. *)
Lemma declares_clean (fm : frontmatter) (x : str) :
  declares fm x → (comma ∉ x) ∧ strip x = x.
Proof.
  intros (c & d & p & _ & Hp & ->). split.
  - intros Hc. apply elem_of_strip in Hc.
    pose proof (split_parts comma (c :: d)) as Hf.
    rewrite Forall_forall in Hf. by apply (Hf p).
  - apply strip_idemp.
Qed.

End BatchFacts.

(** C9 (amended).  The batch collects the trimmed, comma-separated parts of
    the non-empty [requirements] declarations of every active function, of
    every tool whose owner is an administrator, and of every file-based
    system tool (owner absent, id starting with custom_) whose file can be
    read; other tools contribute nothing.  It runs the installer once, with
    the non-empty members of that set, each once, and not at all when the
    set has no non-empty member; a failure of the installer is swallowed. *)
Theorem C9_batch_install {Mod} (env : Env Mod) (w : World Mod)
    (tool_list : list ToolUserModel) :
  get_tools (store w) = Ok tool_list →
  let deps := collect_dependencies env (active_functions (functions w)) tool_list in
  let reqs := List.filter nonempty (elements deps) in
  let run := install_tool_and_function_dependencies env w in
  fst run = Ok ()
  ∧ pip_calls (snd run)
    = pip_calls w ++ match reqs with [] => [] | _ :: _ => [pip_argv env reqs] end
  ∧ store (snd run) = store w ∧ executed (snd run) = executed w
  ∧ NoDup reqs
  ∧ (∀ x, x ∈ reqs ↔ x ≠ [] ∧
       ∃ fm, fm ∈ batch_frontmatters env (active_functions (functions w)) tool_list
             ∧ declares fm x)
  ∧ (∀ tool, tool ∈ tool_list →
       tool_frontmatter env tool =
       if bool_decide (tm_user_id (tum_model tool) = None)
          && startswith (lit "custom_") (tm_id (tum_model tool))
       then from_option extract_frontmatter ∅
              (read_file env (tool_file_path env (tm_id (tum_model tool))))
       else if bool_decide (role <$> tum_user tool = Some (lit "admin"))
            then extract_frontmatter (replace_imports (tm_content (tum_model tool)))
            else ∅).
Proof.
  intros Hget deps reqs run.
  assert (req_list_of (join (lit ", ") (elements deps)) = reqs) as Hreq.
  { apply StripFacts.req_list_of_join. apply Forall_forall. intros x Hx.
    apply elem_of_elements, BatchFacts.collect_dependencies_spec in Hx
      as (fm & _ & Hd).
    by eapply BatchFacts.declares_clean. }
  assert (run =
    if bool_decide (deps ≠ ∅) then
      match reqs with
      | [] => (Ok (), w)
      | _ :: _ => (Ok (), log_pip (pip_argv env reqs) w)
      end
    else (Ok (), w)) as ->.
  { subst run. unfold install_tool_and_function_dependencies.
    unfold mbind at 1, prog_bind at 1, world at 1. cbv beta iota.
    unfold mbind at 1, prog_bind at 1, of_result at 1. rewrite Hget. cbv beta iota.
    unfold try_except. fold deps. destruct (bool_decide (deps ≠ ∅)); [|done].
    rewrite LoaderFacts.install_run, Hreq.
    destruct reqs; [done|]. by destruct (pip_succeeds env _). }
  assert (deps = ∅ → reqs = []) as Hempty.
  { intros E. subst reqs. by rewrite E, elements_empty. }
  split_and!.
  - case_bool_decide; [|done]. by destruct reqs.
  - case_bool_decide as Hd.
    + destruct reqs; simpl; [by rewrite app_nil_r|done].
    + rewrite Hempty; [simpl; by rewrite app_nil_r|done].
  - case_bool_decide; [|done]. by destruct reqs.
  - case_bool_decide; [|done]. by destruct reqs.
  - subst reqs. apply NoDup_ListNoDup, List.NoDup_filter, NoDup_ListNoDup,
      NoDup_elements.
  - intros x. subst reqs.
    rewrite list_elem_of_In, filter_In, <- list_elem_of_In, elem_of_elements.
    subst deps. rewrite BatchFacts.collect_dependencies_spec.
    destruct x; simpl; split; intros [? ?]; split; try done.
  - intros tool _. unfold tool_frontmatter.
    destruct (bool_decide (tm_user_id (tum_model tool) = None)
              && startswith (lit "custom_") (tm_id (tum_model tool))).
    + by destruct (read_file env _).
    + destruct (tum_user tool) as [u|]; simpl; [|done].
      destruct (decide (role u = lit "admin")) as [E|E].
      * by rewrite E, !bool_decide_eq_true_2.
      * rewrite (bool_decide_eq_false_2 (role u = lit "admin")) by done.
        rewrite bool_decide_eq_false_2; [done|]. by intros [= ?].
Qed.

Lemma C9_batch_install_witness :
  ∃ a b,
    pip_calls (snd (install_tool_and_function_dependencies demo_env admin_tool_world))
    = [[lit "python"; lit "-m"; lit "pip"; lit "install"; a; b]].
Proof.
  destruct (get_tools (store admin_tool_world)) as [tool_list|e] eqn:Hget;
    [|vm_compute in Hget; discriminate].
  destruct (C9_batch_install demo_env admin_tool_world tool_list Hget)
    as (_ & Hp & _).
  rewrite Hp. vm_compute in Hget. injection Hget as <-.
  vm_compute. by eexists _, _.
Defined.

(** * Further properties of the code *)

(** ** replace_imports: what is left of the legacy prefixes *)

(** X1.  A rewritten text holds none of the four legacy prefixes, and the
    texts the rewrite leaves unchanged are exactly those that hold none. *)
Theorem X1_replace_imports_fixed_points (s : str) :
  Forall (λ q, ¬ occurs q (replace_imports s)) olds
  ∧ (replace_imports s = s ↔ Forall (λ q, ¬ occurs q s) olds).
Proof.
  split; [apply RewriteFacts.replace_imports_clean|]. split.
  - intros <-. apply RewriteFacts.replace_imports_clean.
  - apply RewriteFacts.replace_imports_fixed.
Qed.

(** ** extract_frontmatter: the shape of keys and values *)

Module ShapeFacts.
Import StripFacts.

Ltac ascii_cases c := destruct c as [[] [] [] [] [] [] [] []].

Lemma lower_char_idemp (c : ascii) : lower_char (lower_char c) = lower_char c.
Proof. ascii_cases c; reflexivity. Qed.

Lemma isspace_lower_char (c : ascii) : isspace (lower_char c) = isspace c.
Proof. ascii_cases c; reflexivity. Qed.

Lemma lower_char_colon (c : ascii) : lower_char c = colon → c = colon.
Proof. ascii_cases c; vm_compute; congruence. Qed.

Lemma lower_idemp (s : str) : lower (lower s) = lower s.
Proof.
  unfold lower. rewrite map_map. apply map_ext. apply lower_char_idemp.
Qed.

Lemma lstrip_lower (s : str) : lstrip (lower s) = lower (lstrip s).
Proof.
  induction s as [|c s IH]; simpl; [done|].
  rewrite isspace_lower_char. by destruct (isspace c).
Qed.

Lemma strip_lower (s : str) : strip (lower s) = lower (strip s).
Proof.
  unfold strip, rstrip, lower.
  rewrite <- map_rev. fold (lower (rev s)). rewrite lstrip_lower.
  unfold lower. rewrite <- map_rev. fold (lower (rev (lstrip (rev s)))).
  apply lstrip_lower.
Qed.

Lemma elem_of_lower (x : ascii) (s : str) :
  x ∈ lower s → ∃ c, c ∈ s ∧ x = lower_char c.
Proof.
  unfold lower. intros H. apply list_elem_of_In, in_map_iff in H as (c & <- & H).
  exists c. split; [by apply list_elem_of_In|done].
Qed.

(** Whatever the loop leaves in the map was put there by a line. *)
Lemma fold_put_from_line (lines : list str) (k v : str) :
  fold_left put lines ∅ !! k = Some v → ∃ line, line ∈ lines ∧ entry line = Some (k, v).
Proof.
  rewrite FrontmatterFacts.fold_put_lookup.
  intros [(l1 & line & l2 & -> & He & _)|[_ H]]; [|by rewrite lookup_empty in H].
  exists line. split; [|done]. apply elem_of_app. right. left.
Qed.

Lemma extract_from_line (content k v : str) :
  extract_frontmatter content !! k = Some v →
  ∃ block line, search_docstring content = Some block
                ∧ line ∈ split newline (strip block)
                ∧ entry line = Some (k, v).
Proof.
  unfold extract_frontmatter, frontmatter_try.
  destruct (negb _); [by rewrite lookup_empty|].
  destruct (search_docstring content) as [block|]; [|by rewrite lookup_empty].
  rewrite FrontmatterFacts.frontmatter_lines_fold. intros H.
  apply fold_put_from_line in H as (line & ? & ?). by exists block, line.
Qed.

End ShapeFacts.

(** X2.  Every key of an extracted frontmatter is lower-case and trimmed and
    holds neither a colon nor a line feed; every value is trimmed and holds no
    line feed. *)
Theorem X2_frontmatter_shape (content k v : str) :
  extract_frontmatter content !! k = Some v →
  lower k = k ∧ strip k = k ∧ (colon ∉ k) ∧ (newline ∉ k)
  ∧ strip v = v ∧ (newline ∉ v).
Proof.
  intros H. apply ShapeFacts.extract_from_line in H as (block & line & _ & Hl & He).
  apply FrontmatterFacts.entry_Some in He as (b & a & -> & Hc & -> & ->).
  pose proof (StripFacts.split_parts newline (strip block)) as Hparts.
  rewrite Forall_forall in Hparts. specialize (Hparts _ Hl).
  assert (newline ∉ b) as Hnb.
  { intros Hx. apply Hparts, elem_of_app. by left. }
  assert (newline ∉ a) as Hna.
  { intros Hx. apply Hparts, elem_of_app. right. by right. }
  split_and!.
  - apply ShapeFacts.lower_idemp.
  - by rewrite ShapeFacts.strip_lower, StripFacts.strip_idemp.
  - intros Hx. apply ShapeFacts.elem_of_lower in Hx as (c & Hx & Ec).
    symmetry in Ec. apply ShapeFacts.lower_char_colon in Ec as ->.
    by apply StripFacts.elem_of_strip in Hx.
  - intros Hx. apply ShapeFacts.elem_of_lower in Hx as (c & Hx & Ec).
    assert (isspace c = true) as Hs.
    { rewrite <- ShapeFacts.isspace_lower_char, <- Ec. reflexivity. }
    assert (c = newline ∨ c ≠ newline) as [->|Hne]
      by (destruct (ascii_dec c newline); auto).
    + by apply StripFacts.elem_of_strip in Hx.
    + revert Ec Hne. clear. ShapeFacts.ascii_cases c; vm_compute; congruence.
  - apply StripFacts.strip_idemp.
  - intros Hx. by apply StripFacts.elem_of_strip in Hx.
Qed.

Lemma X2_frontmatter_shape_witness :
  strip (lit "foo,bar") = lit "foo,bar" ∧ lower (lit "requirements") = lit "requirements".
Proof.
  destruct (X2_frontmatter_shape demo_source (lit "requirements") (lit "foo,bar")
              ltac:(vm_compute; reflexivity)) as (Hk & _ & _ & _ & Hv & _).
  split; [exact Hv|exact Hk].
Defined.

(** ** install_frontmatter_requirements *)

(** X3.  The installer is started at most once per call: once, with the
    interpreter, [-m pip install], the configured options and the
    requirements in their order, when some part between the commas is not
    blank, and not at all otherwise.  Every requirement it is given is a
    trimmed, non-empty part without a comma.  The call raises exactly when
    the installer is started and fails; store, caches and executed sources
    stay as they are. *)
Theorem X3_install_requirements {Mod} (env : Env Mod) (requirements : str)
    (w : World Mod) :
  let reqs := req_list_of requirements in
  let run := install_frontmatter_requirements env requirements w in
  Forall (λ x, x ≠ [] ∧ strip x = x ∧ (comma ∉ x)
               ∧ ∃ p, p ∈ split comma requirements ∧ x = strip p) reqs
  ∧ pip_calls (snd run)
    = pip_calls w ++ match reqs with
                     | [] => []
                     | _ :: _ =>
                         [[sys_executable env; lit "-m"; lit "pip"; lit "install"]
                          ++ PIP_OPTIONS env ++ reqs ++ PIP_PACKAGE_INDEX_OPTIONS env]
                     end
  ∧ store (snd run) = store w ∧ app (snd run) = app w
  ∧ executed (snd run) = executed w
  ∧ (fst run = Ok () ↔
     reqs = [] ∨ pip_succeeds env (pip_argv env reqs) = true).
Proof.
  intros reqs run. split.
  - subst reqs. unfold req_list_of. apply Forall_forall. intros x Hx.
    apply list_elem_of_In, filter_In in Hx as [Hx Hne].
    apply in_map_iff in Hx as (p & <- & Hp). apply list_elem_of_In in Hp.
    split_and!.
    + by destruct (strip p).
    + apply StripFacts.strip_idemp.
    + intros Hc. apply StripFacts.elem_of_strip in Hc.
      pose proof (StripFacts.split_parts comma requirements) as Hf.
      rewrite Forall_forall in Hf. by apply (Hf p).
    + by exists p.
  - subst run. rewrite LoaderFacts.install_run. fold reqs.
    destruct reqs as [|r0 rl] eqn:E; simpl.
    + rewrite app_nil_r. split_and!; [done..|]. split; auto.
    + split_and!; [done..|].
      destruct (pip_succeeds env _); split; try done; auto.
      intros [?|?]; done.
Qed.

(** ** github_url_to_raw_url and the tool's name *)

Module UrlFacts.
Import StripFacts.

Lemma after_prefix_app (p s : str) : after_prefix p (p ++ s) = Some s.
Proof.
  induction p as [|a p IH]; simpl; [by destruct s|].
  by destruct (ascii_dec a a).
Qed.

Lemma after_prefix_Some (p s r : str) : after_prefix p s = Some r → s = p ++ r.
Proof.
  revert s. induction p as [|a p IH]; intros s; simpl.
  - destruct s; by intros [= <-].
  - destruct s as [|b s]; [done|]. destruct (ascii_dec a b) as [->|]; [|done].
    intros H. by rewrite (IH _ H).
Qed.

Lemma segment_app (a r : str) :
  a ≠ [] → slash ∉ a → segment (a ++ [slash] ++ r) = Some (a, r).
Proof.
  intros Ha Hs. unfold segment. change ([slash] ++ r) with (slash :: r).
  rewrite FrontmatterFacts.split1_app by done.
  by destruct a.
Qed.

(** No address on the raw host is matched again. *)
Lemma github_match_raw (kind x : str) : github_match kind (raw_host ++ x) = None.
Proof. reflexivity. Qed.

Lemma elem_of_lstrip_char (c x : ascii) (s : str) : x ∈ lstrip_char c s → x ∈ s.
Proof.
  induction s as [|y s IH]; simpl; [done|].
  destruct (ascii_dec y c); [|done]. intros H. right. auto.
Qed.

Lemma elem_of_rstrip_char (c x : ascii) (s : str) : x ∈ rstrip_char c s → x ∈ s.
Proof.
  unfold rstrip_char. intros H.
  apply list_elem_of_In, in_rev, list_elem_of_In, elem_of_lstrip_char in H.
  by apply list_elem_of_In, in_rev, list_elem_of_In in H.
Qed.

Lemma last_elem_of {A} (l : list A) (x : A) : last l = Some x → x ∈ l.
Proof.
  induction l as [|y l IH]; [done|]. destruct l as [|z l].
  - intros [= ->]. left.
  - intros H. right. by apply IH.
Qed.

Lemma notin_b (c : ascii) (s : str) : contains [c] s = false → c ∉ s.
Proof.
  intros H Hin. apply FrontmatterFacts.contains_char in Hin. congruence.
Qed.

Lemma github_match_shape (kind org repo branch path : str) :
  org ≠ [] → repo ≠ [] → branch ≠ [] →
  slash ∉ org → slash ∉ repo → slash ∉ branch → newline ∉ path →
  github_match kind
    (lit "https://github.com/" ++ org ++ [slash] ++ repo ++ [slash]
     ++ kind ++ [slash] ++ branch ++ [slash] ++ path)
  = Some (org, repo, branch, path).
Proof.
  intros Ho Hr Hb Hso Hsr Hsb Hn.
  assert (split1 newline path = (path, None)) as Hp
    by (by apply FrontmatterFacts.split1_None).
  unfold github_match. rewrite after_prefix_app.
  cbn [mbind option_bind]. rewrite segment_app by done.
  cbn [mbind option_bind]. rewrite segment_app by done.
  cbn [mbind option_bind]. rewrite (app_assoc kind [slash]).
  rewrite after_prefix_app.
  cbn [mbind option_bind]. rewrite segment_app by done.
  cbn [mbind option_bind]. by rewrite Hp.
Qed.

Lemma raw_of_tree (org repo branch path : str) :
  org ≠ [] → repo ≠ [] → branch ≠ [] →
  slash ∉ org → slash ∉ repo → slash ∉ branch → newline ∉ path →
  github_url_to_raw_url
    (lit "https://github.com/" ++ org ++ [slash] ++ repo ++ lit "/tree/"
     ++ branch ++ [slash] ++ path)
  = raw_host ++ org ++ [slash] ++ repo ++ lit "/refs/heads/" ++ branch
    ++ [slash] ++ rstrip_char slash path ++ lit "/main.py".
Proof.
  intros Ho Hr Hb Hso Hsr Hsb Hn. unfold github_url_to_raw_url.
  change (lit "/tree/" ++ branch ++ [slash] ++ path)
    with ([slash] ++ lit "tree" ++ [slash] ++ branch ++ [slash] ++ path).
  by rewrite github_match_shape.
Qed.

Lemma raw_of_blob (org repo branch path : str) :
  org ≠ [] → repo ≠ [] → branch ≠ [] →
  slash ∉ org → slash ∉ repo → slash ∉ branch → newline ∉ path →
  github_url_to_raw_url
    (lit "https://github.com/" ++ org ++ [slash] ++ repo ++ lit "/blob/"
     ++ branch ++ [slash] ++ path)
  = raw_host ++ org ++ [slash] ++ repo ++ lit "/refs/heads/" ++ branch
    ++ [slash] ++ path.
Proof.
  intros Ho Hr Hb Hso Hsr Hsb Hn.
  assert (github_match (lit "tree")
            (lit "https://github.com/" ++ org ++ [slash] ++ repo ++ lit "/blob/"
             ++ branch ++ [slash] ++ path) = None) as Hnt.
  { unfold github_match. rewrite after_prefix_app.
    cbn [mbind option_bind]. rewrite segment_app by done.
    cbn [mbind option_bind].
    change (lit "/blob/" ++ branch ++ [slash] ++ path)
      with ([slash] ++ lit "blob/" ++ branch ++ [slash] ++ path).
    rewrite segment_app by done. reflexivity. }
  unfold github_url_to_raw_url. rewrite Hnt.
  change (lit "/blob/" ++ branch ++ [slash] ++ path)
    with ([slash] ++ lit "blob" ++ [slash] ++ branch ++ [slash] ++ path).
  by rewrite github_match_shape.
Qed.

End UrlFacts.

(** X4.  Turning a link into its raw address is idempotent: an address the
    function has produced is returned unchanged. *)
Theorem X4_github_url_idempotent (url : str) :
  github_url_to_raw_url (github_url_to_raw_url url) = github_url_to_raw_url url.
Proof.
  unfold github_url_to_raw_url at 2 3.
  destruct (github_match (lit "tree") url) as [[[[org repo] branch] path]|] eqn:Et.
  - unfold github_url_to_raw_url. by rewrite !UrlFacts.github_match_raw.
  - destruct (github_match (lit "blob") url) as [[[[org repo] branch] path]|] eqn:Eb.
    + unfold github_url_to_raw_url. by rewrite !UrlFacts.github_match_raw.
    + unfold github_url_to_raw_url. by rewrite Et, Eb.
Qed.

(** X5.  A link to a directory ([tree]) becomes the raw address of the
    [main.py] in it, trailing slashes of the path dropped; a link to a file
    ([blob]) becomes the file's raw address; a text that does not start with
    the host [https://github.com/] is returned as it is. *)
Theorem X5_github_url_shapes (org repo branch path url : str) :
  org ≠ [] → repo ≠ [] → branch ≠ [] →
  slash ∉ org → slash ∉ repo → slash ∉ branch → newline ∉ path →
  github_url_to_raw_url
    (lit "https://github.com/" ++ org ++ [slash] ++ repo ++ lit "/tree/"
     ++ branch ++ [slash] ++ path)
  = raw_host ++ org ++ [slash] ++ repo ++ lit "/refs/heads/" ++ branch
    ++ [slash] ++ rstrip_char slash path ++ lit "/main.py"
  ∧ github_url_to_raw_url
      (lit "https://github.com/" ++ org ++ [slash] ++ repo ++ lit "/blob/"
       ++ branch ++ [slash] ++ path)
    = raw_host ++ org ++ [slash] ++ repo ++ lit "/refs/heads/" ++ branch
      ++ [slash] ++ path
  ∧ (after_prefix (lit "https://github.com/") url = None →
     github_url_to_raw_url url = url).
Proof.
  intros Ho Hr Hb Hso Hsr Hsb Hn. split_and!.
  - by apply UrlFacts.raw_of_tree.
  - by apply UrlFacts.raw_of_blob.
  - intros Hx. unfold github_url_to_raw_url, github_match. by rewrite Hx.
Qed.

Lemma X5_github_url_shapes_witness :
  github_url_to_raw_url (lit "https://github.com/o/r/tree/main/tools/x/")
  = lit "https://raw.githubusercontent.com/o/r/refs/heads/main/tools/x/main.py".
Proof.
  destruct (X5_github_url_shapes (lit "o") (lit "r") (lit "main") (lit "tools/x/") []
              ltac:(discriminate) ltac:(discriminate) ltac:(discriminate)
              ltac:(apply UrlFacts.notin_b; reflexivity)
              ltac:(apply UrlFacts.notin_b; reflexivity)
              ltac:(apply UrlFacts.notin_b; reflexivity)
              ltac:(apply UrlFacts.notin_b; reflexivity))
    as (H & _).
  exact H.
Defined.

(** ** load_tool_from_url *)

Module NameFacts.
Import StripFacts UrlFacts.

Lemma split_app_sep_gen (sep : ascii) (a b : str) :
  split sep (a ++ sep :: b) = split sep a ++ split sep b.
Proof.
  induction a as [|c a IH]; simpl.
  - by destruct (ascii_dec sep sep).
  - destruct (ascii_dec c sep); [by rewrite IH|].
    rewrite IH. destruct (split sep a) eqn:E; [by apply split_not_nil in E|done].
Qed.

Lemma lstrip_char_other (c x : ascii) (s : str) :
  x ≠ c → lstrip_char c (x :: s) = x :: s.
Proof. intros H. simpl. by destruct (ascii_dec x c). Qed.

Lemma rstrip_char_snoc (c x : ascii) (s : str) :
  x ≠ c → rstrip_char c (s ++ [x]) = s ++ [x].
Proof.
  intros H. unfold rstrip_char. rewrite rev_app_distr.
  change (rev [x] ++ rev s) with (x :: rev s).
  rewrite lstrip_char_other by done.
  change (x :: rev s) with ([x] ++ rev s).
  by rewrite rev_app_distr, rev_involutive.
Qed.

Lemma notin_take (c : ascii) (n : nat) (s : str) : c ∉ s → c ∉ take n s.
Proof.
  intros H Hin. apply H. apply list_elem_of_In.
  apply list_elem_of_In in Hin. rewrite <- (take_drop n s).
  apply in_or_app. by left.
Qed.

Lemma notin_nth (c : ascii) (n : nat) (l : list str) :
  Forall (λ p, c ∉ p) l → c ∉ nth n l [].
Proof.
  intros H. revert n. induction H as [|x l Hx H IH]; intros [|n]; simpl; try done.
  - apply not_elem_of_nil.
  - apply not_elem_of_nil.
Qed.

Lemma tool_name_no_slash (url : str) : slash ∉ tool_name_of_url url.
Proof.
  unfold tool_name_of_url.
  pose proof (split_parts slash (rstrip_char slash url)) as Hp.
  destruct (_ && _).
  - apply notin_take. destruct (last _) as [f|] eqn:E; simpl.
    + apply last_elem_of in E. rewrite Forall_forall in Hp. by apply Hp.
    + apply not_elem_of_nil.
  - destruct (_ <? _); [by apply notin_nth|].
    apply notin_b. reflexivity.
Qed.

End NameFacts.

Module NameFacts2.
Import StripFacts UrlFacts NameFacts TextFacts.

Lemma last_snoc2 {A} (l : list A) (x y : A) : last (l ++ [x; y]) = Some y.
Proof. change [x; y] with ([x] ++ [y]). by rewrite app_assoc, last_snoc. Qed.

Lemma nth_snoc2 (l : list str) (x y : str) :
  nth (length (l ++ [x; y]) - 2) (l ++ [x; y]) [] = x.
Proof.
  rewrite length_app. simpl length.
  replace (length l + 2 - 2) with (length l + 0) by lia.
  by rewrite app_nth2_plus.
Qed.

Lemma endswith_app (p a : str) : endswith p (a ++ p) = true.
Proof.
  unfold endswith. rewrite rev_app_distr. apply startswith_prefix.
  by apply prefix_app_r.
Qed.

(** The name taken from an address that ends in [/dir/main.py]. *)
Lemma name_of_main (x dir : str) :
  slash ∉ dir →
  tool_name_of_url (x ++ [slash] ++ dir ++ lit "/main.py") = dir.
Proof.
  intros Hd. unfold tool_name_of_url. cbv zeta.
  replace (x ++ [slash] ++ dir ++ lit "/main.py")
    with ((x ++ [slash] ++ dir ++ lit "/main.p") ++ ["y"%char])
    by (by rewrite <- !app_assoc).
  rewrite rstrip_char_snoc by done.
  replace ((x ++ [slash] ++ dir ++ lit "/main.p") ++ ["y"%char])
    with (x ++ slash :: (dir ++ slash :: lit "main.py"))
    by (by rewrite <- !app_assoc).
  rewrite split_app_sep_gen, split_app_sep by done.
  change (split slash (lit "main.py")) with [lit "main.py"].
  rewrite last_snoc2. cbn [default].
  change (endswith (lit ".py") (lit "main.py")
          && negb (startswith (lit "main.py") (lit "main.py")
                   || startswith (lit "index.py") (lit "main.py")
                   || startswith (lit "__init__.py") (lit "main.py")))
    with false. cbv iota.
  rewrite nth_snoc2.
  rewrite length_app. simpl length.
  by destruct (1 <? _) eqn:E; [|apply Nat.ltb_ge in E; lia].
Qed.

(** The name taken from an address that ends in [/name.py]. *)
Lemma name_of_file (x name : str) :
  slash ∉ name →
  startswith (lit "main.py") (name ++ lit ".py") = false →
  startswith (lit "index.py") (name ++ lit ".py") = false →
  startswith (lit "__init__.py") (name ++ lit ".py") = false →
  tool_name_of_url (x ++ [slash] ++ name ++ lit ".py") = name.
Proof.
  intros Hn H1 H2 H3. unfold tool_name_of_url. cbv zeta.
  replace (x ++ [slash] ++ name ++ lit ".py")
    with ((x ++ [slash] ++ name ++ lit ".p") ++ ["y"%char])
    by (by rewrite <- !app_assoc).
  rewrite rstrip_char_snoc by done.
  replace ((x ++ [slash] ++ name ++ lit ".p") ++ ["y"%char])
    with (x ++ slash :: (name ++ lit ".py"))
    by (by rewrite <- !app_assoc).
  rewrite split_app_sep_gen.
  assert (slash ∉ name ++ lit ".py") as Hs.
  { intros [H|H]%elem_of_app; [done|]. revert H. by apply notin_b. }
  rewrite (split_none _ _ Hs).
  replace (last (split slash x ++ [name ++ lit ".py"])) with (Some (name ++ lit ".py"))
    by (by rewrite last_snoc).
  cbn [default from_option id]. unfold id. rewrite endswith_app, H1, H2, H3. cbn [orb negb andb].
  rewrite length_app. simpl length.
  replace (length name + 3 - 3) with (length name) by lia.
  by rewrite take_app_length.
Qed.

End NameFacts2.

(** X6.  Loading a tool from a link answers with a name and a source only
    when the request to the raw address brought a non-empty text, which is
    then the source; the name is a single path segment (it holds no slash).
    An empty link is refused with status 400; a failed request and an empty
    answer both end in status 500. *)
Theorem X6_load_tool_from_url (fetch : str → option str) (url : str) :
  match load_tool_from_url fetch url with
  | Ok (name, data) =>
      url ≠ [] ∧ fetch (github_url_to_raw_url url) = Some data ∧ data ≠ []
      ∧ name = tool_name_of_url (github_url_to_raw_url url) ∧ (slash ∉ name)
  | Raise e =>
      (url = [] ∧ e = HTTPException 400 (Detail (lit "Please enter a valid URL")))
      ∨ (url ≠ []
         ∧ e = HTTPException 500 (Detail (lit "Error importing tool"))
         ∧ (fetch (github_url_to_raw_url url) = None
            ∨ fetch (github_url_to_raw_url url) = Some []))
  end.
Proof.
  unfold load_tool_from_url. destruct url as [|c url]; [by left|].
  cbn [nonempty]. cbv zeta.
  destruct (fetch (github_url_to_raw_url (c :: url))) as [[|d data]|] eqn:E.
  - right. split_and!; [done|done|by right].
  - split_and!; try done. apply NameFacts.tool_name_no_slash.
  - right. split_and!; [done|done|by left].
Qed.

(** X7.  A link to a directory of a repository names the tool after that
    directory (the file fetched is its [main.py]), and a link to a file
    [name.py] names it [name], unless the file name starts with [main.py],
    [index.py] or [__init__.py]. *)
Theorem X7_tool_name_of_link (org repo branch parents last_part : str) :
  org ≠ [] → repo ≠ [] → branch ≠ [] →
  slash ∉ org → slash ∉ repo → slash ∉ branch →
  (parents = [] ∨ ∃ q, parents = q ++ [slash]) → newline ∉ parents →
  last_part ≠ [] → slash ∉ last_part → newline ∉ last_part →
  tool_name_of_url
    (github_url_to_raw_url
       (lit "https://github.com/" ++ org ++ [slash] ++ repo ++ lit "/tree/"
        ++ branch ++ [slash] ++ parents ++ last_part))
  = last_part
  ∧ (startswith (lit "main.py") (last_part ++ lit ".py") = false →
     startswith (lit "index.py") (last_part ++ lit ".py") = false →
     startswith (lit "__init__.py") (last_part ++ lit ".py") = false →
     tool_name_of_url
       (github_url_to_raw_url
          (lit "https://github.com/" ++ org ++ [slash] ++ repo ++ lit "/blob/"
           ++ branch ++ [slash] ++ parents ++ last_part ++ lit ".py"))
     = last_part).
Proof.
  intros Ho Hr Hb Hso Hsr Hsb Hp Hnp Hl Hsl Hnl.
  assert (∀ t, newline ∉ t → newline ∉ parents ++ last_part ++ t) as Hn.
  { intros t Ht [H|[H|H]%elem_of_app]%elem_of_app; done. }
  split.
  - rewrite (UrlFacts.raw_of_tree org repo branch (parents ++ last_part)
               Ho Hr Hb Hso Hsr Hsb).
    2:{ specialize (Hn [] (not_elem_of_nil _)). by rewrite app_nil_r in Hn. }
    assert (rstrip_char slash (parents ++ last_part) = parents ++ last_part) as ->.
    { destruct last_part as [|x l _] using rev_ind; [done|].
      rewrite app_assoc. apply NameFacts.rstrip_char_snoc.
      intros ->. apply Hsl, elem_of_app. right. left. }
    destruct Hp as [->|[q ->]].
    + rewrite app_nil_l.
      rewrite !(app_assoc _ _ ([slash] ++ last_part ++ _)).
      rewrite <- !app_assoc.
      repeat rewrite (app_assoc _ _ ([slash] ++ last_part ++ lit "/main.py")).
      by apply NameFacts2.name_of_main.
    + rewrite <- !app_assoc.
      repeat rewrite (app_assoc _ _ ([slash] ++ last_part ++ lit "/main.py")).
      by apply NameFacts2.name_of_main.
  - intros H1 H2 H3.
    rewrite (UrlFacts.raw_of_blob org repo branch
               (parents ++ last_part ++ lit ".py") Ho Hr Hb Hso Hsr Hsb).
    2:{ apply Hn. by apply UrlFacts.notin_b. }
    destruct Hp as [->|[q ->]].
    + rewrite app_nil_l.
      repeat rewrite (app_assoc _ _ ([slash] ++ last_part ++ lit ".py")).
      by apply NameFacts2.name_of_file.
    + rewrite <- !app_assoc.
      repeat rewrite (app_assoc _ _ ([slash] ++ last_part ++ lit ".py")).
      by apply NameFacts2.name_of_file.
Qed.

Lemma X7_tool_name_of_link_witness :
  tool_name_of_url
    (github_url_to_raw_url (lit "https://github.com/o/r/tree/main/tools/x"))
  = lit "x".
Proof.
  destruct (X7_tool_name_of_link (lit "o") (lit "r") (lit "main") (lit "tools/")
              (lit "x")
              ltac:(discriminate) ltac:(discriminate) ltac:(discriminate)
              ltac:(apply UrlFacts.notin_b; reflexivity)
              ltac:(apply UrlFacts.notin_b; reflexivity)
              ltac:(apply UrlFacts.notin_b; reflexivity)
              ltac:(right; by exists (lit "tools"))
              ltac:(apply UrlFacts.notin_b; reflexivity)
              ltac:(discriminate)
              ltac:(apply UrlFacts.notin_b; reflexivity)
              ltac:(apply UrlFacts.notin_b; reflexivity))
    as [H _].
  exact H.
Defined.

(** ** The tool table: insert, update, delete *)

Module TableFacts.
Import StoreFacts.

Lemma validate_dump_meta (m : ToolMeta) : validate_meta (dump_meta m) = Some m.
Proof. by destruct m as [[d|] [mf|]]. Qed.

Lemma has_id_neq (i j : str) (t : Tool.row) :
  i ≠ j → has_id i t = true → has_id j t = false.
Proof.
  unfold has_id. intros Hij H. apply bool_decide_eq_true in H.
  apply bool_decide_eq_false. congruence.
Qed.

Lemma find_snoc_other (j : str) (l : list Tool.row) (t : Tool.row) :
  has_id j t = false → find (has_id j) (l ++ [t]) = find (has_id j) l.
Proof.
  intros H. induction l as [|x l IH]; simpl; [by rewrite H|].
  by destruct (has_id j x).
Qed.

Lemma find_filter_keep {A} (P Q : A → bool) (l : list A) :
  (∀ x, P x = true → Q x = true) → find P (List.filter Q l) = find P l.
Proof.
  intros H. induction l as [|x l IH]; simpl; [done|].
  destruct (Q x) eqn:Eq; simpl.
  - by destruct (P x).
  - destruct (P x) eqn:Ep; [|done]. apply H in Ep. congruence.
Qed.

Lemma find_filter_drop {A} (P : A → bool) (l : list A) :
  find P (List.filter (λ x, negb (P x)) l) = None.
Proof.
  induction l as [|x l IH]; simpl; [done|].
  destruct (P x) eqn:Ep; simpl; [done|]. by rewrite Ep.
Qed.

Lemma filter_all {A} (Q : A → bool) (l : list A) :
  Forall (λ x, Q x = true) l → List.filter Q l = l.
Proof. induction 1 as [|x l Hx _ IH]; simpl; [done|]. by rewrite Hx, IH. Qed.

Lemma find_update (j i : str) (upd : ToolUpdate) (now : Z) (l : list Tool.row) :
  find (has_id j) (map (λ t, if has_id i t then apply_update upd now t else t) l)
  = (λ t, if has_id i t then apply_update upd now t else t) <$> find (has_id j) l.
Proof. apply find_map. intros x. by destruct (has_id i x). Qed.

Lemma map_id_update (i : str) (upd : ToolUpdate) (now : Z) (l : list Tool.row) :
  map Tool.id (map (λ t, if has_id i t then apply_update upd now t else t) l)
  = map Tool.id l.
Proof.
  rewrite map_map. apply map_ext. intros x. by destruct (has_id i x).
Qed.

Lemma map_absent (i : str) (g : Tool.row → Tool.row) (l : list Tool.row) :
  find (has_id i) l = None → map (λ t, if has_id i t then g t else t) l = l.
Proof.
  intros H. apply find_None_all in H.
  induction H as [|x l Hx _ IH]; simpl; [done|]. by rewrite Hx, IH.
Qed.

Lemma find_has_id (i : str) (l : list Tool.row) (t : Tool.row) :
  find (has_id i) l = Some t → Tool.id t = i.
Proof.
  intros H. apply find_Some_true in H as [H _].
  by apply bool_decide_eq_true in H.
Qed.

End TableFacts.

(** X8.  Inserting a tool under a free id and reading it back by that id
    gives the tool that was inserted, with both time stamps set to the time
    of the insert; under an id that is taken nothing is stored and the answer
    is [None].  When some element of [specs] is no dictionary the answer is
    [None] although the row has been stored.  Reading any other id is not
    affected. *)
Theorem X8_insert_then_get (st : Store) (user_id : option str)
    (form_data : ValidToolForm) (specs : list json) (now : Z) :
  let st' := fst (insert_new_tool st user_id form_data specs now) in
  let r := snd (insert_new_tool st user_id form_data specs now) in
  match find (has_id (vf_id form_data)) (tools st) with
  | Some _ => st' = st ∧ r = None
  | None =>
      get_tool_by_id st' (vf_id form_data) = r
      ∧ r = (if forallb is_dict specs
             then Some (mkToolModel (vf_id form_data) user_id (vf_name form_data)
                          (vf_content form_data) specs (vf_meta form_data)
                          (vf_access_control form_data) now now)
             else None)
      ∧ is_Some (find (has_id (vf_id form_data)) (tools st'))
      ∧ length (tools st') = S (length (tools st))
  end
  ∧ ∀ i, i ≠ vf_id form_data → get_tool_by_id st' i = get_tool_by_id st i.
Proof.
  unfold insert_new_tool.
  destruct (find (has_id (vf_id form_data)) (tools st)) as [t|] eqn:E;
    cbn [fst snd]; [done|].
  set (row := Tool.mk _ _ _ _ _ _ _ _ _ _).
  assert (has_id (vf_id form_data) row = true) as Hrow
    by (by apply bool_decide_eq_true).
  assert (find (has_id (vf_id form_data)) (tools st ++ [row]) = Some row) as Hf.
  { rewrite StoreFacts.find_app_None by done. simpl. by rewrite Hrow. }
  split; [split_and!|].
  - unfold get_tool_by_id. cbn [tools]. by rewrite Hf.
  - unfold model_validate. destruct (forallb is_dict specs); [|done].
    subst row. cbn [Tool.meta].
    by rewrite TableFacts.validate_dump_meta.
  - cbn [tools]. by rewrite Hf.
  - cbn [tools]. rewrite length_app. simpl. lia.
  - intros i Hi. unfold get_tool_by_id. cbn [tools].
    rewrite TableFacts.find_snoc_other; [done|].
    by apply (TableFacts.has_id_neq (vf_id form_data)).
Qed.

(** X9.  For an update of the columns the callers in this repository pass
    (name, content, specs, meta, access_control): an id that is not in the
    table changes no row and answers [None]; otherwise the row with the id
    holds, of these columns, the given ones as given and the others as
    before, with the time of the update, and an answer shows them.  Rows
    with another id are left as they are, and reading any other id gives
    what it gave before. *)
Theorem X9_update_tool_by_id (st : Store) (i : str) (upd : ToolUpdate) (now : Z) :
  let st' := fst (update_tool_by_id st i upd now) in
  let r := snd (update_tool_by_id st i upd now) in
  match find (has_id i) (tools st) with
  | None => tools st' = tools st ∧ r = None
  | Some t =>
      (∃ t', find (has_id i) (tools st') = Some t'
             ∧ Tool.name t' = default (Tool.name t) (up_name upd)
             ∧ Tool.content t' = default (Tool.content t) (up_content upd)
             ∧ Tool.specs t' = default (Tool.specs t) (up_specs upd)
             ∧ Tool.meta t' = default (Tool.meta t) (up_meta upd)
             ∧ Tool.access_control t'
               = default (Tool.access_control t) (up_access_control upd)
             ∧ Tool.updated_at t' = now)
      ∧ ∀ tm, r = Some tm →
          tm_name tm = default (Tool.name t) (up_name upd)
          ∧ tm_content tm = default (Tool.content t) (up_content upd)
          ∧ tm_specs tm = wrap_specs (default (Tool.specs t) (up_specs upd))
          ∧ tm_access_control tm
            = default (Tool.access_control t) (up_access_control upd)
          ∧ tm_updated_at tm = now
  end
  ∧ Forall2 (λ t t', Tool.id t ≠ i → t' = t) (tools st) (tools st')
  ∧ (∀ j, j ≠ i → get_tool_by_id st' j = get_tool_by_id st j).
Proof.
  unfold update_tool_by_id. cbn [fst snd tools users].
  split_and!.
  - destruct (find (has_id i) (tools st)) as [t|] eqn:E.
    + assert (find (has_id i)
                (map (λ t, if has_id i t then apply_update upd now t else t)
                   (tools st)) = Some (apply_update upd now t)) as Hf.
      { rewrite TableFacts.find_update, E. simpl.
        by rewrite (proj1 (StoreFacts.find_Some_true _ _ _ E)). }
      split; [by eexists|]. intros tm. unfold get_tool_by_id. cbn [tools].
      rewrite Hf. cbn [mbind option_bind]. intros Htm.
      apply StoreFacts.model_validate_fields in Htm
        as (_ & _ & H3 & H4 & H5 & H6 & H7 & _).
      cbn [apply_update Tool.name Tool.content Tool.specs
             Tool.access_control Tool.updated_at] in *.
      done.
    + rewrite TableFacts.map_absent by done. split; [done|].
      unfold get_tool_by_id. cbn [tools].
      by rewrite E.
  - apply StoreFacts.Forall2_map_r. apply Forall_Forall2_diag, Forall_forall.
    intros x _. destruct (has_id i x) eqn:Ei; [|done].
    intros Hx. apply bool_decide_eq_true in Ei. done.
  - intros j Hj. unfold get_tool_by_id. cbn [tools].
    rewrite TableFacts.find_update.
    destruct (find (has_id j) (tools st)) as [x|] eqn:E; [|done]. simpl.
    apply TableFacts.find_has_id in E.
    assert (has_id i x = false) as -> by (apply bool_decide_eq_false; congruence).
    done.
Qed.

(** X10.  Deleting by id removes every row with that id and no other: the
    id can no longer be read, reading any other id gives what it gave
    before, and the answer is [True] whether or not a row was there.
    Deleting twice is deleting once. *)
Theorem X10_delete_tool_by_id (st : Store) (i : str) :
  let st' := fst (delete_tool_by_id st i) in
  snd (delete_tool_by_id st i) = true
  ∧ get_tool_by_id st' i = None
  ∧ (∀ j, j ≠ i → get_tool_by_id st' j = get_tool_by_id st j)
  ∧ (∀ t, t ∈ tools st' ↔ t ∈ tools st ∧ Tool.id t ≠ i)
  ∧ (find (has_id i) (tools st) = None → tools st' = tools st)
  ∧ fst (delete_tool_by_id st' i) = st'.
Proof.
  unfold delete_tool_by_id. cbn [fst snd tools users update_calls].
  split_and!.
  - done.
  - unfold get_tool_by_id. cbn [tools].
    by rewrite (TableFacts.find_filter_drop (has_id i)).
  - intros j Hj. unfold get_tool_by_id. cbn [tools].
    rewrite TableFacts.find_filter_keep; [done|].
    intros x Hx. apply negb_true_iff. by apply (TableFacts.has_id_neq j).
  - intros t. rewrite !list_elem_of_In, filter_In, negb_true_iff.
    unfold has_id. by rewrite bool_decide_eq_false.
  - intros H. apply TableFacts.filter_all. apply StoreFacts.find_None_all in H.
    eapply Forall_impl; [done|]. intros x Hx. simpl in Hx. by rewrite Hx.
  - f_equal. apply TableFacts.filter_all. apply Forall_forall.
    intros x Hx. apply list_elem_of_In, filter_In in Hx. tauto.
Qed.

(** ** Ids stay unique *)

Module IdFacts.
Import StoreFacts LoaderStore ValvesFacts.

Lemma touches_only_ids (i : str) (l l' : list Tool.row) :
  touches_only i l l' → map Tool.id l' = map Tool.id l.
Proof.
  induction 1 as [|x y l l' [(H & _) _] _ IH]; simpl; [done|]. by rewrite H, IH.
Qed.

Lemma find_None_notin (i : str) (l : list Tool.row) :
  find (has_id i) l = None → i ∉ map Tool.id l.
Proof.
  intros H. apply find_None_all in H. induction H as [|x l Hx _ IH]; simpl.
  - apply not_elem_of_nil.
  - apply not_elem_of_cons. split; [|done].
    apply bool_decide_eq_false in Hx. congruence.
Qed.

Lemma map_id_set_valves (i : str) (v : dict) (now : Z) (l : list Tool.row) :
  map Tool.id (map (λ t, if has_id i t then set_valves v now t else t) l)
  = map Tool.id l.
Proof.
  rewrite map_map. apply map_ext. intros x. by destruct (has_id i x).
Qed.

Lemma NoDup_snoc (l : list str) (x : str) : NoDup l → x ∉ l → NoDup (l ++ [x]).
Proof.
  intros Hl Hx. apply NoDup_app. split_and!; [done| |apply NoDup_singleton].
  intros y Hy ->%list_elem_of_singleton. done.
Qed.

Lemma NoDup_filter_ids (Q : Tool.row → bool) (l : list Tool.row) :
  NoDup (map Tool.id l) → NoDup (map Tool.id (List.filter Q l)).
Proof.
  induction l as [|x l IH]; simpl; [done|].
  intros [Hx Hl]%NoDup_cons. destruct (Q x); simpl; [|by apply IH].
  apply NoDup_cons. split; [|by apply IH].
  intros Hin. apply Hx. apply list_elem_of_In, in_map_iff in Hin as (y & Hy & Hin).
  apply filter_In in Hin as [Hin _].
  apply list_elem_of_In, in_map_iff. by exists y.
Qed.

Lemma valves_finish_ids {Mod} (env : Env Mod) (form_data : dict)
    (target : valves_target) (load_id : str) (w : World Mod) :
  NoDup (map Tool.id (tools (store w))) →
  (∀ pc, target = NewCopy pc → Tool.id pc ∉ map Tool.id (tools (store w))) →
  NoDup (map Tool.id (tools (store (snd (valves_finish env form_data target
                                           load_id w))))).
Proof.
  intros Hnd Hnew.
  destruct (valves_finish env form_data target load_id w) as [[v|e] w'] eqn:E;
    cbn [snd].
  - apply valves_finish_Ok in E as (m & w1 & Hm & _ & _ & ->).
    pose proof (tools_module_of_frame env load_id w) as (Ht & _). cbv zeta in Ht.
    rewrite Hm in Ht. cbn [snd] in Ht. apply touches_only_ids in Ht.
    unfold set_store, commit_valves. cbn [store tools].
    destruct target as [pc|i].
    + rewrite map_app. cbn [map set_valves Tool.id]. apply NoDup_snoc.
      * by rewrite Ht.
      * rewrite Ht. by apply Hnew.
    + by rewrite map_id_set_valves, Ht.
  - apply valves_finish_Raise in E. apply touches_only_ids in E. by rewrite E.
Qed.

End IdFacts.

(** X11.  When no two rows of the table share an id, this is still so after
    an insert, an update or a delete on the table, after a load of a tool's
    module and after a write of a configuration (which may add a personal
    copy). *)
Theorem X11_ids_stay_unique {Mod} (env : Env Mod) (w : World Mod) :
  NoDup (map Tool.id (tools (store w))) →
  (∀ user_id form_data specs now,
     NoDup (map Tool.id (tools (fst (insert_new_tool (store w) user_id form_data
                                       specs now)))))
  ∧ (∀ i upd now,
       NoDup (map Tool.id (tools (fst (update_tool_by_id (store w) i upd now)))))
  ∧ (∀ i, NoDup (map Tool.id (tools (fst (delete_tool_by_id (store w) i)))))
  ∧ (∀ i content,
       NoDup (map Tool.id (tools (store (snd (load_tool_module_by_id env i content
                                                w))))))
  ∧ (∀ id form_data user,
       NoDup (map Tool.id (tools (store (snd (update_tools_valves_by_id env id
                                                form_data user w)))))).
Proof.
  intros Hnd. split_and!.
  - intros user_id form_data specs now. unfold insert_new_tool.
    destruct (find _ _) eqn:E; cbn [fst tools]; [done|].
    rewrite map_app. apply IdFacts.NoDup_snoc; [done|].
    by apply IdFacts.find_None_notin.
  - intros i upd now. unfold update_tool_by_id. cbn [fst tools].
    by rewrite TableFacts.map_id_update.
  - intros i. unfold delete_tool_by_id. cbn [fst tools].
    by apply IdFacts.NoDup_filter_ids.
  - intros i content.
    pose proof (LoaderStore.load_tool_frame env i content w) as (Ht & _).
    cbv zeta in Ht. apply IdFacts.touches_only_ids in Ht. by rewrite Ht.
  - intros id form_data user. rewrite ValvesFacts.valves_update_run.
    destruct (find (λ t, has_id id t && owned_by None t) (tools (store w)))
      as [B|].
    + destruct (find (has_id (personal_copy_id id (user_ident user)))
                  (tools (store w))) as [pc|] eqn:Epc.
      * by apply IdFacts.valves_finish_ids.
      * apply IdFacts.valves_finish_ids; [done|]. intros pc [= <-].
        by apply IdFacts.find_None_notin.
    + destruct (find (λ t, has_id id t && owned_by (Some (user_ident user)) t)
                  (tools (store w))) as [T|]; [|done].
      by apply IdFacts.valves_finish_ids.
Qed.

Lemma X11_ids_stay_unique_witness :
  NoDup (map Tool.id (tools (store (snd (update_tools_valves_by_id demo_env
                                           (lit "weather") celsius alice
                                           weather_world))))).
Proof.
  apply (X11_ids_stay_unique demo_env weather_world).
  vm_compute. apply NoDup_singleton.
Defined.

(** ** The module loaders *)

Module LoaderMore.
Import TextFacts StoreFacts LoaderFacts LoaderStore.

Lemma cut_prefix (p b : str) : cut p (p ++ b) = Some ([], b).
Proof.
  assert (startswith p (p ++ b) = true) as H
    by (apply startswith_prefix; by apply prefix_app_r).
  destruct p as [|a p]; simpl in *.
  - by destruct b.
  - rewrite H. by rewrite drop_app_length.
Qed.

Lemma tool_file_path_custom {Mod} (env : Env Mod) (name : str) :
  tool_file_path env (lit "custom_" ++ name)
  = path_join (default (lit "/app/weidsyntara/tools") (TOOLS_DIR env))
      (name ++ lit ".py").
Proof. unfold tool_file_path, replace_first. by rewrite cut_prefix. Qed.

Lemma startswith_app (p b : str) : startswith p (p ++ b) = true.
Proof. apply startswith_prefix. by apply prefix_app_r. Qed.

Lemma load_function_stored {Mod} (env : Env Mod) (i : str) (w : World Mod) :
  load_function_module_by_id env i None w =
  match get_function_by_id (functions w) i with
  | None => (Raise (Exception (lit "Function not found")), w)
  | Some f =>
      let c := replace_imports (fn_content f) in
      let w1 := log_exec c (set_functions (update_function_content i c) w) in
      match exec_function env c with
      | Some (m, kind) => (Ok (m, kind, extract_frontmatter c), w1)
      | None =>
          (Raise (Exception (lit "error loading the module")),
           set_functions (update_function_active i false) w1)
      end
  end.
Proof.
  unfold load_function_module_by_id.
  unfold mbind, prog_bind, of_option, set_world, mret, prog_ret, world, raise.
  destruct (get_function_by_id (functions w) i) as [f|]; [|done]. cbv zeta.
  by destruct (exec_function env _) as [[m kind]|].
Qed.

Lemma find_fn_map (j : str) (g : Function → Function) (fs : list Function) :
  (∀ f, fn_id (g f) = fn_id f) →
  get_function_by_id (map g fs) j = g <$> get_function_by_id fs j.
Proof.
  intros H. unfold get_function_by_id. apply find_map. intros x. by rewrite H.
Qed.

Lemma cache_without_table_run {Mod} (env : Env Mod) (i : str) (w : World Mod) :
  get_function_module_from_cache env i false w =
  match cached_function (app w) i with
  | Some m => (Ok (m, None, None), w)
  | None =>
      match load_function_module_by_id env i None w with
      | (Ok (m, _, _), w1) =>
          (Raise (Exception (lit "UnboundLocalError")),
           set_app (store_function i m) w1)
      | (Raise e, w1) => (Raise e, w1)
      end
  end.
Proof.
  unfold get_function_module_from_cache.
  unfold mbind at 1. unfold prog_bind at 1. unfold world at 1.
  destruct (cached_function (app w) i) as [m|]; [done|].
  unfold mbind, prog_bind, set_world, raise.
  by destruct (load_function_module_by_id env i None w)
    as [[[[m kind] fm]|e] w1].
Qed.

End LoaderMore.

(** X12.  A tool whose id starts with [custom_] is loaded from the file
    [<name>.py] of the tools directory, [<name>] being the id without that
    prefix.  A source handed to the loader is ignored, the requirements the
    file declares are not installed, and the table is neither read nor
    written.  A file that cannot be read is a [FileNotFoundError] that
    leaves everything as it was. *)
Theorem X12_load_file_tool {Mod} (env : Env Mod) (name : str)
    (content : option str) (w : World Mod) :
  let tool_id := lit "custom_" ++ name in
  let run := load_tool_module_by_id env tool_id content w in
  let file_path :=
    path_join (default (lit "/app/weidsyntara/tools") (TOOLS_DIR env))
      (name ++ lit ".py") in
  tool_file_path env tool_id = file_path
  ∧ run = load_tool_module_by_id env tool_id None w
  ∧ store (snd run) = store w ∧ app (snd run) = app w
  ∧ pip_calls (snd run) = pip_calls w
  ∧ match read_file env file_path with
    | None => run = (Raise (Exception (lit "FileNotFoundError")), w)
    | Some file_content =>
        executed (snd run) = executed w ++ [file_content]
        ∧ fst run = match exec_tool env file_content with
                    | Some m => Ok (m, extract_frontmatter file_content)
                    | None => Raise (Exception (lit "error loading the module"))
                    end
    end.
Proof.
  cbv zeta.
  assert (startswith (lit "custom_") (lit "custom_" ++ name) = true) as Hc
    by apply LoaderMore.startswith_app.
  rewrite !(LoaderStore.load_tool_file env _ _ w Hc).
  rewrite LoaderMore.tool_file_path_custom.
  split; [done|]. split; [done|].
  by destruct (read_file env _) as [fc|].
Qed.

(** X13.  A source handed to the loader for a tool that is not file-based
    is executed as it is, after the requirements it declares have been
    installed; when the installer fails nothing is executed.  The table and
    the caches are not touched. *)
Theorem X13_load_given_source {Mod} (env : Env Mod) (i c : str) (w : World Mod) :
  startswith (lit "custom_") i = false →
  let run := load_tool_module_by_id env i (Some c) w in
  let reqs := req_list_of (requirements_of (extract_frontmatter c)) in
  store (snd run) = store w ∧ app (snd run) = app w
  ∧ pip_calls (snd run)
    = pip_calls w ++ match reqs with [] => [] | _ :: _ => [pip_argv env reqs] end
  ∧ if bool_decide (reqs = []) || pip_succeeds env (pip_argv env reqs)
    then executed (snd run) = executed w ++ [c]
         ∧ fst run = match exec_tool env c with
                     | Some m => Ok (m, extract_frontmatter c)
                     | None => Raise (Exception (lit "error loading the module"))
                     end
    else executed (snd run) = executed w
         ∧ fst run = Raise (Exception (lit "CalledProcessError")).
Proof.
  intros Hc. cbv zeta. rewrite (LoaderStore.load_tool_given env i c w Hc).
  rewrite LoaderFacts.install_run.
  destruct (req_list_of _) as [|r reqs] eqn:E.
  - cbn [bool_decide orb snd fst log_exec store app pip_calls executed].
    rewrite app_nil_r. rewrite bool_decide_eq_true_2 by done. done.
  - rewrite bool_decide_eq_false_2 by done. cbn [orb].
    by destruct (pip_succeeds env _).
Qed.

Lemma X13_load_given_source_witness :
  let run := load_tool_module_by_id demo_env (lit "t") (Some demo_source)
               canonical_world in
  executed (snd run) = [demo_source]
  ∧ pip_calls (snd run) = [[lit "python"; lit "-m"; lit "pip"; lit "install";
                            lit "foo"; lit "bar"]].
Proof.
  pose proof (X13_load_given_source demo_env (lit "t") demo_source canonical_world
                eq_refl) as (_ & _ & Hp & He).
  split.
  - exact (proj1 He).
  - exact Hp.
Defined.

(** X14.  Loading a function from the table never calls the installer.  An
    id that is not in the table is an error that changes nothing; otherwise
    the stored source is replaced by its rewritten form, that form is
    executed, and a load that fails switches the function off. *)
Theorem X14_load_function_stored {Mod} (env : Env Mod) (i : str) (w : World Mod) :
  let run := load_function_module_by_id env i None w in
  pip_calls (snd run) = pip_calls w ∧ store (snd run) = store w
  ∧ app (snd run) = app w
  ∧ (∀ j, j ≠ i → get_function_by_id (functions (snd run)) j
                  = get_function_by_id (functions w) j)
  ∧ match get_function_by_id (functions w) i with
    | None => run = (Raise (Exception (lit "Function not found")), w)
    | Some f =>
        let c := replace_imports (fn_content f) in
        executed (snd run) = executed w ++ [c]
        ∧ match exec_function env c with
          | Some (m, kind) =>
              fst run = Ok (m, kind, extract_frontmatter c)
              ∧ get_function_by_id (functions (snd run)) i
                = Some (mkFunction (fn_id f) c (fn_is_active f))
          | None =>
              fst run = Raise (Exception (lit "error loading the module"))
              ∧ get_function_by_id (functions (snd run)) i
                = Some (mkFunction (fn_id f) c false)
          end
    end.
Proof.
  cbv zeta. rewrite LoaderMore.load_function_stored.
  destruct (get_function_by_id (functions w) i) as [f|] eqn:E; [|done].
  cbv zeta.
  assert (fn_id f = i) as Hf.
  { apply StoreFacts.find_Some_true in E as [E _].
    by apply bool_decide_eq_true in E. }
  assert (∀ b, get_function_by_id
                 (update_function_content i (replace_imports (fn_content f))
                    (functions w)) i
               = Some (mkFunction (fn_id f) (replace_imports (fn_content f))
                         (fn_is_active f))
             ∧ get_function_by_id
                 (update_function_active i b
                    (update_function_content i (replace_imports (fn_content f))
                       (functions w))) i
               = Some (mkFunction (fn_id f) (replace_imports (fn_content f)) b))
    as Hi.
  { intros b. unfold update_function_active, update_function_content.
    rewrite !LoaderMore.find_fn_map, E
      by (intros x; by destruct (bool_decide (fn_id x = i))).
    cbn [fmap option_fmap option_map fn_id].
    repeat (rewrite bool_decide_eq_true_2 by done; cbn [fn_id fn_content fn_is_active]).
    done. }
  assert (∀ j b, j ≠ i →
             get_function_by_id
               (update_function_content i (replace_imports (fn_content f))
                  (functions w)) j = get_function_by_id (functions w) j
             ∧ get_function_by_id
                 (update_function_active i b
                    (update_function_content i (replace_imports (fn_content f))
                       (functions w))) j = get_function_by_id (functions w) j)
    as Hj.
  { intros j b Hji. unfold update_function_active, update_function_content.
    rewrite !LoaderMore.find_fn_map
      by (intros x; by destruct (bool_decide (fn_id x = i))).
    destruct (get_function_by_id (functions w) j) as [g|] eqn:Eg; [|done].
    assert (fn_id g = j) as Hg.
    { apply StoreFacts.find_Some_true in Eg as [Eg _].
      by apply bool_decide_eq_true in Eg. }
    cbn [fmap option_fmap option_map].
    repeat (rewrite bool_decide_eq_false_2 by congruence).
    done. }
  destruct (exec_function env _) as [[m kind]|];
    cbn [fst snd log_exec set_functions store app pip_calls executed functions].
  - split_and!; try done.
    + intros j Hji. by apply (Hj j true).
    + by apply (Hi true).
  - split_and!; try done.
    + intros j Hji. by apply (Hj j false).
    + by apply (Hi false).
Qed.

(** X15.  Asked not to look at the table, the function cache answers with
    the cached object and changes nothing.  On a miss it never returns an
    object: the load raises, or the object is put into the cache and the
    unbound [content] raises; after that, the same call returns the object
    from the cache. *)
Theorem X15_cache_without_table {Mod} (env : Env Mod) (i : str) (w : World Mod) :
  let run := get_function_module_from_cache env i false w in
  match cached_function (app w) i with
  | Some m => run = (Ok (m, None, None), w)
  | None =>
      (∀ r, fst run ≠ Ok r)
      ∧ match load_function_module_by_id env i None w with
        | (Ok (m, _, _), w1) =>
            fst run = Raise (Exception (lit "UnboundLocalError"))
            ∧ executed (snd run) = executed w1
            ∧ get_function_module_from_cache env i false (snd run)
              = (Ok (m, None, None), snd run)
        | (Raise e, w1) => run = (Raise e, w1)
        end
  end.
Proof.
  cbv zeta. rewrite LoaderMore.cache_without_table_run.
  destruct (cached_function (app w) i) as [m|] eqn:E; [done|].
  destruct (load_function_module_by_id env i None w) as [[[[m kind] fm]|e] w1].
  - cbn [fst snd]. split; [done|]. split; [done|]. split; [done|].
    rewrite LoaderMore.cache_without_table_run.
    unfold set_app, store_function, cached_function.
    cbn [app FUNCTIONS mbind option_bind].
    by rewrite lookup_insert_eq.
  - cbn [fst snd]. done.
Qed.

(** ** Listing all tools *)

Module ListAllFacts.
Import StoreFacts ListingFacts.

Lemma validate_all_Raise {A B} (f : A → option B) (l : list A) :
  (∃ x, x ∈ l ∧ f x = None) ↔
  validate_all f l = Raise (Exception (lit "ValidationError")).
Proof.
  induction l as [|x l IH]; simpl.
  - split; [|done]. intros (x & Hx & _). by apply elem_of_nil in Hx.
  - destruct (f x) as [y|] eqn:E.
    + destruct (validate_all f l) as [ys|e].
      * split; [|done]. intros (z & [->|Hz]%elem_of_cons & Hf); [congruence|].
        assert (∃ x, x ∈ l ∧ f x = None) as H by eauto.
        apply IH in H. done.
      * split.
        -- intros (z & [->|Hz]%elem_of_cons & Hf); [congruence|].
           apply IH. eauto.
        -- intros H. apply IH in H as (z & Hz & Hf). exists z. split; [|done].
           by right.
    + split; [done|]. intros _. exists x. split; [left|done].
Qed.

Lemma validate_all_cases {A B} (f : A → option B) (l : list A) :
  (∃ r, validate_all f l = Ok r)
  ∨ validate_all f l = Raise (Exception (lit "ValidationError")).
Proof.
  induction l as [|x l IH]; simpl; [left; eauto|].
  destruct (f x); [|by right].
  destruct IH as [[r ->]| ->]; [left; eauto|by right].
Qed.

Lemma listed_sorted (st : Store) (rows : list Tool.row) (ms : list ToolUserModel) :
  Forall2 (listed st) rows ms → StronglySorted desc rows →
  StronglySorted desc_model ms.
Proof.
  induction 1 as [|t m rows ms Htm H IH]; intros Hs; [constructor|].
  apply StronglySorted_inv in Hs as [Hs Hall]. constructor; [by apply IH|].
  clear IH Hs. induction H as [|t' m' rows ms Htm' H IH]; [constructor|].
  apply Forall_cons in Hall as [Ht Hall]. constructor; [|by apply IH].
  unfold desc_model, desc in *.
  destruct Htm as (_ & _ & _ & _ & _ & -> & _).
  by destruct Htm' as (_ & _ & _ & _ & _ & -> & _).
Qed.

Lemma get_tools_entry (st : Store) (t : Tool.row) (m : ToolUserModel) :
  (tool_model ← model_validate t (wrap_specs (Tool.specs t));
   Some (match tm_user_id tool_model with
         | None =>
             mkToolUserModel
               (mkToolModel (tm_id tool_model) None (tm_name tool_model)
                  (match tm_content tool_model with
                   | [] => lit "A WeidSyntara system tool."
                   | c => c
                   end)
                  (tm_specs tool_model) (tm_meta tool_model)
                  (tm_access_control tool_model)
                  (tm_updated_at tool_model) (tm_created_at tool_model))
               (Some system_user_placeholder)
         | Some _ => mkToolUserModel tool_model (joined_user st t)
         end)) = Some m →
  listed st t m.
Proof.
  destruct (model_validate t _) as [tm|] eqn:E; [|done].
  cbn [mbind option_bind]. intros [= <-].
  apply model_validate_fields in E as (H1 & H2 & H3 & H4 & H5 & H6 & H7 & H8).
  unfold listed. rewrite <- H2.
  destruct (tm_user_id tm) as [u|] eqn:Eu; cbn [tum_model tum_user
    tm_id tm_user_id tm_name tm_specs tm_access_control tm_updated_at
    tm_created_at tm_content].
  - by rewrite Eu.
  - rewrite H4. done.
Qed.

Lemma Forall2_is_Some {A B} (f : A → option B) (l : list A) (r : list B) :
  Forall2 (λ x y, f x = Some y) l r → Forall (λ x, is_Some (f x)) l.
Proof. induction 1; constructor; eauto. Qed.

Lemma listed_ids (st : Store) (rows : list Tool.row) (ms : list ToolUserModel) :
  Forall2 (listed st) rows ms →
  map (λ m, tm_id (tum_model m)) ms = map Tool.id rows.
Proof.
  induction 1 as [|t m rows ms (H & _) _ IH]; simpl; [done|]. by rewrite H, IH.
Qed.

Lemma listed_content (st : Store) (rows : list Tool.row) (ms : list ToolUserModel) :
  Forall2 (listed st) rows ms →
  Forall (λ m, tm_user_id (tum_model m) = None → tm_content (tum_model m) ≠ []) ms.
Proof.
  induction 1 as [|t m rows ms H _ IH]; constructor; [|done].
  destruct H as (_ & Hu & _ & _ & _ & _ & _ & H). intros Hn.
  rewrite Hn in Hu. rewrite <- Hu in H. destruct H as [_ ->].
  by destruct (Tool.content t).
Qed.

End ListAllFacts.

(** X16.  The list of all tools holds one entry for every row of the table,
    in the order of their last update, newest first; every entry shows its
    row, a system tool with the placeholder user and a source that is never
    empty.  The listing succeeds exactly when every row of the table can be
    validated; otherwise it raises. *)
Theorem X16_get_tools (st : Store) :
  (∀ l, get_tools st = Ok l →
     Forall2 (listed st) (order_by_updated_at_desc (tools st)) l
     ∧ StronglySorted desc_model l
     ∧ map (λ m, tm_id (tum_model m)) l ≡ₚ map Tool.id (tools st)
     ∧ Forall (λ m, tm_user_id (tum_model m) = None →
                    tm_content (tum_model m) ≠ []) l)
  ∧ ((∃ l, get_tools st = Ok l) ↔ Forall valid_row (tools st))
  ∧ (¬ Forall valid_row (tools st) →
     get_tools st = Raise (Exception (lit "ValidationError"))).
Proof.
  assert (∀ l, get_tools st = Ok l →
            Forall2 (listed st) (order_by_updated_at_desc (tools st)) l) as HL.
  { intros l Hl. unfold get_tools in Hl.
    apply ListingFacts.validate_all_Ok in Hl.
    eapply Forall2_impl; [exact Hl|]. intros t m. apply ListAllFacts.get_tools_entry. }
  assert ((∃ l, get_tools st = Ok l) ↔ Forall valid_row (tools st)) as HV.
  { unfold get_tools. split.
    - intros [l Hl]. apply ListingFacts.validate_all_Ok in Hl.
      rewrite <- (ListingFacts.order_by_perm (tools st)).
      apply ListAllFacts.Forall2_is_Some in Hl.
      eapply Forall_impl; [exact Hl|]. intros t [m Ht]. unfold valid_row.
      simpl in Ht. by destruct (model_validate t _).
    - intros Hall. apply ListingFacts.validate_all_total.
      rewrite (ListingFacts.order_by_perm (tools st)).
      eapply Forall_impl; [exact Hall|]. intros t [tm Ht]. simpl.
      rewrite Ht. cbn [mbind option_bind]. eauto. }
  split_and!.
  - intros l Hl. specialize (HL l Hl). split_and!.
    + done.
    + eapply ListAllFacts.listed_sorted; [done|]. apply ListingFacts.order_by_sorted.
    + rewrite <- (ListingFacts.order_by_perm (tools st)).
      by rewrite (ListAllFacts.listed_ids _ _ _ HL).
    + by eapply ListAllFacts.listed_content.
  - done.
  - intros Hn. unfold get_tools.
    destruct (ListAllFacts.validate_all_cases
                (λ t, tool_model ← model_validate t (wrap_specs (Tool.specs t));
                      Some (match tm_user_id tool_model with
                            | None =>
                                mkToolUserModel
                                  (mkToolModel (tm_id tool_model) None (tm_name tool_model)
                                     (match tm_content tool_model with
                                      | [] => lit "A WeidSyntara system tool."
                                      | c => c
                                      end)
                                     (tm_specs tool_model) (tm_meta tool_model)
                                     (tm_access_control tool_model)
                                     (tm_updated_at tool_model) (tm_created_at tool_model))
                                  (Some system_user_placeholder)
                            | Some _ => mkToolUserModel tool_model (joined_user st t)
                            end))
                (order_by_updated_at_desc (tools st))) as [[r Hr]|Hr]; [|done].
    exfalso. apply Hn, HV. exists r. done.
Qed.

(** X17.  A row whose [specs] column holds a dictionary (or null) and not a
    list is repaired on the way out by the read by id, which answers with
    the list holding that dictionary (or the empty list); the listing for a
    user who may see the row does not repair it and raises a validation
    error. *)
Theorem X17_specs_not_a_list {Mod} (env : Env Mod) (st : Store) (t : Tool.row)
    (user_id permission : str) (m : dict) :
  find (has_id (Tool.id t)) (tools st) = Some t →
  Tool.user_id t = Some user_id →
  Tool.specs t = JNull ∨ Tool.specs t = JObj m →
  is_Some (validate_meta (Tool.meta t)) →
  (∃ tm, get_tool_by_id st (Tool.id t) = Some tm
         ∧ tm_specs tm = match Tool.specs t with
                         | JNull => []
                         | sp => if bool_decide (m = ∅) then [] else [sp]
                         end)
  ∧ get_tools_by_user_id env st user_id permission
    = Raise (Exception (lit "ValidationError")).
Proof.
  intros Hf Hu Hs [mt Hm]. split.
  - unfold get_tool_by_id. rewrite Hf. cbn [mbind option_bind].
    unfold model_validate.
    destruct Hs as [Hs|Hs]; rewrite Hs; cbn [wrap_specs truthy].
    + cbn [forallb]. rewrite Hm. cbn [mbind option_bind]. eauto.
    + destruct (bool_decide (m = ∅)); cbn [negb forallb is_dict andb];
        rewrite Hm; cbn [mbind option_bind]; eauto.
  - unfold get_tools_by_user_id.
    assert (validate_all (validate_tool_user st)
              (List.filter (accessible env user_id permission)
                 (order_by_updated_at_desc (tools st)))
            = Raise (Exception (lit "ValidationError"))) as ->; [|done].
    apply ListAllFacts.validate_all_Raise. exists t. split.
    + apply list_elem_of_In, filter_In. split.
      * apply list_elem_of_In. rewrite ListingFacts.order_by_perm.
        by apply StoreFacts.find_Some_true in Hf as [_ Hf].
      * unfold accessible. rewrite bool_decide_eq_true_2 by done. done.
    + unfold validate_tool_user. by destruct Hs as [-> | ->].
Qed.

Lemma X17_specs_not_a_list_witness :
  let t := Tool.mk (lit "t") (Some (lit "alice")) (lit "t") (lit "x = 1")
             (JObj {[ lit "name" := JStr (lit "f") ]}) ∅ None None 5 1 in
  let st := mkStore [t] [alice] [] in
  (tm_specs <$> get_tool_by_id st (lit "t"))
    = Some [JObj {[ lit "name" := JStr (lit "f") ]}]
  ∧ get_tools_by_user_id demo_env st (lit "alice") (lit "write")
    = Raise (Exception (lit "ValidationError")).
Proof.
  cbv zeta.
  destruct (X17_specs_not_a_list demo_env
              (mkStore [Tool.mk (lit "t") (Some (lit "alice")) (lit "t") (lit "x = 1")
                          (JObj {[ lit "name" := JStr (lit "f") ]}) ∅ None None 5 1]
                 [alice] [])
              (Tool.mk (lit "t") (Some (lit "alice")) (lit "t") (lit "x = 1")
                 (JObj {[ lit "name" := JStr (lit "f") ]}) ∅ None None 5 1)
              (lit "alice") (lit "write") {[ lit "name" := JStr (lit "f") ]}
              eq_refl eq_refl (or_intror eq_refl)
              ltac:(by eexists))
    as [_ H].
  split; [reflexivity|exact H].
Defined.

(** X18.  The batch installer lists the tools before it starts to guard
    against errors: a single row of the table that cannot be validated makes
    the batch raise, and nothing is installed. *)
Theorem X18_batch_needs_valid_rows {Mod} (env : Env Mod) (w : World Mod) :
  ¬ Forall valid_row (tools (store w)) →
  install_tool_and_function_dependencies env w
  = (Raise (Exception (lit "ValidationError")), w).
Proof.
  intros Hn. unfold install_tool_and_function_dependencies.
  unfold mbind at 1, prog_bind at 1, world at 1. cbv beta iota.
  unfold mbind at 1, prog_bind at 1, of_result at 1.
  assert (get_tools (store w) = Raise (Exception (lit "ValidationError"))) as ->.
  { destruct (ListAllFacts.validate_all_cases
                (λ t, tool_model ← model_validate t (wrap_specs (Tool.specs t));
                      Some (match tm_user_id tool_model with
                            | None =>
                                mkToolUserModel
                                  (mkToolModel (tm_id tool_model) None (tm_name tool_model)
                                     (match tm_content tool_model with
                                      | [] => lit "A WeidSyntara system tool."
                                      | c => c
                                      end)
                                     (tm_specs tool_model) (tm_meta tool_model)
                                     (tm_access_control tool_model)
                                     (tm_updated_at tool_model) (tm_created_at tool_model))
                                  (Some system_user_placeholder)
                            | Some _ =>
                                mkToolUserModel tool_model (joined_user (store w) t)
                            end))
                (order_by_updated_at_desc (tools (store w)))) as [[r Hr]|Hr];
      [|done].
    exfalso. apply Hn.
    apply ListingFacts.validate_all_Ok, ListAllFacts.Forall2_is_Some in Hr.
    rewrite <- (ListingFacts.order_by_perm (tools (store w))).
    eapply Forall_impl; [exact Hr|]. intros t [m Ht]. unfold valid_row.
    simpl in Ht. by destruct (model_validate t _). }
  done.
Qed.

Lemma X18_batch_needs_valid_rows_witness :
  let w := demo_world
             [Tool.mk (lit "t") None (lit "t") (lit "x = 1")
                (JArr [JStr (lit "no dictionary")]) ∅ None None 5 1]
             [] [] empty_app in
  install_tool_and_function_dependencies demo_env w
  = (Raise (Exception (lit "ValidationError")), w).
Proof.
  cbv zeta. apply X18_batch_needs_valid_rows.
  intros H. apply Forall_cons in H as [[tm H] _]. vm_compute in H. discriminate H.
Defined.

(** ** Reading, updating and deleting one tool *)

Module RouterFacts.
Import StoreFacts LoaderStore.

Lemma delete_run {Mod} (env : Env Mod) (id : str) (user : UserResponse)
    (w : World Mod) :
  delete_tools_by_id env id user w =
  match get_tool_by_id (store w) id with
  | None => (Raise (HTTPException 404 NOT_FOUND), w)
  | Some tool =>
      if bool_decide (tm_user_id tool ≠ Some (user_ident user))
         && negb (has_access env (user_ident user) (lit "write")
                    (tm_access_control tool))
         && bool_decide (role user ≠ lit "admin")
      then (Raise (HTTPException 401 UNAUTHORIZED), w)
      else (Ok true,
            set_app (del_TOOLS id)
              (set_store (λ _, fst (delete_tool_by_id (store w) id)) w))
  end.
Proof.
  unfold delete_tools_by_id.
  unfold mbind, prog_bind, world, of_option, raise, set_world, mret, prog_ret.
  destruct (get_tool_by_id (store w) id) as [tool|]; [|done].
  by destruct (_ && _ && _).
Qed.

Lemma try_400_not_401 {Mod A} (m : prog Mod A) (w : World Mod) :
  fst (try_except m http_400 w) ≠ Raise (HTTPException 401 UNAUTHORIZED).
Proof.
  unfold try_except, http_400, raise. by destruct (m w) as [[a|e] w'].
Qed.

Lemma update_refused {Mod} (env : Env Mod) (id : str) (form_data : ToolForm)
    (user : UserResponse) (w : World Mod) :
  match get_tool_by_id (store w) id with
  | None =>
      update_tools_by_id env id form_data user w
      = (Raise (HTTPException 404 NOT_FOUND), w)
  | Some tool =>
      if bool_decide (tm_user_id tool ≠ None)
         && bool_decide (tm_user_id tool ≠ Some (user_ident user))
         && negb (has_access env (user_ident user) (lit "write")
                    (tm_access_control tool))
         && bool_decide (role user ≠ lit "admin")
      then update_tools_by_id env id form_data user w
           = (Raise (HTTPException 401 UNAUTHORIZED), w)
      else fst (update_tools_by_id env id form_data user w)
           ≠ Raise (HTTPException 401 UNAUTHORIZED)
  end.
Proof.
  destruct (get_tool_by_id (store w) id) as [tool|] eqn:E.
  - destruct (_ && _ && _ && _) eqn:Ec;
      unfold update_tools_by_id;
      unfold mbind at 1, prog_bind at 1, world at 1; cbv beta iota;
      unfold mbind at 1, prog_bind at 1, of_option at 1; rewrite E;
      cbv beta iota; rewrite Ec; [done|].
    apply try_400_not_401.
  - unfold update_tools_by_id.
    unfold mbind at 1, prog_bind at 1, world at 1. cbv beta iota.
    unfold mbind at 1, prog_bind at 1, of_option at 1. by rewrite E.
Qed.

End RouterFacts.

(** X19.  Who may read, update and delete a tool.  A tool that cannot be
    read from the table is answered with 404 by all three routes, and
    nothing changes.  Otherwise the read is granted to administrators, to
    the owner, to users with read access and, for a system tool, to
    everyone; the delete to administrators, the owner and users with write
    access; the update to the same and, for a system tool, to everyone.  A
    refusal is status 401 and changes nothing. *)
Theorem X19_access_to_a_tool {Mod} (env : Env Mod) (id : str)
    (form_data : ToolForm) (user : UserResponse) (w : World Mod) :
  match get_tool_by_id (store w) id with
  | None =>
      get_tools_by_id env (store w) id user = Raise (HTTPException 404 NOT_FOUND)
      ∧ update_tools_by_id env id form_data user w
        = (Raise (HTTPException 404 NOT_FOUND), w)
      ∧ delete_tools_by_id env id user w = (Raise (HTTPException 404 NOT_FOUND), w)
  | Some tool =>
      let may permission :=
        bool_decide (role user = lit "admin")
        || bool_decide (tm_user_id tool = Some (user_ident user))
        || has_access env (user_ident user) permission (tm_access_control tool) in
      let system := bool_decide (tm_user_id tool = None) in
      get_tools_by_id env (store w) id user
        = (if may (lit "read") || system then Ok tool
           else Raise (HTTPException 401 UNAUTHORIZED))
      ∧ (if may (lit "write") || system
         then fst (update_tools_by_id env id form_data user w)
              ≠ Raise (HTTPException 401 UNAUTHORIZED)
         else update_tools_by_id env id form_data user w
              = (Raise (HTTPException 401 UNAUTHORIZED), w))
      ∧ (if may (lit "write")
         then fst (delete_tools_by_id env id user w) = Ok true
         else delete_tools_by_id env id user w
              = (Raise (HTTPException 401 UNAUTHORIZED), w))
  end.
Proof.
  rewrite RouterFacts.delete_run.
  pose proof (RouterFacts.update_refused env id form_data user w) as Hu.
  unfold get_tools_by_id.
  destruct (get_tool_by_id (store w) id) as [tool|] eqn:E; [|done].
  cbv zeta.
  destruct (has_access env (user_ident user) (lit "read") (tm_access_control tool));
  destruct (has_access env (user_ident user) (lit "write") (tm_access_control tool));
  repeat case_bool_decide; cbn [orb andb negb fst] in *; try congruence;
    split_and!; done.
Qed.

Module RouterRuns.
Import StoreFacts LoaderStore LoaderFacts.

Lemma update_user_tool_run {Mod} (env : Env Mod) (id : str)
    (form_data : ToolForm) (user : UserResponse) (w : World Mod)
    (tool : ToolModel) (o c : str) (mt : dict) :
  get_tool_by_id (store w) id = Some tool →
  tm_user_id tool = Some o →
  bool_decide (o ≠ user_ident user)
  && negb (has_access env (user_ident user) (lit "write") (tm_access_control tool))
  && bool_decide (role user ≠ lit "admin") = false →
  form_content form_data = Some c →
  form_meta form_data = Some mt →
  update_tools_by_id env id form_data user w =
  match load_tool_module_by_id env id (Some (replace_imports c)) w with
  | (Raise e, w1) => (Raise (HTTPException 400 (DEFAULT e)), w1)
  | (Ok (m, fm), w1) =>
      let w2 := set_app (set_TOOLS id m) w1 in
      let upd :=
        mkToolUpdate (form_name form_data) (Some c)
          (Some (JArr (get_tool_specs env m)))
          (Some (<[lit "manifest" := json_of_frontmatter fm]> mt))
          (form_access_control form_data) in
      (match snd (update_tool_by_id (store w2) id upd (clock w2)) with
       | Some t => Ok t
       | None =>
           Raise (HTTPException 400
                    (DEFAULT (HTTPException 400 (Detail (lit "Error updating tool")))))
       end,
       set_store (λ _, fst (update_tool_by_id (store w2) id upd (clock w2))) w2)
  end.
Proof.
  intros Hget Ho Hc Hfc Hfm. unfold update_tools_by_id.
  unfold mbind at 1, prog_bind at 1, world at 1. cbv beta iota.
  unfold mbind at 1, prog_bind at 1, of_option at 1. rewrite Hget. cbv beta iota.
  rewrite Ho. rewrite (bool_decide_eq_true_2 (Some o ≠ None)) by done.
  assert (bool_decide (Some o ≠ Some (user_ident user))
          = bool_decide (o ≠ user_ident user)) as ->.
  { apply bool_decide_ext. split; intros H; congruence. }
  cbn [andb]. rewrite Hc.
  unfold try_except. rewrite Hfc, Hfm.
  unfold mbind, prog_bind, of_option, mret, prog_ret, Tools_update, http_400,
    raise, set_world.
  destruct (load_tool_module_by_id env id (Some (replace_imports c)) w)
    as [[[m fm]|e] w1]; [|done].
  cbv zeta.
  by destruct (update_tool_by_id _ _ _ _) as [st' [t|]].
Qed.

Lemma model_validate_meta (t : Tool.row) (sp : list json) (tm : ToolModel) :
  model_validate t sp = Some tm → validate_meta (Tool.meta t) = Some (tm_meta tm).
Proof.
  unfold model_validate. destruct (forallb is_dict sp); [|done].
  destruct (validate_meta (Tool.meta t)) as [m|]; [|done].
  by intros [= <-].
Qed.

Lemma validate_meta_manifest (mt : dict) (o : dict) (meta : ToolMeta) :
  validate_meta (<[lit "manifest" := JObj o]> mt) = Some meta →
  manifest meta = Some o.
Proof.
  unfold validate_meta. rewrite lookup_insert_eq.
  destruct (match _ !! lit "description" with None => _ | _ => _ end) as [d|];
    [|done].
  cbn [mbind option_bind]. by intros [= <-].
Qed.

End RouterRuns.

(** X20.  A delete that goes through removes the tool from the table and
    its module from the cache and answers [True]; every other tool and every
    other cached module stays, among them the personal copies users hold of
    a deleted blueprint.  A delete that is refused changes nothing. *)
Theorem X20_delete_tools_by_id {Mod} (env : Env Mod) (id : str)
    (user : UserResponse) (w : World Mod) :
  let run := delete_tools_by_id env id user w in
  match fst run with
  | Ok b =>
      b = true
      ∧ find (has_id id) (tools (store (snd run))) = None
      ∧ TOOLS (app (snd run)) !! id = None
      ∧ (∀ j, j ≠ id →
           find (has_id j) (tools (store (snd run)))
           = find (has_id j) (tools (store w))
           ∧ TOOLS (app (snd run)) !! j = TOOLS (app w) !! j)
      ∧ (∀ u, find (has_id (personal_copy_id id u)) (tools (store (snd run)))
              = find (has_id (personal_copy_id id u)) (tools (store w)))
      ∧ executed (snd run) = executed w ∧ pip_calls (snd run) = pip_calls w
  | Raise e => snd run = w
  end.
Proof.
  cbv zeta. rewrite RouterFacts.delete_run.
  destruct (get_tool_by_id (store w) id) as [tool|]; [|done].
  destruct (_ && _ && _); [done|].
  cbn [fst snd]. unfold set_app, set_store, del_TOOLS, delete_tool_by_id.
  cbn [store app tools TOOLS fst executed pip_calls].
  assert (∀ j, j ≠ id →
            find (has_id j) (List.filter (λ t, negb (has_id id t)) (tools (store w)))
            = find (has_id j) (tools (store w))) as Hj.
  { intros j Hj. apply TableFacts.find_filter_keep.
    intros x Hx. apply negb_true_iff. by apply (TableFacts.has_id_neq j). }
  split_and!; try done.
  - apply (TableFacts.find_filter_drop (has_id id)).
  - apply lookup_delete_eq.
  - intros j Hji. split; [by apply Hj|]. by rewrite lookup_delete_ne.
  - intros u. apply Hj. apply ValvesFacts.personal_copy_id_neq.
Qed.

(** X21.  Updating a user's tool (by its owner, an administrator or a user
    with write access) executes the submitted source with its legacy
    imports rewritten, puts the module into the cache and stores, under the
    same id and owner, the source as it was submitted, the specs of the
    module and the frontmatter of the rewritten source as manifest.  When
    the load fails the table and the cache are left as they were. *)
Theorem X21_update_user_tool {Mod} (env : Env Mod) (id : str)
    (form_data : ToolForm) (user : UserResponse) (w : World Mod)
    (tool : ToolModel) (o c : str) (mt : dict) :
  get_tool_by_id (store w) id = Some tool →
  tm_user_id tool = Some o →
  o = user_ident user ∨ role user = lit "admin"
  ∨ has_access env (user_ident user) (lit "write") (tm_access_control tool) = true →
  startswith (lit "custom_") id = false →
  form_content form_data = Some c →
  form_meta form_data = Some mt →
  let run := update_tools_by_id env id form_data user w in
  match fst run with
  | Ok tool' =>
      ∃ m, exec_tool env (replace_imports c) = Some m
        ∧ TOOLS (app (snd run)) !! id = Some m
        ∧ last (executed (snd run)) = Some (replace_imports c)
        ∧ get_tool_by_id (store (snd run)) id = Some tool'
        ∧ tm_id tool' = id ∧ tm_user_id tool' = Some o
        ∧ tm_content tool' = c
        ∧ tm_specs tool' = get_tool_specs env m
        ∧ manifest (tm_meta tool')
          = Some (JStr <$> extract_frontmatter (replace_imports c))
  | Raise _ =>
      fst (load_tool_module_by_id env id (Some (replace_imports c)) w)
        = Raise (Exception (lit "error loading the module"))
      ∨ fst (load_tool_module_by_id env id (Some (replace_imports c)) w)
        = Raise (Exception (lit "CalledProcessError")) →
      store (snd run) = store w ∧ app (snd run) = app w
  end
  ∧ ∀ j, j ≠ id → get_tool_by_id (store (snd run)) j = get_tool_by_id (store w) j.
Proof.
  intros Hget Ho Hmay Hc Hfc Hfm. cbv zeta.
  assert (bool_decide (o ≠ user_ident user)
          && negb (has_access env (user_ident user) (lit "write")
                     (tm_access_control tool))
          && bool_decide (role user ≠ lit "admin") = false) as Hcond.
  { destruct Hmay as [->|[Hr|Ha]].
    - by rewrite (bool_decide_eq_false_2 (user_ident user ≠ user_ident user))
        by tauto.
    - rewrite (bool_decide_eq_false_2 (role user ≠ lit "admin")) by tauto.
      by rewrite andb_false_r.
    - rewrite Ha. cbn [negb]. by rewrite andb_false_r. }
  rewrite (RouterRuns.update_user_tool_run env id form_data user w tool o c mt
             Hget Ho Hcond Hfc Hfm).
  pose proof (LoaderStore.load_tool_given env id (replace_imports c) w Hc) as Hl.
  pose proof (LoaderStore.install_store env
                (requirements_of (extract_frontmatter (replace_imports c))) w)
    as (Hs & Ha & Hk).
  rewrite LoaderFacts.install_run in Hl, Hs, Ha, Hk.
  apply StoreFacts.get_tool_by_id_row in Hget as (t & Hfind & Hval).
  pose proof (StoreFacts.model_validate_fields _ _ _ Hval)
    as (_ & Hown & _).
  destruct (load_tool_module_by_id env id (Some (replace_imports c)) w)
    as [[[m fm]|e] w1] eqn:El.
  - (* the module was loaded *)
    assert (exec_tool env (replace_imports c) = Some m
            ∧ fm = extract_frontmatter (replace_imports c)
            ∧ store w1 = store w
            ∧ last (executed w1) = Some (replace_imports c)) as (Hm & -> & Hst & Hex).
    { destruct (req_list_of _) as [|r reqs].
      - destruct (exec_tool env _); [|done]. injection Hl as -> -> ->.
        cbn [snd] in *. split_and!; try done. cbn [log_exec executed].
        apply last_snoc.
      - destruct (pip_succeeds env _); [|done].
        destruct (exec_tool env _); [|done]. injection Hl as -> -> ->.
        cbn [snd] in *. split_and!; try done. cbn [log_exec executed].
        apply last_snoc. }
    cbv zeta. cbn [fst snd].
    unfold update_tool_by_id. cbn [fst snd set_app store app TOOLS set_TOOLS
      set_store executed clock tools].
    rewrite Hst. split.
    + set (upd := mkToolUpdate _ _ _ _ _).
      destruct (get_tool_by_id _ id) as [tool'|] eqn:Eg; [|by intros [?|?]].
      exists m. split; [done|]. split; [apply lookup_insert_eq|].
      split; [done|]. split; [done|].
      apply StoreFacts.get_tool_by_id_row in Eg as (t' & Hf' & Hv').
      cbn [tools] in Hf'. rewrite TableFacts.find_update, Hfind in Hf'.
      cbn [fmap option_fmap option_map] in Hf'.
      rewrite (proj1 (StoreFacts.find_Some_true _ _ _ Hfind)) in Hf'.
      injection Hf' as <-.
      pose proof (RouterRuns.model_validate_meta _ _ _ Hv') as Hmeta.
      apply StoreFacts.model_validate_fields in Hv'
        as (H1 & H2 & _ & H4 & H5 & _).
      cbn [apply_update upd Tool.id Tool.user_id Tool.content Tool.specs
             Tool.meta up_content up_specs up_meta default from_option
             wrap_specs] in *.
      unfold Datatypes.id in *.
      split_and!.
      * rewrite H1. by apply TableFacts.find_has_id in Hfind.
      * congruence.
      * done.
      * done.
      * by eapply RouterRuns.validate_meta_manifest.
    + intros j Hj. unfold get_tool_by_id. cbn [tools].
      rewrite TableFacts.find_update.
      destruct (find (has_id j) (tools (store w))) as [x|] eqn:E; [|done]. simpl.
      apply TableFacts.find_has_id in E.
      assert (has_id id x = false) as ->
        by (apply bool_decide_eq_false; congruence).
      done.
  - cbn [fst snd]. split.
    + intros _.
      destruct (req_list_of _) as [|r reqs].
      * destruct (exec_tool env _); [done|]. by injection Hl as -> ->.
      * destruct (pip_succeeds env _).
        -- destruct (exec_tool env _); [done|]. by injection Hl as -> ->.
        -- by injection Hl as -> ->.
    + intros j Hj. f_equal.
      destruct (req_list_of _) as [|r reqs].
      * destruct (exec_tool env _); [done|]. by injection Hl as -> ->.
      * destruct (pip_succeeds env _).
        -- destruct (exec_tool env _); [done|]. by injection Hl as -> ->.
        -- by injection Hl as -> ->.
Qed.

Lemma X21_update_user_tool_witness :
  let run := update_tools_by_id demo_env (lit "t")
               (mkToolForm (lit "t") (Some (lit "t")) (Some (lit "from utils import x"))
                  (Some ∅) None)
               alice canonical_world in
  match fst run with
  | Ok tool' =>
      tm_content tool' = lit "from utils import x"
      ∧ last (executed (snd run)) = Some (lit "from open_webui.utils import x")
  | Raise _ => False
  end.
Proof.
  pose proof (X21_update_user_tool demo_env (lit "t")
                (mkToolForm (lit "t") (Some (lit "t"))
                   (Some (lit "from utils import x")) (Some ∅) None)
                alice canonical_world
                (mkToolModel (lit "t") (Some (lit "alice")) (lit "t") (lit "x = 1") []
                   (mkToolMeta (Some (lit "demo")) (Some ∅)) None 5 1)
                (lit "alice") (lit "from utils import x") ∅
                ltac:(vm_compute; reflexivity) eq_refl (or_introl eq_refl)
                eq_refl eq_refl eq_refl) as [H _].
  cbv zeta in *.
  destruct (fst (update_tools_by_id _ _ _ _ _)) as [tool'|e] eqn:E.
  - destruct H as (m & _ & _ & Hex & _ & _ & _ & Hc & _). split; [exact Hc|exact Hex].
  - vm_compute in E. discriminate E.
Defined.

Module CreateFacts.
Import StoreFacts.

Lemma create_run {Mod} (env : Env Mod) (has_permission : str → bool)
    (form_data : ValidToolForm) (user : UserResponse) (w : World Mod) :
  create_new_tools env has_permission form_data user w =
  let id := lower (vf_id form_data) in
  let content := replace_imports (vf_content form_data) in
  if bool_decide (role user ≠ lit "admin") && negb (has_permission (user_ident user))
  then (Raise (HTTPException 401 UNAUTHORIZED), w)
  else if negb (isidentifier (vf_id form_data))
  then (Raise (HTTPException 400 (Detail (lit
          "Only alphanumeric characters and underscores are allowed in the id"))), w)
  else
    match get_tool_by_id (store w) id with
    | Some _ => (Raise (HTTPException 400 (Detail (lit "ID_TAKEN"))), w)
    | None =>
        match load_tool_module_by_id env id (Some content) w with
        | (Raise e, w1) => (Raise (HTTPException 400 (DEFAULT e)), w1)
        | (Ok (m, fm), w1) =>
            let w2 := set_app (set_TOOLS id m) w1 in
            let ins :=
              insert_new_tool (store w2) (Some (user_ident user))
                (mkValidToolForm id (vf_name form_data) content
                   (mkToolMeta (description (vf_meta form_data)) (Some (JStr <$> fm)))
                   (vf_access_control form_data))
                (get_tool_specs env m) (clock w2) in
            (match snd ins with
             | Some t => Ok t
             | None =>
                 Raise (HTTPException 400
                          (DEFAULT (HTTPException 400
                                      (Detail (lit "Error creating tool")))))
             end, set_store (λ _, fst ins) w2)
        end
    end.
Proof.
  unfold create_new_tools. cbv zeta.
  destruct (_ && _); [done|]. destruct (negb _); [done|].
  unfold mbind at 1, prog_bind at 1, world at 1. cbv beta iota.
  destruct (get_tool_by_id (store w) _); [done|].
  unfold try_except.
  unfold mbind, prog_bind, of_option, mret, prog_ret, http_400, raise, set_world,
    world.
  destruct (load_tool_module_by_id env _ _ w) as [[[m fm]|e] w1]; [|done].
  by destruct (insert_new_tool _ _ _ _ _) as [st [t|]].
Qed.

Lemma validate_meta_mk (d : option str) (mf : option dict) :
  validate_meta (dump_meta (mkToolMeta d mf)) = Some (mkToolMeta d mf).
Proof. apply TableFacts.validate_dump_meta. Qed.

End CreateFacts.

(** X22.  Creating a tool is refused with 401 for a user who is neither an
    administrator nor permitted, with 400 for an id that is no identifier
    and with 400 for an id (in lower case) that can be read from the table;
    a refusal changes nothing.  A tool that is created is stored under the
    lower-case id for the user who created it, with the rewritten source,
    the specs of the loaded module and the frontmatter as manifest; it is
    the one row added to the table, it can be read back by its id, and the
    module is in the cache.  Every failure after the checks is status
    400. *)
Theorem X22_create_new_tools {Mod} (env : Env Mod) (has_permission : str → bool)
    (form_data : ValidToolForm) (user : UserResponse) (w : World Mod) :
  let run := create_new_tools env has_permission form_data user w in
  let id := lower (vf_id form_data) in
  let content := replace_imports (vf_content form_data) in
  if bool_decide (role user ≠ lit "admin") && negb (has_permission (user_ident user))
  then run = (Raise (HTTPException 401 UNAUTHORIZED), w)
  else if negb (isidentifier (vf_id form_data))
  then run = (Raise (HTTPException 400 (Detail (lit
                "Only alphanumeric characters and underscores are allowed in the id"))),
              w)
  else
    match get_tool_by_id (store w) id with
    | Some _ => run = (Raise (HTTPException 400 (Detail (lit "ID_TAKEN"))), w)
    | None =>
        match fst run with
        | Ok tool =>
            ∃ m fm w1,
              load_tool_module_by_id env id (Some content) w = (Ok (m, fm), w1)
              ∧ TOOLS (app (snd run)) !! id = Some m
              ∧ get_tool_by_id (store (snd run)) id = Some tool
              ∧ tool = mkToolModel id (Some (user_ident user)) (vf_name form_data)
                         content (get_tool_specs env m)
                         (mkToolMeta (description (vf_meta form_data))
                            (Some (JStr <$> fm)))
                         (vf_access_control form_data) (clock w1) (clock w1)
              ∧ ∃ row, tools (store (snd run)) = tools (store w1) ++ [row]
                       ∧ Tool.id row = id ∧ Tool.valves row = None
        | Raise e => ∃ cause, e = HTTPException 400 (DEFAULT cause)
        end
    end.
Proof.
  cbv zeta. rewrite CreateFacts.create_run. cbv zeta.
  destruct (_ && _); [done|]. destruct (negb _); [done|].
  destruct (get_tool_by_id (store w) _) as [?|] eqn:Eg; [done|].
  destruct (load_tool_module_by_id env _ _ w) as [[[m fm]|e] w1] eqn:El;
    [|cbn [fst]; eauto].
  cbn [fst snd]. unfold insert_new_tool.
  cbn [set_app set_store store app clock TOOLS set_TOOLS vf_id vf_name
         vf_content vf_meta vf_access_control].
  destruct (find (has_id (lower (vf_id form_data))) (tools (store w1)))
    as [t|] eqn:Ef; cbn [snd fst]; [eauto|].
  unfold model_validate.
  destruct (forallb is_dict (get_tool_specs env m)) eqn:Ed; [|eauto].
  cbn [Tool.meta]. rewrite CreateFacts.validate_meta_mk. cbn [mbind option_bind].
  exists m, fm, w1. split; [done|]. split; [apply lookup_insert_eq|].
  split.
  - unfold get_tool_by_id. cbn [store tools].
    rewrite StoreFacts.find_app_None by done. cbn [find].
    unfold has_id at 1. cbn [Tool.id]. rewrite bool_decide_eq_true_2 by done.
    cbn [mbind option_bind Tool.specs wrap_specs]. unfold model_validate.
    rewrite Ed. cbn [Tool.meta]. by rewrite CreateFacts.validate_meta_mk.
  - split; [done|]. eexists. cbn [store tools]. split; [done|]. done.
Qed.

(** ** Configurations: failed writes, orphaned copies *)

Module ValvesMore.
Import StoreFacts LoaderStore ValvesFacts.

Lemma valves_finish_error {Mod} (env : Env Mod) (form_data : dict)
    (target : valves_target) (load_id : str) (w w' : World Mod) (e : error) :
  valves_finish env form_data target load_id w = (Raise e, w') →
  ∃ cause, e = HTTPException 400 (DEFAULT cause).
Proof.
  unfold valves_finish.
  destruct (tools_module_of env load_id w) as [[m|e'] w1].
  - destruct (has_valves env m).
    + destruct (valves_validate env m (drop_none form_data)); [done|].
      intros [= <- _]. eauto.
    + intros [= <- _]. eauto.
  - intros [= <- _]. eauto.
Qed.

Lemma valves_read_touches (i j : str) (user : UserResponse) (st st' : Store) :
  touches_only i (tools st) (tools st') →
  get_tools_valves_by_id st' j user = get_tools_valves_by_id st j user.
Proof.
  intros Ht. unfold get_tools_valves_by_id.
  pose proof (find_touches
                (λ t, has_id (personal_copy_id j (user_ident user)) t
                      && owned_by (Some (user_ident user)) t) i _ _
                ltac:(intros t t' (H1 & H2 & _);
                      by rewrite (has_id_same _ _ _ H1), (owned_by_same _ _ _ H2))
                Ht) as Hpc.
  pose proof (find_touches (has_id j) i _ _
                ltac:(intros t t' (H1 & _); by rewrite (has_id_same _ _ _ H1))
                Ht) as Hb.
  destruct (find (λ t, has_id (personal_copy_id j (user_ident user)) t
                       && owned_by (Some (user_ident user)) t) (tools st))
    as [pc|].
  - destruct Hpc as (pc' & -> & (_ & _ & _ & _ & _ & Hv & _) & _). by rewrite Hv.
  - rewrite Hpc. destruct (find (has_id j) (tools st)) as [B|].
    + destruct Hb as (B' & -> & (_ & Hu & _ & _ & _ & Hv & _) & _).
      by rewrite Hu, Hv.
    + by rewrite Hb.
Qed.

Lemma touches_only_columns (i : str) (l l' : list Tool.row) :
  touches_only i l l' →
  Forall2 (λ t t', Tool.id t' = Tool.id t ∧ Tool.user_id t' = Tool.user_id t
                   ∧ Tool.valves t' = Tool.valves t) l l'.
Proof.
  intros H. eapply Forall2_impl; [exact H|].
  intros t t' [(H1 & H2 & _ & _ & _ & H6 & _) _]. done.
Qed.

End ValvesMore.

(** X23.  A write of a configuration that fails is answered with status
    400, whatever went wrong, and writes no configuration: no row is added,
    every row keeps its id, its owner and its configuration, and every read
    of a configuration gives what it gave before. *)
Theorem X23_failed_valves_write {Mod} (env : Env Mod) (id : str)
    (form_data : dict) (user : UserResponse) (w : World Mod) :
  let run := update_tools_valves_by_id env id form_data user w in
  match fst run with
  | Ok _ => True
  | Raise e =>
      (∃ cause, e = HTTPException 400 (DEFAULT cause))
      ∧ Forall2 (λ t t', Tool.id t' = Tool.id t ∧ Tool.user_id t' = Tool.user_id t
                         ∧ Tool.valves t' = Tool.valves t)
          (tools (store w)) (tools (store (snd run)))
      ∧ ∀ j u, get_tools_valves_by_id (store (snd run)) j u
               = get_tools_valves_by_id (store w) j u
  end.
Proof.
  cbv zeta. rewrite ValvesFacts.valves_update_run.
  assert (∀ target load_id,
            match fst (valves_finish env form_data target load_id w) with
            | Ok _ => True
            | Raise e =>
                (∃ cause, e = HTTPException 400 (DEFAULT cause))
                ∧ Forall2 (λ t t', Tool.id t' = Tool.id t
                                   ∧ Tool.user_id t' = Tool.user_id t
                                   ∧ Tool.valves t' = Tool.valves t)
                    (tools (store w))
                    (tools (store (snd (valves_finish env form_data target
                                          load_id w))))
                ∧ ∀ j u, get_tools_valves_by_id
                           (store (snd (valves_finish env form_data target
                                          load_id w))) j u
                         = get_tools_valves_by_id (store w) j u
            end) as Hfin.
  { intros target load_id.
    destruct (valves_finish env form_data target load_id w) as [[v|e] w'] eqn:E;
      cbn [fst snd]; [done|].
    pose proof (ValvesFacts.valves_finish_Raise _ _ _ _ _ _ _ E) as Ht.
    split_and!.
    - by eapply ValvesMore.valves_finish_error.
    - by eapply ValvesMore.touches_only_columns.
    - intros j u. by eapply ValvesMore.valves_read_touches. }
  destruct (find (λ t, has_id id t && owned_by None t) (tools (store w))) as [B|].
  - destruct (find (has_id (personal_copy_id id (user_ident user)))
                (tools (store w))) as [pc|]; apply Hfin.
  - destruct (find (λ t, has_id id t && owned_by (Some (user_ident user)) t)
                (tools (store w))) as [T|]; [apply Hfin|].
    cbn [fst snd]. split_and!; [eauto| |done].
    apply Forall_Forall2_diag, Forall_forall. done.
Qed.

(** X24.  A personal copy outlives its blueprint: once the blueprint has
    been deleted the user still reads the configuration of the copy, while
    a user without a copy gets 404; a later write for that id is refused
    with status 400 and changes nothing. *)
Theorem X24_copy_outlives_blueprint {Mod} (env : Env Mod) (id : str)
    (deleter user : UserResponse) (w : World Mod) (pc : Tool.row) :
  find (λ t, has_id (personal_copy_id id (user_ident user)) t
             && owned_by (Some (user_ident user)) t) (tools (store w)) = Some pc →
  fst (delete_tools_by_id env id deleter w) = Ok true →
  let w' := snd (delete_tools_by_id env id deleter w) in
  get_tools_valves_by_id (store w') id user = Ok (Tool.valves pc)
  ∧ (∀ other,
       find (λ t, has_id (personal_copy_id id (user_ident other)) t
                  && owned_by (Some (user_ident other)) t) (tools (store w)) = None →
       get_tools_valves_by_id (store w') id other
       = Raise (HTTPException 404 NOT_FOUND))
  ∧ (∀ form_data,
       update_tools_valves_by_id env id form_data user w'
       = (Raise (HTTPException 400 (DEFAULT (HTTPException 404 NOT_FOUND))), w')).
Proof.
  intros Hpc. rewrite RouterFacts.delete_run.
  destruct (get_tool_by_id (store w) id) as [tool|]; [|done].
  destruct (_ && _ && _); [done|]. intros _. cbv zeta. cbn [snd].
  unfold set_app, set_store, delete_tool_by_id. cbn [store fst app].
  set (rows := List.filter (λ t, negb (has_id id t)) (tools (store w))).
  assert (∀ P : Tool.row → bool,
            (∀ x, P x = true → has_id id x = false) →
            find P rows = find P (tools (store w))) as Hkeep.
  { intros P HP. apply TableFacts.find_filter_keep.
    intros x Hx. apply negb_true_iff. by apply HP. }
  assert (∀ u x, has_id (personal_copy_id id u) x && owned_by (Some u) x = true →
                 has_id id x = false) as Hcopy.
  { intros u x [Hx _]%andb_true_iff.
    apply (TableFacts.has_id_neq (personal_copy_id id u)); [|done].
    apply ValvesFacts.personal_copy_id_neq. }
  assert (find (has_id id) rows = None) as Hgone
    by apply (TableFacts.find_filter_drop (has_id id)).
  split_and!.
  - unfold get_tools_valves_by_id. cbn [tools].
    by rewrite (Hkeep _ (Hcopy (user_ident user))), Hpc.
  - intros other Ho. unfold get_tools_valves_by_id. cbn [tools].
    by rewrite (Hkeep _ (Hcopy (user_ident other))), Ho, Hgone.
  - intros form_data. rewrite ValvesFacts.valves_update_run. cbn [store tools].
    rewrite (StoreFacts.find_and_None _ _ _ Hgone).
    by rewrite (StoreFacts.find_and_None _ _ _ Hgone).
Qed.

Lemma X24_copy_outlives_blueprint_witness :
  let w := demo_world
             [demo_tool "weather" None (lit "x = 1") (Some ∅) None 5;
              demo_tool "weather_user_alice" (Some "alice") (lit "x = 1")
                (Some celsius) None 6]
             [alice; bob; admin] [] empty_app in
  let w' := snd (delete_tools_by_id demo_env (lit "weather") admin w) in
  get_tools_valves_by_id (store w') (lit "weather") alice = Ok (Some celsius)
  ∧ get_tools_valves_by_id (store w') (lit "weather") bob
    = Raise (HTTPException 404 NOT_FOUND).
Proof.
  cbv zeta.
  pose proof (X24_copy_outlives_blueprint demo_env (lit "weather") admin alice
                (demo_world
                   [demo_tool "weather" None (lit "x = 1") (Some ∅) None 5;
                    demo_tool "weather_user_alice" (Some "alice") (lit "x = 1")
                      (Some celsius) None 6]
                   [alice; bob; admin] [] empty_app)
                (demo_tool "weather_user_alice" (Some "alice") (lit "x = 1")
                   (Some celsius) None 6)
                ltac:(vm_compute; reflexivity)
                ltac:(vm_compute; reflexivity)) as (H1 & H2 & _).
  split; [exact H1|]. apply H2. vm_compute. reflexivity.
Defined.

(** ** Reading the schema of a configuration *)

Module SpecFacts.
Import StoreFacts LoaderStore.

Lemma spec_run {Mod} (env : Env Mod) (id : str) (user : UserResponse)
    (w : World Mod) :
  get_tools_valves_spec_by_id env id user w =
  match get_tool_by_id (store w) id with
  | None => (Raise (HTTPException 404 NOT_FOUND), w)
  | Some tool =>
      if bool_decide (role user ≠ lit "admin")
         && bool_decide (tm_user_id tool ≠ None)
         && bool_decide (tm_user_id tool ≠ Some (user_ident user))
      then (Raise (HTTPException 401 UNAUTHORIZED), w)
      else
        match tools_module_of env id w with
        | (Ok m, w1) =>
            (Ok (if has_valves env m then Some (valves_schema env m) else None), w1)
        | (Raise e, w1) => (Raise e, w1)
        end
  end.
Proof.
  unfold get_tools_valves_spec_by_id.
  unfold mbind at 1, prog_bind at 1, world at 1. cbv beta iota.
  unfold mbind at 1, prog_bind at 1, of_option at 1.
  destruct (get_tool_by_id (store w) id) as [tool|]; [|done]. cbv beta iota.
  destruct (_ && _ && _); [done|].
  unfold mbind, prog_bind.
  destruct (tools_module_of env id w) as [[m|e] w1]; [|done].
  by destruct (has_valves env m).
Qed.

Lemma model_validate_same (t t' : Tool.row) (tm : ToolModel) :
  same_but_source t t' →
  model_validate t (wrap_specs (Tool.specs t)) = Some tm →
  ∃ tm', model_validate t' (wrap_specs (Tool.specs t')) = Some tm'
         ∧ tm_user_id tm' = tm_user_id tm.
Proof.
  intros (H1 & H2 & H3 & H4 & H5 & _). unfold model_validate. rewrite H4, H5.
  destruct (forallb is_dict _); [|done].
  destruct (validate_meta (Tool.meta t)) as [m|]; [|done].
  cbn [mbind option_bind]. intros [= <-]. eexists. split; [done|]. done.
Qed.

Lemma get_tool_touches (i : str) (st st' : Store) (tm : ToolModel) :
  touches_only i (tools st) (tools st') →
  get_tool_by_id st i = Some tm →
  ∃ tm', get_tool_by_id st' i = Some tm' ∧ tm_user_id tm' = tm_user_id tm.
Proof.
  intros Ht Hg. apply get_tool_by_id_row in Hg as (t & Hf & Hv).
  pose proof (find_touches (has_id i) i _ _
                ltac:(intros x x' (H1 & _); by rewrite (has_id_same _ _ _ H1))
                Ht) as Hb.
  rewrite Hf in Hb. destruct Hb as (t' & Hf' & Hs & _).
  unfold get_tool_by_id. rewrite Hf'. cbn [mbind option_bind].
  by eapply model_validate_same.
Qed.

Lemma tools_module_of_cases {Mod} (env : Env Mod) (i : str) (w : World Mod) :
  match tools_module_of env i w with
  | (Ok m, w1) => TOOLS (app w1) !! i = Some m
  | (Raise e, w1) =>
      (∃ msg, e = Exception msg) ∧ TOOLS (app w1) !! i = None
  end.
Proof.
  destruct (TOOLS (app w) !! i) as [m|] eqn:E.
  - by rewrite (tools_module_of_hit env w i m E).
  - rewrite (tools_module_of_miss env w i E).
    destruct (load_tool_frame env i None w) as (_ & _ & Ha & _).
    destruct (startswith (lit "custom_") i) eqn:Ec.
    + rewrite (load_tool_file env i None w Ec) in *.
      destruct (read_file env _) as [fc|]; [|by eauto].
      destruct (exec_tool env fc); cbn [snd] in *.
      * cbn [set_app app TOOLS set_TOOLS]. apply lookup_insert_eq.
      * split; [eauto|]. by rewrite Ha.
    + rewrite (load_tool_stored env i w Ec) in *.
      destruct (get_tool_by_id (store w) i) as [tool|]; [|by eauto].
      cbv zeta in *.
      destruct (exec_tool env _); cbn [snd] in *.
      * cbn [set_app app TOOLS set_TOOLS]. apply lookup_insert_eq.
      * split; [eauto|]. by rewrite Ha.
Qed.

End SpecFacts.

(** X25.  Reading the schema of a tool's configuration puts the tool's
    module into the cache: after an answer the same request is answered the
    same from the cache, without any further change.  A 404 or a 401 leaves
    everything as it was; an error of the loader is passed on as it is, and
    the cache then has no module for the tool. *)
Theorem X25_valves_spec_read {Mod} (env : Env Mod) (id : str)
    (user : UserResponse) (w : World Mod) :
  let run := get_tools_valves_spec_by_id env id user w in
  match fst run with
  | Ok r =>
      (∃ m, TOOLS (app (snd run)) !! id = Some m
            ∧ r = if has_valves env m then Some (valves_schema env m) else None)
      ∧ get_tools_valves_spec_by_id env id user (snd run) = (Ok r, snd run)
  | Raise (HTTPException _ _ as e) =>
      snd run = w
      ∧ (e = HTTPException 404 NOT_FOUND ∨ e = HTTPException 401 UNAUTHORIZED)
  | Raise (Exception _) => TOOLS (app (snd run)) !! id = None
  end.
Proof.
  cbv zeta. rewrite SpecFacts.spec_run.
  destruct (get_tool_by_id (store w) id) as [tool|] eqn:Eg;
    [|cbn [fst snd]; split; [done|by left]].
  destruct (_ && _ && _) eqn:Ec; [cbn [fst snd]; split; [done|by right]|].
  pose proof (SpecFacts.tools_module_of_cases env id w) as Hm.
  pose proof (LoaderStore.tools_module_of_frame env id w) as (Ht & _).
  cbv zeta in Ht.
  destruct (tools_module_of env id w) as [[m|e] w1]; cbn [fst snd] in *.
  - split; [by eauto|].
    rewrite SpecFacts.spec_run.
    destruct (SpecFacts.get_tool_touches id (store w) (store w1) tool Ht Eg)
      as (tool' & -> & Hu).
    rewrite Hu, Ec. by rewrite (tools_module_of_hit env w1 id m Hm).
  - by destruct Hm as [[msg ->] Hm].
Qed.

(** ** The listing and the read by id agree *)

Module AgreeFacts.
Import StoreFacts ListingFacts.

Lemma find_NoDup (l : list Tool.row) (t : Tool.row) :
  NoDup (map Tool.id l) → t ∈ l → find (has_id (Tool.id t)) l = Some t.
Proof.
  induction l as [|x l IH]; simpl; intros Hnd Hin; [by apply elem_of_nil in Hin|].
  apply NoDup_cons in Hnd as [Hx Hnd].
  apply elem_of_cons in Hin as [->|Hin].
  - unfold has_id. by rewrite bool_decide_eq_true_2.
  - destruct (has_id (Tool.id t) x) eqn:E; [|by apply IH].
    apply bool_decide_eq_true in E. exfalso. apply Hx. rewrite E.
    apply list_elem_of_In, in_map, list_elem_of_In. done.
Qed.

Lemma Forall2_elem_r {A B} (P : A → B → Prop) (l : list A) (k : list B) (y : B) :
  Forall2 P l k → y ∈ k → ∃ x, x ∈ l ∧ P x y.
Proof.
  induction 1 as [|a b l k Hab _ IH]; intros Hy; [by apply elem_of_nil in Hy|].
  apply elem_of_cons in Hy as [->|Hy].
  - exists a. split; [left|done].
  - destruct (IH Hy) as (x & Hx & HP). exists x. split; [by right|done].
Qed.

End AgreeFacts.

(** X26.  With unique ids, the list of all tools and the read by id agree:
    every entry of the list is what the read by the entry's id answers,
    except that the list shows a system tool without source with a
    placeholder text. *)
Theorem X26_listing_agrees_with_read (st : Store) (l : list ToolUserModel)
    (m : ToolUserModel) :
  NoDup (map Tool.id (tools st)) →
  get_tools st = Ok l →
  m ∈ l →
  ∃ tool, get_tool_by_id st (tm_id (tum_model m)) = Some tool
    ∧ tum_model m
      = match tm_user_id tool, tm_content tool with
        | None, [] =>
            mkToolModel (tm_id tool) None (tm_name tool)
              (lit "A WeidSyntara system tool.") (tm_specs tool) (tm_meta tool)
              (tm_access_control tool) (tm_updated_at tool) (tm_created_at tool)
        | _, _ => tool
        end.
Proof.
  intros Hnd Hl Hm. unfold get_tools in Hl.
  apply ListingFacts.validate_all_Ok in Hl.
  destruct (AgreeFacts.Forall2_elem_r _ _ _ _ Hl Hm) as (t & Ht & He).
  rewrite ListingFacts.order_by_perm in Ht.
  pose proof (AgreeFacts.find_NoDup _ _ Hnd Ht) as Hf.
  cbv beta in He.
  destruct (model_validate t (wrap_specs (Tool.specs t))) as [tm|] eqn:Ev;
    [|done].
  cbn [mbind option_bind] in He. injection He as <-.
  pose proof (StoreFacts.model_validate_fields _ _ _ Ev) as (Hid & _).
  exists tm.
  assert (get_tool_by_id st (Tool.id t) = Some tm) as Hg.
  { unfold get_tool_by_id. rewrite Hf. done. }
  destruct tm as [i u n c sp mt ac ua ca].
  cbn [tm_user_id tm_content tm_id] in *.
  rewrite <- Hid in Hg.
  destruct u as [u|]; cbn [tum_model tm_id].
  - done.
  - split; [done|]. by destruct c.
Qed.

Lemma X26_listing_agrees_with_read_witness :
  ∃ tool, get_tool_by_id (store listing_world) (lit "weather") = Some tool.
Proof.
  destruct (X26_listing_agrees_with_read (store listing_world)
              [mkToolUserModel
                 (mkToolModel (lit "shared") (Some (lit "bob")) (lit "shared")
                    (lit "x = 3") [] (mkToolMeta (Some (lit "demo")) (Some ∅))
                    (Some (grant (lit "read") [lit "alice"])) 3 1)
                 (Some bob);
               mkToolUserModel
                 (mkToolModel (lit "weather") None (lit "weather") (lit "x = 2") []
                    (mkToolMeta (Some (lit "demo")) (Some ∅)) None 2 1)
                 (Some system_user_placeholder);
               mkToolUserModel
                 (mkToolModel (lit "mine") (Some (lit "alice")) (lit "mine")
                    (lit "x = 1") [] (mkToolMeta (Some (lit "demo")) (Some ∅))
                    (Some (grant (lit "write") [])) 1 1)
                 (Some alice)]
              (mkToolUserModel
                 (mkToolModel (lit "weather") None (lit "weather") (lit "x = 2") []
                    (mkToolMeta (Some (lit "demo")) (Some ∅)) None 2 1)
                 (Some system_user_placeholder))
              ltac:(apply (bool_decide_unpack _); vm_compute; exact I)
              ltac:(vm_compute; reflexivity)
              ltac:(right; left)) as (tool & H & _).
  by exists tool.
Defined.

(** X27.  A user who already holds a personal copy of a blueprint writes
    into that copy: a successful write adds no row, and the copy keeps its
    owner and its source and holds the validated value. *)
Theorem X27_later_write_reuses_copy {Mod} (env : Env Mod) (id : str)
    (cfg v : dict) (user : UserResponse) (w w' : World Mod) (B pc : Tool.row) :
  find (λ t, has_id id t && owned_by None t) (tools (store w)) = Some B →
  find (has_id (personal_copy_id id (user_ident user))) (tools (store w)) = Some pc →
  update_tools_valves_by_id env id cfg user w = (Ok v, w') →
  map Tool.id (tools (store w')) = map Tool.id (tools (store w))
  ∧ ∃ pc', find (has_id (personal_copy_id id (user_ident user))) (tools (store w'))
           = Some pc'
      ∧ Tool.valves pc' = Some v
      ∧ Tool.user_id pc' = Tool.user_id pc
      ∧ Tool.content pc' = Tool.content pc.
Proof.
  intros HB Hpc. rewrite ValvesFacts.valves_update_run, HB, Hpc. intros Hrun.
  assert (Tool.id B = id) as HBid.
  { apply StoreFacts.find_Some_true in HB as [[HB _]%andb_true_iff _].
    by apply bool_decide_eq_true in HB. }
  assert (Tool.id pc = personal_copy_id id (user_ident user)) as Hpcid
    by (by apply TableFacts.find_has_id in Hpc).
  apply ValvesFacts.valves_finish_Ok in Hrun as (m & w1 & Hm & _ & _ & ->).
  pose proof (LoaderStore.tools_module_of_frame env (Tool.id B) w) as (Ht & _).
  cbv zeta in Ht. rewrite Hm in Ht. cbn [snd] in Ht.
  unfold set_store, commit_valves. cbn [store tools].
  split.
  - rewrite IdFacts.map_id_set_valves. by apply IdFacts.touches_only_ids in Ht.
  - pose proof (LoaderStore.find_touches
                  (has_id (personal_copy_id id (user_ident user))) (Tool.id B) _ _
                  ltac:(intros x x' (H1 & _);
                        by rewrite (LoaderStore.has_id_same _ _ _ H1))
                  Ht) as Hf.
    rewrite Hpc in Hf. destruct Hf as (pc1 & Hf1 & _ & Heq).
    rewrite Heq in Hf1
      by (rewrite Hpcid, HBid; apply ValvesFacts.personal_copy_id_neq).
    rewrite Hpcid.
    rewrite (StoreFacts.find_map (has_id (personal_copy_id id (user_ident user)))
               (λ t, if has_id (personal_copy_id id (user_ident user)) t
                     then set_valves v (clock w1) t else t))
      by (intros x;
          destruct (has_id (personal_copy_id id (user_ident user)) x) eqn:E;
          exact E).
    rewrite Hf1. cbn [fmap option_fmap option_map].
    rewrite (proj1 (StoreFacts.find_Some_true _ _ _ Hpc)).
    eexists. split; [reflexivity|]. by split_and!.
Qed.

Lemma X27_later_write_reuses_copy_witness :
  let w := snd (update_tools_valves_by_id demo_env (lit "weather") celsius alice
                  weather_world) in
  let w' := snd (update_tools_valves_by_id demo_env (lit "weather") ∅ alice w) in
  length (tools (store w)) = 2 ∧ map Tool.id (tools (store w')) = map Tool.id (tools (store w)).
Proof.
  cbv zeta. split; [reflexivity|].
  refine (proj1 (X27_later_write_reuses_copy demo_env (lit "weather") ∅ ∅ alice
                   (snd (update_tools_valves_by_id demo_env (lit "weather") celsius
                           alice weather_world))
                   _ _ _
                   ltac:(vm_compute; reflexivity)
                   ltac:(vm_compute; reflexivity)
                   ltac:(vm_compute; reflexivity))).
Defined.
